(** * TD-learning update engine of coax: [coax/td_learning/_base.py]

    A shallow embedding of the classes of the module ([BaseTDLearning],
    [BaseTDLearningV], [BaseTDLearningQ], [BaseTDLearningQWithTargetPolicy])
    together with the theorems that relate the module to its written
    specification.

    Python objects are records, attribute assignment is explicit state
    passing in a small state-and-exception monad, and everything the module
    imports (jax, jax.numpy, haiku, optax, the function approximators, the
    random-state mixin) is an operation of the [Backend] class. *)

From Stdlib Require Import ZArith List Bool.
From Stdlib Require Import Floats.SpecFloat.
From Stdlib Require Import Reals Lra.
From stdpp Require Import gmap strings.

Set Warnings "-register-all".

(** ** Outcome of a Python call: a value or a raised exception *)

Inductive result (E A : Type) : Type :=
| Return (a : A)
| Raise (e : E).
Arguments Return {E A} a.
Arguments Raise {E A} e.

(** ** Pytrees

    Parameters, function states, gradients and optimizer states are pytrees:
    arrays at the leaves, [None], tuples and dicts as inner nodes.  A dict is
    kept as its items in the order in which jax flattens them (sorted keys). *)

Inductive pytree (A : Type) : Type :=
| PLeaf (a : A)
| PNone
| PTuple (xs : list (pytree A))
| PDict (kvs : list (string * pytree A)).
Arguments PLeaf {A} a.
Arguments PNone {A}.
Arguments PTuple {A} xs.
Arguments PDict {A} kvs.

(** [jax.tree_leaves] *)
Fixpoint tree_leaves {A} (t : pytree A) : list A :=
  match t with
  | PLeaf a => [a]
  | PNone => []
  | PTuple xs => flat_map tree_leaves xs
  | PDict kvs => flat_map (fun kv => tree_leaves (snd kv)) kvs
  end.

(** A [PyTreeDef] is the post-order list of the nodes of the tree, each with
    its arity or keys and without the leaf values. *)
Inductive treedef_node : Type :=
| NLeaf
| NNone
| NTuple (arity : nat)
| NDict (keys : list string).

#[global] Instance treedef_node_eq_dec : EqDecision treedef_node.
Proof. solve_decision. Defined.

(** [jax.tree_structure] *)
Fixpoint tree_structure {A} (t : pytree A) : list treedef_node :=
  match t with
  | PLeaf _ => [NLeaf]
  | PNone => [NNone]
  | PTuple xs => flat_map tree_structure xs ++ [NTuple (length xs)]
  | PDict kvs =>
      flat_map (fun kv => tree_structure (snd kv)) kvs ++ [NDict (map fst kvs)]
  end.

(** ** Exceptions

    The exceptions the module raises, over the type of arrays, and
    [ValueError], with which optax and jax refuse an argument. *)
Inductive exception (A : Type) : Type :=
| RuntimeError (grads : pytree A)   (* "found nan's in grads: {grads}" *)
| AttributeError (msg : string)
| TypeError (msg : string)
| ValueError (msg : string)
| AssertionError (G_shape reg_shape : list nat). (* "bad shape: {} != {}" *)
Arguments RuntimeError {A} grads.
Arguments AttributeError {A} msg.
Arguments TypeError {A} msg.
Arguments ValueError {A} msg.
Arguments AssertionError {A} G_shape reg_shape.

Definition rbind {E A C} (r : result E A) (k : A -> result E C) : result E C :=
  match r with
  | Return a => k a
  | Raise e => Raise e
  end.

(** ** What the module imports

    The numeric backend and the collaborators of the engine.  Nothing here is
    defined by [_base.py]; the engine only calls these operations. *)

Class Backend : Type := {
  ndarray : Type;                       (* jax arrays, scalars included *)
  key : Type;                           (* jax PRNG keys *)
  obs : Type;                           (* a batch of states S *)
  act : Type;                           (* a batch of actions A *)
  batch : Type;                         (* TransitionBatch *)
  dist_params : Type;                   (* output of a policy's forward pass *)
  hparams : Type;                       (* a regularizer's hyperparameter dict *)
  batch_S : batch -> obs;               (* transition_batch.S *)
  batch_A : batch -> act;               (* transition_batch.A *)
  arr_shape : ndarray -> list nat;      (* x.shape *)
  arr_add : ndarray -> ndarray -> ndarray;  (* x + y *)
  arr_sub : ndarray -> ndarray -> ndarray;  (* x - y *)
  arr_neg : ndarray -> ndarray;             (* -x *)
  jnp_isnan : ndarray -> ndarray;
  jnp_any : ndarray -> bool;
  jnp_mean : ndarray -> ndarray;
  jnp_sqrt : ndarray -> ndarray;
  jnp_square : ndarray -> ndarray;
  (* jax.random.split, as used by hk.PRNGSequence: (carried key, fresh key) *)
  random_split : key -> key * key;
  (* the [rng] property of the random-state mixin: (state kept, key handed out) *)
  rng_property : key -> key * key;
  (* jax.grad of a scalar function of a parameter tree *)
  jax_grad : (pytree ndarray -> ndarray) -> pytree ndarray -> pytree ndarray;
  (* jax.grad(_, argnums=1) of a scalar function of two arrays *)
  jax_grad_argnums1 :
    (ndarray -> ndarray -> ndarray) -> ndarray -> ndarray -> ndarray;
  (* optax.apply_updates(params, updates): a tree_map over both trees, which
     raises when they do not fit *)
  apply_updates : pytree ndarray -> pytree ndarray ->
                  result (exception ndarray) (pytree ndarray);
  (* coax.utils.get_grads_diagnostics(grads, key_prefix) *)
  get_grads_diagnostics : pytree ndarray -> string -> gmap string ndarray;
  (* coax.value_losses.huber *)
  huber : ndarray -> ndarray -> ndarray
}.

Abbreviation exn := (exception ndarray).

(** [hk.PRNGSequence]: the sequence is its carried key, [next] splits it. *)
Definition PRNGSequence `{Backend} (rng : key) : key := rng.
Definition next `{Backend} (rngs : key) : key * key :=
  let (carried, fresh) := random_split rngs in (fresh, carried).

(** An optax gradient transformation.  [update]'s third argument is optional
    in optax ([params=None]); a transformation that needs the parameters
    raises when they are missing, and any [update] may raise on arguments
    that do not fit. *)
Module optax.
Record GradientTransformation `{Backend} : Type := {
  init : pytree ndarray -> pytree ndarray;
  update : pytree ndarray -> pytree ndarray -> option (pytree ndarray) ->
           result exn (pytree ndarray * pytree ndarray)
}.
End optax.

(** A function approximator ([coax.V], [coax.Q], a policy): its mutable
    attributes and its forward pass
    [function(params, state, rng, x, is_training) -> (out, state_new)]. *)
Record approx `{Backend} (X Y : Type) : Type := {
  params : pytree ndarray;
  function_state : pytree ndarray;
  random_key : key;
  function : pytree ndarray -> pytree ndarray -> key -> X -> bool ->
             Y * pytree ndarray
}.
Arguments params {_ X Y} a.
Arguments function_state {_ X Y} a.
Arguments random_key {_ X Y} a.
Arguments function {_ X Y} a.

Definition set_params `{Backend} {X Y} (a : approx X Y) p : approx X Y :=
  {| params := p; function_state := function_state a;
     random_key := random_key a; function := function a |}.
Definition set_function_state `{Backend} {X Y} (a : approx X Y) s : approx X Y :=
  {| params := params a; function_state := s;
     random_key := random_key a; function := function a |}.
Definition set_random_key `{Backend} {X Y} (a : approx X Y) k : approx X Y :=
  {| params := params a; function_state := function_state a;
     random_key := k; function := function a |}.

(** [coax.policy_regularizers.PolicyRegularizer] *)
Record PolicyRegularizer `{Backend} : Type := {
  pi : approx obs dist_params;
  hyperparams : hparams;
  reg_function : dist_params -> hparams -> ndarray
}.

(** The Python values a constructor can be handed for its function
    arguments; [isinstance] is a match on the constructor. *)
Inductive pyobj `{Backend} : Type :=
| PyNone
| PyV (v : approx obs ndarray)
| PyQ (q : approx (obs * act) ndarray)
| PyPolicy (p : approx obs dist_params)
| PyRegularizer (r : PolicyRegularizer)
| PyInt (z : Z)
| PyList (l : list pyobj)
| PyTuple (l : list pyobj).

(** ** [class BaseTDLearning] *)

Module BaseTDLearning.
Section Engine.
Context `{B : Backend}.
(** [X]: what the forward pass of [f] takes ([S] for a V, [(S, A)] for a Q). *)
Context {X : Type}.

(** [self._f_targ].  [__init__] stores [f] itself when no target is given,
    so the two attributes are then one object: [SameObject] keeps that
    aliasing.  A Q-learner may also be handed a list or tuple. *)
Inductive target : Type :=
| SameObject
| Other (a : approx X ndarray)
| Sequence (l : list pyobj).

(** A constructed learner.  The attributes an update can change are
    [_optimizer], [_optimizer_state] and the attributes of [_f]. *)
Record engine : Type := {
  _f : approx X ndarray;
  _f_targ : target;
  loss_function : ndarray -> ndarray -> ndarray;
  policy_regularizer : option PolicyRegularizer;
  _optimizer : optax.GradientTransformation;
  _optimizer_state : pytree ndarray
}.

Definition set_f (e : engine) f : engine :=
  {| _f := f; _f_targ := _f_targ e; loss_function := loss_function e;
     policy_regularizer := policy_regularizer e;
     _optimizer := _optimizer e; _optimizer_state := _optimizer_state e |}.
Definition set_optimizer (e : engine) o : engine :=
  {| _f := _f e; _f_targ := _f_targ e; loss_function := loss_function e;
     policy_regularizer := policy_regularizer e;
     _optimizer := o; _optimizer_state := _optimizer_state e |}.
Definition set_optimizer_state (e : engine) s : engine :=
  {| _f := _f e; _f_targ := _f_targ e; loss_function := loss_function e;
     policy_regularizer := policy_regularizer e;
     _optimizer := _optimizer e; _optimizer_state := s |}.

(** Methods run in a state-and-exception monad over [self]. *)
Definition M (A : Type) : Type := engine -> engine * result exn A.
Definition ret {A} (a : A) : M A := fun e => (e, Return a).
Definition raise {A} (x : exn) : M A := fun e => (e, Raise x).
Definition bind {A C} (c : M A) (k : A -> M C) : M C :=
  fun e => match c e with
           | (e', Return a) => k a e'
           | (e', Raise x) => (e', Raise x)
           end.
Definition get {A} (proj : engine -> A) : M A := fun e => (e, Return (proj e)).
Definition modify (f : engine -> engine) : M unit := fun e => (f e, Return tt).
Definition lift {A} (r : engine -> result exn A) : M A := fun e => (e, r e).

Notation "x <- c ;; k" := (bind c (fun x => k))
  (at level 62, c at next level, right associativity).

(** [self._f.rng]: the mixin's property hands out a key and may advance the
    random state kept in [_f]. *)
Definition f_rng : M key :=
  fun e => let (kept, handed) := rng_property (random_key (_f e)) in
           (set_f e (set_random_key (_f e) kept), Return handed).

(** What a subclass supplies: the two abstract properties and the three
    closures that its [__init__] stores on [self].  The closures read
    attributes of [self], which is therefore their first argument here. *)
Context {TP TS : Type}.
Variable target_params : engine -> result exn TP.
Variable target_function_state : engine -> result exn TS.
Variable _grads_and_metrics_func :
  engine -> pytree ndarray -> TP -> pytree ndarray -> TS -> key -> batch ->
  result exn (pytree ndarray * pytree ndarray * gmap string ndarray).
Variable _td_error_func :
  engine -> pytree ndarray -> TP -> pytree ndarray -> TS -> key -> batch ->
  result exn ndarray.
Variable _apply_grads_func :
  optax.GradientTransformation -> pytree ndarray -> pytree ndarray ->
  pytree ndarray -> result exn (pytree ndarray * pytree ndarray).

(** The closure that [BaseTDLearning.__init__] defines.  An exception of
    [opt.update] or of [optax.apply_updates] leaves it. *)
Definition apply_grads_func (opt : optax.GradientTransformation)
    (opt_state params grads : pytree ndarray)
    : result exn (pytree ndarray * pytree ndarray) :=
  rbind (optax.update opt grads opt_state (Some params)) (fun r =>
  let (updates, new_opt_state) := r in
  rbind (apply_updates params updates) (fun new_params =>
  Return (new_opt_state, new_params))).

Definition grads_and_metrics (transition_batch : batch)
    : M (pytree ndarray * pytree ndarray * gmap string ndarray) :=
  p <- get (fun self => params (_f self)) ;;
  tp <- lift target_params ;;
  s <- get (fun self => function_state (_f self)) ;;
  ts <- lift target_function_state ;;
  rng <- f_rng ;;
  (fun self => (self, _grads_and_metrics_func self p tp s ts rng transition_batch)).

Definition td_error (transition_batch : batch) : M ndarray :=
  p <- get (fun self => params (_f self)) ;;
  tp <- lift target_params ;;
  s <- get (fun self => function_state (_f self)) ;;
  ts <- lift target_function_state ;;
  rng <- f_rng ;;
  (fun self => (self, _td_error_func self p tp s ts rng transition_batch)).

(** The function state is stored first; the closure runs next, and an
    exception of it leaves [self] with the new function state and the old
    optimizer state and parameters; then the two results are stored. *)
Definition update_from_grads (grads function_state : pytree ndarray) : M unit :=
  _ <- modify (fun self => set_f self (set_function_state (_f self) function_state)) ;;
  r <- lift (fun self =>
             _apply_grads_func (_optimizer self) (_optimizer_state self)
                               (params (_f self)) grads) ;;
  _ <- modify (fun self => set_optimizer_state self (fst r)) ;;
  modify (fun self => set_f self (set_params (_f self) (snd r))).

(** [any(jnp.any(jnp.isnan(g)) for g in jax.tree_leaves(grads))] *)
Definition found_nan (grads : pytree ndarray) : bool :=
  existsb (fun g => jnp_any (jnp_isnan g)) (tree_leaves grads).

Definition update (transition_batch : batch) : M (gmap string ndarray) :=
  r <- grads_and_metrics transition_batch ;;
  (let '(grads, function_state, metrics) := r in
   if found_nan grads then raise (RuntimeError grads)
   else (_ <- update_from_grads grads function_state ;;
         ret metrics)).

(** The [optimizer] property and its setter. *)
Definition optimizer : M optax.GradientTransformation := get _optimizer.

Definition optimizer_setter (new_optimizer : optax.GradientTransformation) : M unit :=
  p <- get (fun self => params (_f self)) ;;
  let new_optimizer_state_structure :=
    tree_structure (optax.init new_optimizer p) in
  s <- get _optimizer_state ;;
  (if bool_decide (new_optimizer_state_structure <> tree_structure s)
   then raise (AttributeError
                 "cannot set optimizer attr: mismatch in optimizer_state structure")
   else modify (fun self => set_optimizer self new_optimizer)).

Definition optimizer_state : M (pytree ndarray) := get _optimizer_state.
Definition optimizer_state_setter (new_optimizer_state : pytree ndarray) : M unit :=
  modify (fun self => set_optimizer_state self new_optimizer_state).

(** [hyperparams]: the empty dict. *)
Definition hyperparams_property : gmap string ndarray := ∅.

(** *** Construction

    [__init__] runs on an object whose attributes are not set yet; each
    assignment sets one.  A raised exception leaves the object as it was at
    that point. *)
Record object : Type := {
  o_f : option (approx X ndarray);
  o_f_targ : option target;
  o_loss_function : option (ndarray -> ndarray -> ndarray);
  o_policy_regularizer : option (option PolicyRegularizer);
  o_optimizer : option optax.GradientTransformation;
  o_optimizer_state : option (pytree ndarray)
}.

Definition blank : object :=
  {| o_f := None; o_f_targ := None; o_loss_function := None;
     o_policy_regularizer := None; o_optimizer := None;
     o_optimizer_state := None |}.

(** [optax.adam(1e-3)], the default optimizer. *)
Variable adam_1e_3 : optax.GradientTransformation.

(** [isinstance(policy_regularizer, (PolicyRegularizer, type(None)))] *)
Definition as_regularizer_or_None (o : pyobj) : option (option PolicyRegularizer) :=
  match o with
  | PyRegularizer r => Some (Some r)
  | PyNone => Some None
  | _ => None
  end.

Definition __init__ (self : object) (f : approx X ndarray)
    (f_targ : option (approx X ndarray + list pyobj))
    (optimizer : option optax.GradientTransformation)
    (loss_function : option (ndarray -> ndarray -> ndarray))
    (policy_regularizer : pyobj) : object * result exn unit :=
  let self := {| o_f := Some f;
                 o_f_targ := Some match f_targ with
                                  | None => SameObject
                                  | Some (inl a) => Other a
                                  | Some (inr l) => Sequence l
                                  end;
                 o_loss_function := Some match loss_function with
                                         | None => huber
                                         | Some l => l
                                         end;
                 o_policy_regularizer := o_policy_regularizer self;
                 o_optimizer := o_optimizer self;
                 o_optimizer_state := o_optimizer_state self |} in
  match as_regularizer_or_None policy_regularizer with
  | None => (self, Raise (TypeError "policy_regularizer must be PolicyRegularizer"))
  | Some reg =>
      let opt := match optimizer with None => adam_1e_3 | Some o => o end in
      ({| o_f := o_f self; o_f_targ := o_f_targ self;
          o_loss_function := o_loss_function self;
          o_policy_regularizer := Some reg;
          o_optimizer := Some opt;
          o_optimizer_state := Some (optax.init opt (params f)) |},
       Return tt)
  end.

(** The learner a finished [__init__] leaves behind. *)
Definition constructed (o : object) : option engine :=
  match o_f o, o_f_targ o, o_loss_function o,
        o_policy_regularizer o, o_optimizer o, o_optimizer_state o with
  | Some f, Some t, Some l, Some r, Some opt, Some s =>
      Some {| _f := f; _f_targ := t; loss_function := l;
              policy_regularizer := r; _optimizer := opt;
              _optimizer_state := s |}
  | _, _, _, _, _, _ => None
  end.

(** Attribute lookup on [self._f_targ]: a list or tuple has neither
    [params] nor [function_state] nor a forward pass. *)
Definition f_targ_attr {A} (attr : approx X ndarray -> A) (self : engine)
    : result exn A :=
  match _f_targ self with
  | SameObject => Return (attr (_f self))
  | Other a => Return (attr a)
  | Sequence _ => Raise (AttributeError "object has no such attribute")
  end.

End Engine.
Arguments target {B} X.
Arguments engine {B} X.
Arguments object {B} X.
End BaseTDLearning.


(** ** Helpers shared by the V and Q learners *)

(** [jax.grad(f, has_aux=True)(p)]: [f] is run at [p]; an exception raised
    while it runs propagates; otherwise the gradient of the first component
    is returned with the auxiliary value. *)
Definition jax_grad_has_aux `{Backend} {Aux : Type}
    (f : pytree ndarray -> result exn (ndarray * Aux)) (p : pytree ndarray)
    : result exn (pytree ndarray * Aux) :=
  match f p with
  | Raise e => Raise e
  | Return (loss, aux) =>
      Return (jax_grad (fun p' => match f p' with
                                  | Return (l, _) => l
                                  | Raise _ => loss
                                  end) p,
              aux)
  end.

(** The metrics dict that both [grads_and_metrics_func] closures build:
    the five literal entries, then [metrics.update(get_grads_diagnostics(..))],
    whose entries replace equal keys. *)
Definition metrics_dict `{Backend} (name : string)
    (loss err err_targ : ndarray) (grads : pytree ndarray) : gmap string ndarray :=
  let metrics : gmap string ndarray :=
    <[name +:+ "/rmse_targ" := jnp_sqrt (jnp_mean (jnp_square err_targ))]>
    (<[name +:+ "/bias_targ" := jnp_mean err_targ]>
    (<[name +:+ "/rmse" := jnp_sqrt (jnp_mean (jnp_square err))]>
    (<[name +:+ "/bias" := jnp_mean err]>
    (<[name +:+ "/loss" := loss]> ∅)))) in
  get_grads_diagnostics grads (name +:+ "/grads_") ∪ metrics.

(** The policy-regularisation step of [loss_func] and [td_error_func]:
<<
    if self.policy_regularizer is not None:
        dist_params, _ = self.policy_regularizer.pi.function(
            target_params['reg_pi'], target_state['reg_pi'], next(rngs), S, False)
        reg = self.policy_regularizer.function(dist_params, **target_params['reg_hparams'])
        assert reg.shape == G.shape, f"bad shape: {G.shape} != {reg.shape}"
        G += -reg
>>
    It returns the new [G].  [reg_hparams] is [None] in a [target_params]
    built without a regularizer, and [**None] is a [TypeError]. *)
Definition add_policy_regularization `{Backend}
    (policy_regularizer : option PolicyRegularizer)
    (reg_pi_params reg_pi_state : pytree ndarray) (reg_hparams : option hparams)
    (rngs : key) (S : obs) (G : ndarray) : result exn ndarray :=
  match policy_regularizer with
  | Some regularizer =>
      let (rng, _) := next rngs in
      let (dist_params, _) :=
        function (pi regularizer) reg_pi_params reg_pi_state rng S false in
      match reg_hparams with
      | None => Raise (TypeError "argument after ** must be a mapping, not NoneType")
      | Some hp =>
          let reg := reg_function regularizer dist_params hp in
          if bool_decide (arr_shape reg = arr_shape G)
          then Return (arr_add G (arr_neg reg))
          else Raise (AssertionError (arr_shape G) (arr_shape reg))
      end
  | None => Return G
  end.

(** ** [class BaseTDLearningV] *)

Module BaseTDLearningV.
Section Learner.
Context `{B : Backend}.

Local Abbreviation engine := (BaseTDLearning.engine obs).
Notation "x <- c ;; k" := (rbind c (fun x => k))
  (at level 62, c at next level, right associativity).

(** The dict returned by [target_params]; a missing regularizer gives
    [None] under ['reg_pi'] and ['reg_hparams']. *)
Record TargetParams : Type := {
  tp_v : pytree ndarray;
  tp_v_targ : pytree ndarray;
  tp_reg_pi : pytree ndarray;
  tp_reg_hparams : option hparams
}.

(** The dict returned by [target_function_state]. *)
Record TargetState : Type := {
  ts_v : pytree ndarray;
  ts_v_targ : pytree ndarray;
  ts_reg_pi : pytree ndarray
}.

(** [self.__class__.__name__] and the abstract method [target_func] of the
    concrete learner. *)
Variable class_name : string.
Variable target_func : TargetParams -> TargetState -> key -> batch -> ndarray.

Definition v (self : engine) : approx obs ndarray := BaseTDLearning._f self.

Definition target_params (self : engine) : result exn TargetParams :=
  p_targ <- BaseTDLearning.f_targ_attr params self ;;
  Return {| tp_v := params (v self);
            tp_v_targ := p_targ;
            tp_reg_pi := match BaseTDLearning.policy_regularizer self with
                         | Some r => params (pi r)
                         | None => PNone
                         end;
            tp_reg_hparams := match BaseTDLearning.policy_regularizer self with
                              | Some r => Some (hyperparams r)
                              | None => None
                              end |}.

Definition target_function_state (self : engine) : result exn TargetState :=
  s_targ <- BaseTDLearning.f_targ_attr function_state self ;;
  Return {| ts_v := function_state (v self);
            ts_v_targ := s_targ;
            ts_reg_pi := match BaseTDLearning.policy_regularizer self with
                         | Some r => function_state (pi r)
                         | None => PNone
                         end |}.

Definition loss_func (self : engine)
    (params : pytree ndarray) (target_params : TargetParams)
    (state : pytree ndarray) (target_state : TargetState)
    (rng : key) (transition_batch : batch)
    : result exn (ndarray * (ndarray * ndarray * ndarray * obs * pytree ndarray)) :=
  let rngs := PRNGSequence rng in
  let S := batch_S transition_batch in
  let (rng1, rngs) := next rngs in
  let G := target_func target_params target_state rng1 transition_batch in
  let (rng2, rngs) := next rngs in
  let (V, state_new) := function (v self) params state rng2 S true in
  G <- add_policy_regularization (BaseTDLearning.policy_regularizer self)
         (tp_reg_pi target_params) (ts_reg_pi target_state)
         (tp_reg_hparams target_params) rngs S G ;;
  let loss := BaseTDLearning.loss_function self G V in
  Return (loss, (loss, G, V, S, state_new)).

Definition grads_and_metrics_func (self : engine)
    (params : pytree ndarray) (target_params : TargetParams)
    (state : pytree ndarray) (target_state : TargetState)
    (rng : key) (transition_batch : batch)
    : result exn (pytree ndarray * pytree ndarray * gmap string ndarray) :=
  let rngs := PRNGSequence rng in
  let (rng1, rngs) := next rngs in
  r <- jax_grad_has_aux
         (fun p => loss_func self p target_params state target_state rng1
                             transition_batch) params ;;
  let '(grads, (loss, G, V, S', state_new)) := r in
  (* target-network estimate *)
  v_targ_function <- BaseTDLearning.f_targ_attr function self ;;
  let (rng2, rngs) := next rngs in
  let (V_targ, _) := v_targ_function (tp_v_targ target_params) state rng2 S' false in
  (* residuals: estimate - better_estimate *)
  let err := arr_sub V G in
  let err_targ := arr_sub V_targ V in
  let metrics := metrics_dict class_name loss err err_targ grads in
  Return (grads, state_new, metrics).

Definition td_error_func (self : engine)
    (params : pytree ndarray) (target_params : TargetParams)
    (state : pytree ndarray) (target_state : TargetState)
    (rng : key) (transition_batch : batch) : result exn ndarray :=
  let rngs := PRNGSequence rng in
  let S := batch_S transition_batch in
  let (rng1, rngs) := next rngs in
  let G := target_func target_params target_state rng1 transition_batch in
  let (rng2, rngs) := next rngs in
  let (V, _) := function (v self) params state rng2 S false in
  G <- add_policy_regularization (BaseTDLearning.policy_regularizer self)
         (tp_reg_pi target_params) (ts_reg_pi target_state)
         (tp_reg_hparams target_params) rngs S G ;;
  let dL_dV := jax_grad_argnums1 (BaseTDLearning.loss_function self) in
  Return (arr_neg (dL_dV G V)).

(** [BaseTDLearningV.__init__]: the two [isinstance] checks, then the base
    class's [__init__]. *)
Definition __init__ (adam_1e_3 : optax.GradientTransformation)
    (self : BaseTDLearning.object obs) (v v_targ : pyobj)
    (optimizer : option optax.GradientTransformation)
    (loss_function : option (ndarray -> ndarray -> ndarray))
    (policy_regularizer : pyobj) : BaseTDLearning.object obs * result exn unit :=
  match v with
  | PyV v =>
      match v_targ with
      | PyV v_targ =>
          BaseTDLearning.__init__ adam_1e_3 self v (Some (inl v_targ))
            optimizer loss_function policy_regularizer
      | PyNone =>
          BaseTDLearning.__init__ adam_1e_3 self v None
            optimizer loss_function policy_regularizer
      | _ => (self, Raise (TypeError "v_targ must be a coax.Q or None"))
      end
  | _ => (self, Raise (TypeError "v must be a coax.V"))
  end.

(** The methods of the base class with this class's closures and
    properties. *)
Definition grads_and_metrics :=
  BaseTDLearning.grads_and_metrics target_params target_function_state
    grads_and_metrics_func.
Definition td_error :=
  BaseTDLearning.td_error target_params target_function_state td_error_func.
Definition update_from_grads :=
  BaseTDLearning.update_from_grads (X := obs) BaseTDLearning.apply_grads_func.
Definition update :=
  BaseTDLearning.update target_params target_function_state
    grads_and_metrics_func BaseTDLearning.apply_grads_func.

End Learner.
End BaseTDLearningV.


(** ** [class BaseTDLearningQ] *)

Module BaseTDLearningQ.
Section Learner.
Context `{B : Backend}.

Local Abbreviation engine := (BaseTDLearning.engine (obs * act)).
Notation "x <- c ;; k" := (rbind c (fun x => k))
  (at level 62, c at next level, right associativity).

(** The dict returned by [target_params]. *)
Record TargetParams : Type := {
  tp_q : pytree ndarray;
  tp_q_targ : pytree ndarray;
  tp_reg_pi : pytree ndarray;
  tp_reg_hparams : option hparams
}.

(** The dict returned by [target_function_state]. *)
Record TargetState : Type := {
  ts_q : pytree ndarray;
  ts_q_targ : pytree ndarray;
  ts_reg_pi : pytree ndarray
}.

(** [self.__class__.__name__], the abstract method [target_func], and
    [self.q.action_preprocessor]. *)
Variable class_name : string.
Variable target_func : TargetParams -> TargetState -> key -> batch -> ndarray.
Variable action_preprocessor : act -> act.

Definition q (self : engine) : approx (obs * act) ndarray := BaseTDLearning._f self.

(** [self.q.function_type1(params, state, rng, S, A, is_training)] *)
Definition function_type1 (q : approx (obs * act) ndarray)
    (params state : pytree ndarray) (rng : key) (S : obs) (A : act)
    (is_training : bool) : ndarray * pytree ndarray :=
  function q params state rng (S, A) is_training.

Definition target_params (self : engine) : result exn TargetParams :=
  p_targ <- BaseTDLearning.f_targ_attr params self ;;
  Return {| tp_q := params (q self);
            tp_q_targ := p_targ;
            tp_reg_pi := match BaseTDLearning.policy_regularizer self with
                         | Some r => params (pi r)
                         | None => PNone
                         end;
            tp_reg_hparams := match BaseTDLearning.policy_regularizer self with
                              | Some r => Some (hyperparams r)
                              | None => None
                              end |}.

Definition target_function_state (self : engine) : result exn TargetState :=
  s_targ <- BaseTDLearning.f_targ_attr function_state self ;;
  Return {| ts_q := function_state (q self);
            ts_q_targ := s_targ;
            ts_reg_pi := match BaseTDLearning.policy_regularizer self with
                         | Some r => function_state (pi r)
                         | None => PNone
                         end |}.

Definition loss_func (self : engine)
    (params : pytree ndarray) (target_params : TargetParams)
    (state : pytree ndarray) (target_state : TargetState)
    (rng : key) (transition_batch : batch)
    : result exn (ndarray *
                  (ndarray * ndarray * ndarray * obs * act * pytree ndarray)) :=
  let rngs := PRNGSequence rng in
  let S := batch_S transition_batch in
  let A := batch_A transition_batch in
  let A := action_preprocessor A in
  let (rng1, rngs) := next rngs in
  let G := target_func target_params target_state rng1 transition_batch in
  let (rng2, rngs) := next rngs in
  let (Q, state_new) := function_type1 (q self) params state rng2 S A true in
  G <- add_policy_regularization (BaseTDLearning.policy_regularizer self)
         (tp_reg_pi target_params) (ts_reg_pi target_state)
         (tp_reg_hparams target_params) rngs S G ;;
  let loss := BaseTDLearning.loss_function self G Q in
  Return (loss, (loss, G, Q, S, A, state_new)).

Definition grads_and_metrics_func (self : engine)
    (params : pytree ndarray) (target_params : TargetParams)
    (state : pytree ndarray) (target_state : TargetState)
    (rng : key) (transition_batch : batch)
    : result exn (pytree ndarray * pytree ndarray * gmap string ndarray) :=
  let rngs := PRNGSequence rng in
  let (rng1, rngs) := next rngs in
  r <- jax_grad_has_aux
         (fun p => loss_func self p target_params state target_state rng1
                             transition_batch) params ;;
  let '(grads, (loss, G, Q, S', A, state_new)) := r in
  (* target-network estimate *)
  q_targ_function <- BaseTDLearning.f_targ_attr function_type1 self ;;
  let (rng2, rngs) := next rngs in
  let (Q_targ, _) :=
    q_targ_function (tp_q_targ target_params) (ts_q_targ target_state)
                    rng2 S' A false in
  (* residuals: estimate - better_estimate *)
  let err := arr_sub Q G in
  let err_targ := arr_sub Q_targ Q in
  let metrics := metrics_dict class_name loss err err_targ grads in
  Return (grads, state_new, metrics).

Definition td_error_func (self : engine)
    (params : pytree ndarray) (target_params : TargetParams)
    (state : pytree ndarray) (target_state : TargetState)
    (rng : key) (transition_batch : batch) : result exn ndarray :=
  let rngs := PRNGSequence rng in
  let S := batch_S transition_batch in
  let A := action_preprocessor (batch_A transition_batch) in
  let (rng1, rngs) := next rngs in
  let G := target_func target_params target_state rng1 transition_batch in
  let (rng2, rngs) := next rngs in
  let (Q, _) := function_type1 (q self) params state rng2 S A false in
  G <- add_policy_regularization (BaseTDLearning.policy_regularizer self)
         (tp_reg_pi target_params) (ts_reg_pi target_state)
         (tp_reg_hparams target_params) rngs S G ;;
  let dL_dQ := jax_grad_argnums1 (BaseTDLearning.loss_function self) in
  Return (arr_neg (dL_dQ G Q)).

(** The closure with which [BaseTDLearningQ.__init__] replaces the base
    class's [_apply_grads_func]: [opt.update] is called without [params]. *)
Definition apply_grads_func (opt : optax.GradientTransformation)
    (opt_state params grads : pytree ndarray)
    : result exn (pytree ndarray * pytree ndarray) :=
  r <- optax.update opt grads opt_state None ;;
  let (updates, new_opt_state) := r in
  new_params <- apply_updates params updates ;;
  Return (new_opt_state, new_params).

(** [BaseTDLearningQ.__init__]:
    [isinstance(q, Q)], [isinstance(q_targ, (Q, type(None), list, tuple))],
    then the base class's [__init__]. *)
Definition __init__ (adam_1e_3 : optax.GradientTransformation)
    (self : BaseTDLearning.object (obs * act)) (q q_targ : pyobj)
    (optimizer : option optax.GradientTransformation)
    (loss_function : option (ndarray -> ndarray -> ndarray))
    (policy_regularizer : pyobj)
    : BaseTDLearning.object (obs * act) * result exn unit :=
  match q with
  | PyQ q =>
      match q_targ with
      | PyQ q_targ =>
          BaseTDLearning.__init__ adam_1e_3 self q (Some (inl q_targ))
            optimizer loss_function policy_regularizer
      | PyNone =>
          BaseTDLearning.__init__ adam_1e_3 self q None
            optimizer loss_function policy_regularizer
      | PyList l | PyTuple l =>
          BaseTDLearning.__init__ adam_1e_3 self q (Some (inr l))
            optimizer loss_function policy_regularizer
      | _ => (self, Raise (TypeError "q_targ must be a coax.Q or None"))
      end
  | _ => (self, Raise (TypeError "q must be a coax.Q"))
  end.

Definition grads_and_metrics :=
  BaseTDLearning.grads_and_metrics target_params target_function_state
    grads_and_metrics_func.
Definition td_error :=
  BaseTDLearning.td_error target_params target_function_state td_error_func.
Definition update_from_grads :=
  BaseTDLearning.update_from_grads (X := obs * act) apply_grads_func.
Definition update :=
  BaseTDLearning.update target_params target_function_state
    grads_and_metrics_func apply_grads_func.

End Learner.
End BaseTDLearningQ.


(** ** The plain squared-error loss *)

(** Modelled from the spec: [coax.value_losses] is not part of this module,
    so the plain squared-error loss is taken from the specification, whose
    worked scenario fixes it as the mean of the squared residuals (targets
    [1,2,3,4] against predictions [0,0,0,0] give the loss 7.5). *)
Definition mse `{Backend} (y_true y_pred : ndarray) : ndarray :=
  jnp_mean (jnp_square (arr_sub y_pred y_true)).

(** ** Generic pytree maps used by the concrete backends *)

Fixpoint tree_map {A C} (f : A -> C) (t : pytree A) : pytree C :=
  match t with
  | PLeaf a => PLeaf (f a)
  | PNone => PNone
  | PTuple xs => PTuple (map (tree_map f) xs)
  | PDict kvs => PDict (map (fun kv => (fst kv, tree_map f (snd kv))) kvs)
  end.

(** Leaf-wise combination of two trees of the same structure; where the
    structures part, the first tree is kept. *)
Fixpoint tree_map2 {A} (f : A -> A -> A) (t u : pytree A) : pytree A :=
  match t, u with
  | PLeaf a, PLeaf b => PLeaf (f a b)
  | PTuple xs, PTuple ys =>
      PTuple ((fix go (xs ys : list (pytree A)) : list (pytree A) :=
                 match xs, ys with
                 | x :: xs', y :: ys' => tree_map2 f x y :: go xs' ys'
                 | _, _ => xs
                 end) xs ys)
  | PDict kvs, PDict kvs' =>
      PDict ((fix go (xs ys : list (string * pytree A)) : list (string * pytree A) :=
                match xs, ys with
                | x :: xs', y :: ys' =>
                    (fst x, tree_map2 f (snd x) (snd y)) :: go xs' ys'
                | _, _ => xs
                end) kvs kvs')
  | _, _ => t
  end.

(** Map over the leaves with their position in [tree_leaves] order; the
    second component is the next free position. *)
Fixpoint tree_mapi_from {A C} (f : nat -> A -> C) (t : pytree A) (n : nat)
    : pytree C * nat :=
  match t with
  | PLeaf a => (PLeaf (f n a), S n)
  | PNone => (PNone, n)
  | PTuple xs =>
      let (ys, n') :=
        (fix go (xs : list (pytree A)) (n : nat) : list (pytree C) * nat :=
           match xs with
           | [] => ([], n)
           | x :: xs' =>
               let (y, n1) := tree_mapi_from f x n in
               let (ys, n2) := go xs' n1 in
               (y :: ys, n2)
           end) xs n in
      (PTuple ys, n')
  | PDict kvs =>
      let (ys, n') :=
        (fix go (xs : list (string * pytree A)) (n : nat)
           : list (string * pytree C) * nat :=
           match xs with
           | [] => ([], n)
           | x :: xs' =>
               let (y, n1) := tree_mapi_from f (snd x) n in
               let (ys, n2) := go xs' n1 in
               ((fst x, y) :: ys, n2)
           end) kvs n in
      (PDict ys, n')
  end.

Definition tree_mapi {A C} (f : nat -> A -> C) (t : pytree A) : pytree C :=
  fst (tree_mapi_from f t 0).

(** ** A binary32 backend

    IEEE single-precision arithmetic ([SpecFloat]), one-dimensional arrays,
    and [jax.grad] by central differences with step one, which is exact on
    the quadratic examples below.  It serves to run the engine on concrete
    inputs. *)

Module F32.

Definition f32 : Type := spec_float.
Definition ofZ (z : Z) : f32 := binary_normalize 24 128 z 0 false.
Definition add : f32 -> f32 -> f32 := SFadd 24 128.
Definition sub : f32 -> f32 -> f32 := SFsub 24 128.
Definition mul : f32 -> f32 -> f32 := SFmul 24 128.
Definition div : f32 -> f32 -> f32 := SFdiv 24 128.
Definition sqrt : f32 -> f32 := SFsqrt 24 128.
Definition neg : f32 -> f32 := SFopp.
Definition nan : f32 := S754_nan.
Definition inf : f32 := S754_infinity false.

Definition isnan (x : f32) : bool :=
  match x with S754_nan => true | _ => false end.
Definition isinf (x : f32) : bool :=
  match x with S754_infinity _ => true | _ => false end.
Definition isfinite (x : f32) : bool := negb (isnan x || isinf x).
(** Truth value of a number: everything but zero. *)
Definition truthy (x : f32) : bool := negb (SFeqb x (ofZ 0)).

Definition vec : Type := list f32.
Definition sum (x : vec) : f32 := foldr add (ofZ 0) x.
Definition mean (x : vec) : vec := [div (sum x) (ofZ (Z.of_nat (length x)))].
Definition scalar (x : vec) : f32 := hd nan x.

(** [x] with [h] added at position [i]. *)
Definition bump (x : vec) (i : nat) (h : f32) : vec := alter (add h) i x.

(** Central difference of [g] around zero with step one. *)
Definition central (g : f32 -> f32) : f32 :=
  div (sub (g (ofZ 1)) (g (ofZ (-1)))) (ofZ 2).

Definition grad_tree (f : pytree vec -> vec) (p : pytree vec) : pytree vec :=
  tree_mapi
    (fun n a =>
       map (fun i =>
              central (fun h =>
                scalar (f (tree_mapi (fun m b => if Nat.eqb m n then bump b i h else b) p))))
           (seq 0 (length a)))
    p.

Definition grad_argnums1 (L : vec -> vec -> vec) (y_true y_pred : vec) : vec :=
  map (fun i => central (fun h => scalar (L y_true (bump y_pred i h))))
      (seq 0 (length y_pred)).

Definition abs_max (grads : pytree vec) : f32 :=
  foldr (fun x m => if SFltb m (SFabs x) then SFabs x else m) (ofZ 0)
        (concat (tree_leaves grads)).

(** A transition batch: states, actions and the bootstrap targets that the
    concrete learners below return from [target_func]. *)
Record TransitionBatch : Type := {
  tb_S : vec;
  tb_A : vec;
  tb_G : vec
}.

(** Huber loss with [delta = 1], averaged over the batch. *)
Definition huber_loss (y_true y_pred : vec) : vec :=
  mean (zip_with (fun t p =>
                    let e := SFabs (sub p t) in
                    if SFleb e (ofZ 1)
                    then mul (div (ofZ 1) (ofZ 2)) (mul e e)
                    else sub e (div (ofZ 1) (ofZ 2)))
                 y_true y_pred).

#[export] Instance backend : Backend := {|
  ndarray := vec;
  key := nat;
  obs := vec;
  act := vec;
  batch := TransitionBatch;
  dist_params := vec;
  hparams := f32;
  batch_S := tb_S;
  batch_A := tb_A;
  arr_shape := fun x => [length x];
  arr_add := zip_with add;
  arr_sub := zip_with sub;
  arr_neg := map neg;
  jnp_isnan := map (fun x => if isnan x then ofZ 1 else ofZ 0);
  jnp_any := existsb truthy;
  jnp_mean := mean;
  jnp_sqrt := map sqrt;
  jnp_square := map (fun x => mul x x);
  random_split := fun k => (2 * k, 2 * k + 1);
  rng_property := fun k => (2 * k, 2 * k + 1);
  jax_grad := grad_tree;
  jax_grad_argnums1 := grad_argnums1;
  apply_updates := fun params updates =>
    if bool_decide (tree_structure params = tree_structure updates)
    then Return (tree_map2 (zip_with add) params updates)
    else Raise (ValueError "tree structures do not match");
  get_grads_diagnostics :=
    fun grads key_prefix => {[ key_prefix +:+ "max" := [abs_max grads] ]};
  huber := huber_loss
|}.

(** Plain gradient descent with learning rate [lr]: no state, and [params]
    is not looked at. *)
Definition sgd (lr : f32) : optax.GradientTransformation := {|
  optax.init := fun _ => PTuple [];
  optax.update := fun grads state _ =>
    Return (tree_map (map (fun g => neg (mul lr g))) grads, state)
|}.

(** Gradient descent with decoupled weight decay [wd]: the decay term needs
    [params]; without them only the gradient step is taken. *)
Definition sgd_weight_decay (lr wd : f32) : optax.GradientTransformation := {|
  optax.init := fun _ => PTuple [];
  optax.update := fun grads state params =>
    match params with
    | Some p =>
        Return
          (tree_map2 (zip_with (fun g w => neg (mul lr (add g (mul wd w))))) grads p,
           state)
    | None => Return (tree_map (map (fun g => neg (mul lr g))) grads, state)
    end
|}.

(** The same with optax's own convention for a transformation that needs
    the parameters ([optax.add_decayed_weights], [optax.adamw]): [update]
    called without [params] raises [ValueError] with optax's
    [NO_PARAMS_MSG]. *)
Definition NO_PARAMS_MSG : string :=
  "You are using a transformation that requires the current value of parameters, but you are not passing `params` when calling `update`.".

Definition strict_weight_decay (lr wd : f32) : optax.GradientTransformation := {|
  optax.init := fun _ => PTuple [];
  optax.update := fun grads state params =>
    match params with
    | Some p =>
        Return
          (tree_map2 (zip_with (fun g w => neg (mul lr (add g (mul wd w))))) grads p,
           state)
    | None => Raise (ValueError NO_PARAMS_MSG)
    end
|}.

(** Gradient descent with momentum: the state is the momentum tree. *)
Definition momentum (lr beta : f32) : optax.GradientTransformation := {|
  optax.init := fun p => PTuple [tree_map (map (fun _ => ofZ 0)) p];
  optax.update := fun grads state _ =>
    match state with
    | PTuple [m] =>
        let m' := tree_map2 (zip_with (fun g v => add g (mul beta v))) grads m in
        Return (tree_map (map (fun g => neg (mul lr g))) m', PTuple [m'])
    | _ => Return (tree_map (map (fun g => neg (mul lr g))) grads, state)
    end
|}.

(** The linear state-value function [V(s) = w * s] with its single
    parameter in [params = PLeaf [w]]; the forward pass has no state. *)
Definition linear_forward (params state : pytree vec) (rng : nat) (S : vec)
    (is_training : bool) : vec * pytree vec :=
  match params with
  | PLeaf [w] => (map (mul w) S, state)
  | _ => (map (fun _ => nan) S, state)
  end.

Definition linear_v (w : Z) : approx vec vec := {|
  params := PLeaf [ofZ w];
  function_state := PNone;
  random_key := 0;
  function := linear_forward
|}.

(** The state-action value function [Q(s, a) = w * s + a]. *)
Definition linear_q (w : Z) : approx (vec * vec) vec := {|
  params := PLeaf [ofZ w];
  function_state := PNone;
  random_key := 0;
  function := fun params state rng SA is_training =>
    let (V, state') := linear_forward params state rng (fst SA) is_training in
    (zip_with add V (snd SA), state')
|}.

(** A value function whose forward pass reads and advances its function
    state: [V(s) = w * s + c] with the offset [c] kept in the state; a
    training-mode pass returns the state [c + 1]. *)
Definition offset_forward (params state : pytree vec) (rng : nat) (S : vec)
    (is_training : bool) : vec * pytree vec :=
  match params, state with
  | PLeaf [w], PLeaf [c] =>
      (map (fun s => add (mul w s) c) S,
       if is_training then PLeaf [add c (ofZ 1)] else state)
  | _, _ => (map (fun _ => nan) S, state)
  end.

Definition offset_v (w c : Z) : approx vec vec := {|
  params := PLeaf [ofZ w];
  function_state := PLeaf [ofZ c];
  random_key := 0;
  function := offset_forward
|}.

(** Its state-action counterpart [Q(s, a) = w * s + c + a]. *)
Definition offset_q (w c : Z) : approx (vec * vec) vec := {|
  params := PLeaf [ofZ w];
  function_state := PLeaf [ofZ c];
  random_key := 0;
  function := fun params state rng SA is_training =>
    let (V, state') := offset_forward params state rng (fst SA) is_training in
    (zip_with add V (snd SA), state')
|}.

(** A policy whose distribution parameters are its observations, and two
    regularizers on it: [beta * dist_params], of the batch's shape, and its
    batch mean, of shape [[1]]. *)
Definition identity_pi : approx vec vec := {|
  params := PNone;
  function_state := PNone;
  random_key := 0;
  function := fun _ state _ S _ => (S, state)
|}.

Definition scaling_regularizer (beta : Z) : PolicyRegularizer := {|
  pi := identity_pi;
  hyperparams := ofZ beta;
  reg_function := fun dist beta => map (mul beta) dist
|}.

Definition mean_regularizer (beta : Z) : PolicyRegularizer := {|
  pi := identity_pi;
  hyperparams := ofZ beta;
  reg_function := fun dist beta => mean (map (mul beta) dist)
|}.

(** A V-learner on [linear_v] whose [target_func] returns the targets
    carried by the batch. *)
Definition learner (w : Z) (loss : vec -> vec -> vec)
    (reg : option PolicyRegularizer) : BaseTDLearning.engine vec := {|
  BaseTDLearning._f := linear_v w;
  BaseTDLearning._f_targ := BaseTDLearning.SameObject;
  BaseTDLearning.loss_function := loss;
  BaseTDLearning.policy_regularizer := reg;
  BaseTDLearning._optimizer := sgd (div (ofZ 1) (ofZ 8));
  BaseTDLearning._optimizer_state := PTuple []
|}.

Definition batch_target {TP TS : Type} (_ : TP) (_ : TS) (_ : nat)
    (b : TransitionBatch) : vec := tb_G b.

(** Four transitions with states [1,1,1,1] and targets [1,2,3,4]. *)
Definition batch4 : TransitionBatch :=
  {| tb_S := map ofZ [1; 1; 1; 1]%Z;
     tb_A := map ofZ [0; 0; 0; 0]%Z;
     tb_G := map ofZ [1; 2; 3; 4]%Z |}.

End F32.



(** ** A backend over the real numbers

    Arrays of real numbers, with [jax.grad] left open: the two gradient
    operators are parameters, and a statement about derivatives assumes of
    them what [jax.grad] promises, namely that they return the partial
    derivatives ([is_grad_argnums1] below).  It serves to say what the
    engine computes up to rounding. *)

Module RealModel.

Definition vec : Type := list R.
Definition sum (x : vec) : R := foldr Rplus 0%R x.
Definition mean (x : vec) : vec := [(sum x / INR (length x))%R].
Definition scalar (x : vec) : R := hd 0%R x.

(** [x] with [h] added at position [i]. *)
Definition bump (x : vec) (i : nat) (h : R) : vec := alter (Rplus h) i x.

Record TransitionBatch : Type := {
  tb_S : vec;
  tb_A : vec;
  tb_G : vec
}.

Definition huber_loss (y_true y_pred : vec) : vec :=
  mean (zip_with (fun t p =>
                    let e := Rabs (p - t) in
                    if Rle_dec e 1 then (e * e / 2)%R else (e - 1 / 2)%R)
                 y_true y_pred).

(** The linear state-value function [V(s) = w * s]. *)
Definition linear_forward (params state : pytree vec) (rng : nat) (S : vec)
    (is_training : bool) : vec * pytree vec :=
  match params with
  | PLeaf [w] => (map (Rmult w) S, state)
  | _ => (map (fun _ => 0%R) S, state)
  end.

Section Learner.
Variable grad : (pytree vec -> vec) -> pytree vec -> pytree vec.
Variable grad1 : (vec -> vec -> vec) -> vec -> vec -> vec.

#[local] Instance backend : Backend := {|
  ndarray := vec;
  key := nat;
  obs := vec;
  act := vec;
  batch := TransitionBatch;
  dist_params := vec;
  hparams := R;
  batch_S := tb_S;
  batch_A := tb_A;
  arr_shape := fun x => [length x];
  arr_add := zip_with Rplus;
  arr_sub := zip_with Rminus;
  arr_neg := map Ropp;
  jnp_isnan := map (fun _ => 0%R);
  jnp_any := existsb (fun x => if Req_dec_T x 0 then false else true);
  jnp_mean := mean;
  jnp_sqrt := map sqrt;
  jnp_square := map (fun x => (x * x)%R);
  random_split := fun k => (2 * k, 2 * k + 1);
  rng_property := fun k => (2 * k, 2 * k + 1);
  jax_grad := grad;
  jax_grad_argnums1 := grad1;
  apply_updates := fun params updates =>
    if bool_decide (tree_structure params = tree_structure updates)
    then Return (tree_map2 (zip_with Rplus) params updates)
    else Raise (ValueError "tree structures do not match");
  get_grads_diagnostics := fun _ _ => ∅;
  huber := huber_loss
|}.


(** Plain gradient descent with learning rate [lr]. *)
Definition sgd (lr : R) : optax.GradientTransformation := {|
  optax.init := fun _ => PTuple [];
  optax.update := fun grads state _ =>
    Return (tree_map (map (fun g => (- (lr * g))%R)) grads, state)
|}.

(** A V-learner on the linear value function with the squared-error loss
    and no regularizer. *)
Definition learner (w : R) : BaseTDLearning.engine vec := {|
  BaseTDLearning._f := {| params := PLeaf [w];
                          function_state := PNone;
                          random_key := 0;
                          function := linear_forward |};
  BaseTDLearning._f_targ := BaseTDLearning.SameObject;
  BaseTDLearning.loss_function := mse;
  BaseTDLearning.policy_regularizer := None;
  BaseTDLearning._optimizer := sgd (1 / 8);
  BaseTDLearning._optimizer_state := PTuple []
|}.

End Learner.

(** What [jax.grad(L, argnums=1)] promises of its result [dL]: on arrays of
    one length, [dL y_true y_pred] has an entry for each entry of [y_pred],
    the partial derivative of [L y_true] in that entry. *)
Definition is_grad_argnums1 (L dL : vec -> vec -> vec) : Prop :=
  forall y_true y_pred : vec,
    length y_true = length y_pred ->
    length (dL y_true y_pred) = length y_pred /\
    forall i, i < length y_pred ->
      derivable_pt_lim (fun h => scalar (L y_true (bump y_pred i h))) 0
                       (nth i (dL y_true y_pred) 0%R).

(** The gradient of [mse] in closed form. *)
Definition mse_grad (y_true y_pred : vec) : vec :=
  zip_with (fun t p => (2 * (p - t) / INR (length y_pred))%R) y_true y_pred.

(** Four transitions with states [1,1,1,1] and targets [1,2,3,4]. *)
Definition batch4 : TransitionBatch :=
  {| tb_S := [1; 1; 1; 1]%R;
     tb_A := [0; 0; 0; 0]%R;
     tb_G := [1; 2; 3; 4]%R |}.

Definition batch_target {TP TS : Type} (_ : TP) (_ : TS) (_ : nat)
    (b : TransitionBatch) : vec := tb_G b.

End RealModel.

(** ** Vocabulary of the statements *)

(** [isinstance(o, V)], [isinstance(o, Q)] and the tuples of types that the
    constructors test their target argument against. *)
Definition isinstance_V `{Backend} (o : pyobj) : bool :=
  match o with PyV _ => true | _ => false end.
Definition isinstance_Q `{Backend} (o : pyobj) : bool :=
  match o with PyQ _ => true | _ => false end.
Definition isinstance_V_or_None `{Backend} (o : pyobj) : bool :=
  match o with PyV _ | PyNone => true | _ => false end.
Definition isinstance_Q_None_list_tuple `{Backend} (o : pyobj) : bool :=
  match o with PyQ _ | PyNone | PyList _ | PyTuple _ => true | _ => false end.

(** [self] after one read of [self._f.rng]: only the random state kept in
    [_f] may have moved. *)
Definition after_rng `{Backend} {X} (self : BaseTDLearning.engine X)
    : BaseTDLearning.engine X :=
  BaseTDLearning.set_f self
    (set_random_key (BaseTDLearning._f self)
       (fst (rng_property (random_key (BaseTDLearning._f self))))).

(** The key that a read of [self._f.rng] hands out. *)
Definition rng_of `{Backend} {X} (self : BaseTDLearning.engine X) : key :=
  snd (rng_property (random_key (BaseTDLearning._f self))).

(** [self] with a separate target network. *)
Definition with_target `{Backend} {X} (self : BaseTDLearning.engine X)
    (f_targ : approx X ndarray) : BaseTDLearning.engine X :=
  {| BaseTDLearning._f := BaseTDLearning._f self;
     BaseTDLearning._f_targ := BaseTDLearning.Other f_targ;
     BaseTDLearning.loss_function := BaseTDLearning.loss_function self;
     BaseTDLearning.policy_regularizer := BaseTDLearning.policy_regularizer self;
     BaseTDLearning._optimizer := BaseTDLearning._optimizer self;
     BaseTDLearning._optimizer_state := BaseTDLearning._optimizer_state self |}.

(** Two learners run the same code: the same forward passes, loss function
    and regularizer functions.  (Their parameters, states, optimizer and
    random state may differ.) *)
Definition same_code `{Backend} {X} (e1 e2 : BaseTDLearning.engine X) : Prop :=
  function (BaseTDLearning._f e1) = function (BaseTDLearning._f e2) /\
  BaseTDLearning.f_targ_attr function e1 = BaseTDLearning.f_targ_attr function e2 /\
  BaseTDLearning.loss_function e1 = BaseTDLearning.loss_function e2 /\
  option_map (fun r => (function (pi r), reg_function r))
             (BaseTDLearning.policy_regularizer e1) =
  option_map (fun r => (function (pi r), reg_function r))
             (BaseTDLearning.policy_regularizer e2).

(** Whether a call raised. *)
Definition raised {E A : Type} (r : result E A) : bool :=
  match r with Return _ => false | Raise _ => true end.

(** The attributes that the specification calls the mutable engine state. *)
Definition engine_state `{Backend} {X} (self : BaseTDLearning.engine X)
    : pytree ndarray * pytree ndarray * pytree ndarray :=
  (params (BaseTDLearning._f self),
   function_state (BaseTDLearning._f self),
   BaseTDLearning._optimizer_state self).

(** An optimizer whose [update] does not look at [params]. *)
Definition ignores_params `{Backend} (opt : optax.GradientTransformation) : Prop :=
  forall grads state p, optax.update opt grads state (Some p) =
                        optax.update opt grads state None.

Section Binary32Inputs.
#[local] Existing Instance F32.backend.

(** Some leaf of a binary32 tree holds an infinity or a NaN. *)
Definition found_nonfinite (grads : pytree F32.vec) : bool :=
  existsb (existsb (fun x => negb (F32.isfinite x))) (tree_leaves grads).

(** One transition whose state and target are both [2^64]: finite inputs on
    which the squared error and its gradient overflow. *)
Definition batch_overflow : F32.TransitionBatch :=
  {| F32.tb_S := [F32.ofZ (2 ^ 64)];
     F32.tb_A := [F32.ofZ 0];
     F32.tb_G := [F32.ofZ (2 ^ 64)] |}.

(** One transition whose target is a NaN. *)
Definition batch_nan : F32.TransitionBatch :=
  {| F32.tb_S := [F32.ofZ 1];
     F32.tb_A := [F32.ofZ 0];
     F32.tb_G := [F32.nan] |}.

(** A Q-learner on [F32.linear_q], and the default optimizer used when the
    concrete constructors are run. *)
Definition q_learner (w : Z) (reg : option PolicyRegularizer)
    : BaseTDLearning.engine (F32.vec * F32.vec) := {|
  BaseTDLearning._f := F32.linear_q w;
  BaseTDLearning._f_targ := BaseTDLearning.SameObject;
  BaseTDLearning.loss_function := mse;
  BaseTDLearning.policy_regularizer := reg;
  BaseTDLearning._optimizer := F32.sgd (F32.div (F32.ofZ 1) (F32.ofZ 8));
  BaseTDLearning._optimizer_state := PTuple []
|}.

Definition default_optimizer : optax.GradientTransformation :=
  F32.sgd (F32.div (F32.ofZ 1) (F32.ofZ 1024)).

(** The same linear V-learner later in training: another optimizer, a
    non-empty optimizer state. *)
Definition learner_with_momentum (w : Z) : BaseTDLearning.engine F32.vec := {|
  BaseTDLearning._f := F32.linear_v w;
  BaseTDLearning._f_targ := BaseTDLearning.SameObject;
  BaseTDLearning.loss_function := mse;
  BaseTDLearning.policy_regularizer := None;
  BaseTDLearning._optimizer :=
    F32.momentum (F32.div (F32.ofZ 1) (F32.ofZ 8)) (F32.div (F32.ofZ 1) (F32.ofZ 2));
  BaseTDLearning._optimizer_state := PTuple [PLeaf [F32.ofZ 3]]
|}.

(** What [grads_and_metrics] returns on a batch for the linear V-learner
    with the squared-error loss (and empty results had it raised). *)
Definition grads_and_metrics_on (b : F32.TransitionBatch)
    : pytree F32.vec * pytree F32.vec * gmap string F32.vec :=
  match snd (BaseTDLearningV.grads_and_metrics "TD" F32.batch_target b
               (F32.learner 0 mse None)) with
  | Return out => out
  | Raise _ => (PNone, PNone, ∅)
  end.

End Binary32Inputs.


(** ** [class BaseTDLearningQWithTargetPolicy]

    The subclass adds the attribute [pi_targ] and overrides the two target
    properties; everything else is inherited from [BaseTDLearningQ]. *)

Module BaseTDLearningQWithTargetPolicy.
Section Learner.
Context `{B : Backend}.

Notation "x <- c ;; k" := (rbind c (fun x => k))
  (at level 62, c at next level, right associativity).

(** The dict returned by [target_params]. *)
Record TargetParams : Type := {
  tp_q : pytree ndarray;
  tp_q_targ : pytree ndarray;
  tp_pi_targ : pytree ndarray;
  tp_reg_pi : pytree ndarray;
  tp_reg_hparams : option hparams
}.

(** The dict returned by [target_function_state]. *)
Record TargetState : Type := {
  ts_q : pytree ndarray;
  ts_q_targ : pytree ndarray;
  ts_pi_targ : pytree ndarray;
  ts_reg_pi : pytree ndarray
}.

(** The object under construction: the attribute [pi_targ], set or not yet,
    beside the attributes of the base class. *)
Record object : Type := {
  o_pi_targ : option (option (approx obs dist_params));
  o_base : BaseTDLearning.object (obs * act)
}.

Definition blank : object :=
  {| o_pi_targ := None; o_base := BaseTDLearning.blank |}.

(** A constructed learner. *)
Record engine : Type := {
  pi_targ : option (approx obs dist_params);
  base : BaseTDLearning.engine (obs * act)
}.

(** [isinstance(pi_targ, (PolicyMixin, type(None)))] *)
Definition as_policy_or_None (o : pyobj) : option (option (approx obs dist_params)) :=
  match o with
  | PyPolicy p => Some (Some p)
  | PyNone => Some None
  | _ => None
  end.

Definition __init__ (adam_1e_3 : optax.GradientTransformation)
    (self : object) (q pi_targ q_targ : pyobj)
    (optimizer : option optax.GradientTransformation)
    (loss_function : option (ndarray -> ndarray -> ndarray))
    (policy_regularizer : pyobj) : object * result exn unit :=
  match as_policy_or_None pi_targ with
  | None => (self, Raise (TypeError "pi_targ must be a Policy"))
  | Some p =>
      let self := {| o_pi_targ := Some p; o_base := o_base self |} in
      let (base', r) :=
        BaseTDLearningQ.__init__ adam_1e_3 (o_base self) q q_targ optimizer
          loss_function policy_regularizer in
      ({| o_pi_targ := o_pi_targ self; o_base := base' |}, r)
  end.

Definition constructed (o : object) : option engine :=
  match o_pi_targ o, BaseTDLearning.constructed (o_base o) with
  | Some p, Some e => Some {| pi_targ := p; base := e |}
  | _, _ => None
  end.

Definition target_params (self : engine) : result exn TargetParams :=
  p_targ <- BaseTDLearning.f_targ_attr params (base self) ;;
  Return {| tp_q := params (BaseTDLearningQ.q (base self));
            tp_q_targ := p_targ;
            tp_pi_targ := match pi_targ self with
                          | Some p => params p
                          | None => PNone
                          end;
            tp_reg_pi := match BaseTDLearning.policy_regularizer (base self) with
                         | Some r => params (pi r)
                         | None => PNone
                         end;
            tp_reg_hparams :=
              match BaseTDLearning.policy_regularizer (base self) with
              | Some r => Some (hyperparams r)
              | None => None
              end |}.

Definition target_function_state (self : engine) : result exn TargetState :=
  s_targ <- BaseTDLearning.f_targ_attr function_state (base self) ;;
  Return {| ts_q := function_state (BaseTDLearningQ.q (base self));
            ts_q_targ := s_targ;
            ts_pi_targ := match pi_targ self with
                          | Some p => function_state p
                          | None => PNone
                          end;
            ts_reg_pi := match BaseTDLearning.policy_regularizer (base self) with
                         | Some r => function_state (pi r)
                         | None => PNone
                         end |}.

End Learner.
End BaseTDLearningQWithTargetPolicy.

(** ** Further vocabulary *)

(** The optimizer state has the tree structure of a freshly initialised
    state of the current optimizer. *)
Definition optimizer_state_fits `{Backend} {X} (self : BaseTDLearning.engine X)
    : Prop :=
  tree_structure (optax.init (BaseTDLearning._optimizer self)
                    (params (BaseTDLearning._f self)))
  = tree_structure (BaseTDLearning._optimizer_state self).

(** The entries that the dict of the subclass shares with the dict of
    [BaseTDLearningQ]. *)
Definition shared_entries `{Backend}
    (tp : BaseTDLearningQWithTargetPolicy.TargetParams)
    : BaseTDLearningQ.TargetParams :=
  {| BaseTDLearningQ.tp_q := BaseTDLearningQWithTargetPolicy.tp_q tp;
     BaseTDLearningQ.tp_q_targ := BaseTDLearningQWithTargetPolicy.tp_q_targ tp;
     BaseTDLearningQ.tp_reg_pi := BaseTDLearningQWithTargetPolicy.tp_reg_pi tp;
     BaseTDLearningQ.tp_reg_hparams :=
       BaseTDLearningQWithTargetPolicy.tp_reg_hparams tp |}.

Definition shared_states `{Backend}
    (ts : BaseTDLearningQWithTargetPolicy.TargetState)
    : BaseTDLearningQ.TargetState :=
  {| BaseTDLearningQ.ts_q := BaseTDLearningQWithTargetPolicy.ts_q ts;
     BaseTDLearningQ.ts_q_targ := BaseTDLearningQWithTargetPolicy.ts_q_targ ts;
     BaseTDLearningQ.ts_reg_pi := BaseTDLearningQWithTargetPolicy.ts_reg_pi ts |}.

(** [fmap] on outcomes. *)
Definition rmap {E A C : Type} (f : A -> C) (r : result E A) : result E C :=
  match r with Return a => Return (f a) | Raise e => Raise e end.

(** The five names under which the closures file their own metrics. *)
Definition metric_names (name : string) : list string :=
  [name +:+ "/loss"; name +:+ "/bias"; name +:+ "/rmse";
   name +:+ "/bias_targ"; name +:+ "/rmse_targ"].

Section Binary32MoreInputs.
#[local] Existing Instance F32.backend.

(** A Q-learner whose target is a list, as [__init__] lets through. *)
Definition q_learner_with_list : BaseTDLearning.engine (F32.vec * F32.vec) := {|
  BaseTDLearning._f := F32.linear_q 0;
  BaseTDLearning._f_targ := BaseTDLearning.Sequence [PyInt 0];
  BaseTDLearning.loss_function := mse;
  BaseTDLearning.policy_regularizer := None;
  BaseTDLearning._optimizer := F32.sgd (F32.div (F32.ofZ 1) (F32.ofZ 8));
  BaseTDLearning._optimizer_state := PTuple []
|}.

(** A V-learner with a separate target network [w = 3]. *)
Definition learner_with_target : BaseTDLearning.engine F32.vec :=
  with_target (F32.learner 0 mse None) (F32.linear_v 3).

(** Learners on the stateful functions: online weight 0 and offset 1, a
    separate target network with weight 1 and offset 5. *)
Definition offset_v_learner : BaseTDLearning.engine F32.vec := {|
  BaseTDLearning._f := F32.offset_v 0 1;
  BaseTDLearning._f_targ := BaseTDLearning.Other (F32.offset_v 1 5);
  BaseTDLearning.loss_function := mse;
  BaseTDLearning.policy_regularizer := None;
  BaseTDLearning._optimizer := F32.sgd (F32.div (F32.ofZ 1) (F32.ofZ 8));
  BaseTDLearning._optimizer_state := PTuple []
|}.

Definition offset_q_learner (opt : optax.GradientTransformation)
    : BaseTDLearning.engine (F32.vec * F32.vec) := {|
  BaseTDLearning._f := F32.offset_q 0 1;
  BaseTDLearning._f_targ := BaseTDLearning.Other (F32.offset_q 1 5);
  BaseTDLearning.loss_function := mse;
  BaseTDLearning.policy_regularizer := None;
  BaseTDLearning._optimizer := opt;
  BaseTDLearning._optimizer_state := PTuple []
|}.

(** Gradient descent with weight decay as optax has it, rate 1/8 and decay
    1/2. *)
Definition strict_optimizer : optax.GradientTransformation :=
  F32.strict_weight_decay (F32.div (F32.ofZ 1) (F32.ofZ 8))
                          (F32.div (F32.ofZ 1) (F32.ofZ 2)).

End Binary32MoreInputs.

(** The state-action value function [Q(s, a) = w * s + a] over the real
    numbers, in a learner with the squared-error loss and no regularizer. *)
Definition real_q_learner
    (grad : (pytree RealModel.vec -> RealModel.vec) -> pytree RealModel.vec ->
            pytree RealModel.vec)
    (grad1 : (RealModel.vec -> RealModel.vec -> RealModel.vec) ->
             RealModel.vec -> RealModel.vec -> RealModel.vec)
    (w : R)
    : @BaseTDLearning.engine (RealModel.backend grad grad1)
        (RealModel.vec * RealModel.vec) :=
  @BaseTDLearning.Build_engine (RealModel.backend grad grad1)
    (RealModel.vec * RealModel.vec)
    (@Build_approx (RealModel.backend grad grad1)
       (RealModel.vec * RealModel.vec) RealModel.vec
       (PLeaf [w]) PNone 0
       (fun params state rng SA is_training =>
          let (V, state') :=
            RealModel.linear_forward params state rng (fst SA) is_training in
          (zip_with Rplus V (snd SA), state')))
    BaseTDLearning.SameObject
    (mse (H := RealModel.backend grad grad1))
    None
    (RealModel.sgd grad grad1 (1 / 8))
    (PTuple []).

(** * Theorems *)

(** ** The base engine *)

Section BaseFacts.
Context `{B : Backend} {X TP TS : Type}.
Variable target_params : BaseTDLearning.engine X -> result exn TP.
Variable target_function_state : BaseTDLearning.engine X -> result exn TS.
Variable _grads_and_metrics_func :
  BaseTDLearning.engine X -> pytree ndarray -> TP -> pytree ndarray -> TS ->
  key -> batch ->
  result exn (pytree ndarray * pytree ndarray * gmap string ndarray).
Variable _apply_grads_func :
  optax.GradientTransformation -> pytree ndarray -> pytree ndarray ->
  pytree ndarray -> result exn (pytree ndarray * pytree ndarray).

Local Abbreviation grads_and_metrics :=
  (BaseTDLearning.grads_and_metrics target_params target_function_state
     _grads_and_metrics_func).
Local Abbreviation update :=
  (BaseTDLearning.update target_params target_function_state
     _grads_and_metrics_func _apply_grads_func).
Local Abbreviation update_from_grads :=
  (BaseTDLearning.update_from_grads (X := X) _apply_grads_func).

Lemma after_rng_engine_state (self : BaseTDLearning.engine X) :
  engine_state (after_rng self) = engine_state self /\
  BaseTDLearning._optimizer (after_rng self) = BaseTDLearning._optimizer self /\
  BaseTDLearning._f_targ (after_rng self) = BaseTDLearning._f_targ self.
Proof. destruct self as [[] ? ? ? ? ?]; repeat split. Qed.

(** [grads_and_metrics] reads the five attributes in the order of the call,
    draws one key and runs the closure; [self] changes at most by that
    draw. *)
Lemma grads_and_metrics_unfold (transition_batch : batch)
    (self : BaseTDLearning.engine X) :
  grads_and_metrics transition_batch self =
  match target_params self with
  | Raise x => (self, Raise x)
  | Return tp =>
      match target_function_state self with
      | Raise x => (self, Raise x)
      | Return ts =>
          (after_rng self,
           _grads_and_metrics_func (after_rng self)
             (params (BaseTDLearning._f self)) tp
             (function_state (BaseTDLearning._f self)) ts
             (rng_of self) transition_batch)
      end
  end.
Proof.
  unfold BaseTDLearning.grads_and_metrics, BaseTDLearning.bind,
    BaseTDLearning.get, BaseTDLearning.lift, BaseTDLearning.f_rng,
    after_rng, rng_of.
  destruct (target_params self); [|reflexivity].
  destruct (target_function_state self); [|reflexivity].
  destruct (rng_property _); reflexivity.
Qed.

Lemma grads_and_metrics_keeps_state (transition_batch : batch)
    (self : BaseTDLearning.engine X) :
  engine_state (fst (grads_and_metrics transition_batch self)) = engine_state self /\
  BaseTDLearning._optimizer (fst (grads_and_metrics transition_batch self)) =
  BaseTDLearning._optimizer self.
Proof.
  rewrite grads_and_metrics_unfold.
  destruct (target_params self); [|split; reflexivity].
  destruct (target_function_state self); [|split; reflexivity].
  destruct (after_rng_engine_state self) as (? & ? & ?); split; assumption.
Qed.

(** What [update_from_grads] leaves behind: the function state is stored in
    either case, the optimizer state and the parameters only if the closure
    returns. *)
Lemma update_from_grads_unfold (grads state_new : pytree ndarray)
    (self : BaseTDLearning.engine X) :
  update_from_grads grads state_new self =
  (let stored :=
     BaseTDLearning.set_f self
       (set_function_state (BaseTDLearning._f self) state_new) in
   match _apply_grads_func (BaseTDLearning._optimizer self)
           (BaseTDLearning._optimizer_state self)
           (params (BaseTDLearning._f self)) grads with
   | Return r =>
       (BaseTDLearning.set_f
          (BaseTDLearning.set_optimizer_state stored (fst r))
          (set_params (set_function_state (BaseTDLearning._f self) state_new)
             (snd r)),
        Return tt)
   | Raise x => (stored, Raise x)
   end).
Proof.
  unfold BaseTDLearning.update_from_grads, BaseTDLearning.bind,
    BaseTDLearning.modify, BaseTDLearning.lift. simpl.
  destruct (_apply_grads_func _ _ _ _); reflexivity.
Qed.

(** [update] in one piece. *)
Lemma update_unfold (transition_batch : batch) (self : BaseTDLearning.engine X) :
  update transition_batch self =
  match grads_and_metrics transition_batch self with
  | (self1, Raise x) => (self1, Raise x)
  | (self1, Return (grads, state_new, metrics)) =>
      if BaseTDLearning.found_nan grads
      then (self1, Raise (RuntimeError grads))
      else (fst (update_from_grads grads state_new self1),
            rmap (fun _ => metrics) (snd (update_from_grads grads state_new self1)))
  end.
Proof.
  unfold BaseTDLearning.update, BaseTDLearning.bind at 1.
  destruct (grads_and_metrics transition_batch self) as [self1 [[[g fs] m]|x]];
    [|reflexivity].
  destruct (BaseTDLearning.found_nan g); [reflexivity|].
  unfold BaseTDLearning.bind, BaseTDLearning.ret.
  destruct (update_from_grads g fs self1) as [self2 [[]|x]]; reflexivity.
Qed.

(** The NaN test of [update] is true exactly when some leaf of the tree
    holds a NaN. *)
Lemma found_nan_true (grads : pytree ndarray) :
  BaseTDLearning.found_nan grads = true <->
  exists g, In g (tree_leaves grads) /\ jnp_any (jnp_isnan g) = true.
Proof. unfold BaseTDLearning.found_nan. apply existsb_exists. Qed.

Lemma found_nan_false (grads : pytree ndarray) :
  BaseTDLearning.found_nan grads = false <->
  forall g, In g (tree_leaves grads) -> jnp_any (jnp_isnan g) = false.
Proof.
  split.
  - intros Hf g Hin. destruct (jnp_any (jnp_isnan g)) eqn:Hg; [|reflexivity].
    rewrite <- Hf. symmetry. apply found_nan_true. eauto.
  - intros Hall. destruct (BaseTDLearning.found_nan grads) eqn:Hf; [|reflexivity].
    apply found_nan_true in Hf. destruct Hf as (g & Hin & Hg).
    rewrite (Hall g Hin) in Hg. discriminate Hg.
Qed.

(** The engine state after [update_from_grads], by the outcome of the
    closure. *)
Lemma update_from_grads_state (grads state_new : pytree ndarray)
    (self : BaseTDLearning.engine X) :
  match _apply_grads_func (BaseTDLearning._optimizer self)
          (BaseTDLearning._optimizer_state self)
          (params (BaseTDLearning._f self)) grads with
  | Return (new_opt_state, new_params) =>
      snd (update_from_grads grads state_new self) = Return tt /\
      engine_state (fst (update_from_grads grads state_new self)) =
        (new_params, state_new, new_opt_state)
  | Raise x =>
      snd (update_from_grads grads state_new self) = Raise x /\
      engine_state (fst (update_from_grads grads state_new self)) =
        (params (BaseTDLearning._f self), state_new,
         BaseTDLearning._optimizer_state self)
  end /\
  BaseTDLearning._optimizer (fst (update_from_grads grads state_new self)) =
  BaseTDLearning._optimizer self.
Proof.
  rewrite update_from_grads_unfold. cbv zeta.
  destruct (_apply_grads_func _ _ _ _) as [[s p]|x]; repeat split.
Qed.

(** [update_from_grads] reads [self] through its parameters, optimizer and
    optimizer state only. *)
Lemma update_from_grads_reads (grads state_new : pytree ndarray)
    (self self1 : BaseTDLearning.engine X) :
  engine_state self1 = engine_state self ->
  BaseTDLearning._optimizer self1 = BaseTDLearning._optimizer self ->
  snd (update_from_grads grads state_new self1) =
    snd (update_from_grads grads state_new self) /\
  engine_state (fst (update_from_grads grads state_new self1)) =
    engine_state (fst (update_from_grads grads state_new self)).
Proof.
  intros Hst Hopt. unfold engine_state in Hst. injection Hst as Hp _ Ho.
  pose proof (update_from_grads_state grads state_new self1) as [H1 _].
  pose proof (update_from_grads_state grads state_new self) as [H0 _].
  rewrite Hp, Ho, Hopt in H1.
  destruct (_apply_grads_func _ _ _ _) as [[s p]|x];
    destruct H1 as [-> ->], H0 as [-> ->]; split; reflexivity.
Qed.


(** C4, as the code has it.  Whenever the gradient tree returned by
    [grads_and_metrics] contains a NaN in some leaf, [update] raises
    [RuntimeError], the exception carries that very gradient tree, and the
    engine state is unchanged.  (The test is [jnp.isnan]: a tree whose
    non-finite values are all infinities passes it.) *)
Theorem update_nan_error_carries_grads (transition_batch : batch)
    (self self1 : BaseTDLearning.engine X)
    (grads function_state : pytree ndarray) (metrics : gmap string ndarray) :
  grads_and_metrics transition_batch self =
    (self1, Return (grads, function_state, metrics)) ->
  (exists g, In g (tree_leaves grads) /\ jnp_any (jnp_isnan g) = true) ->
  snd (update transition_batch self) = Raise (RuntimeError grads) /\
  engine_state (fst (update transition_batch self)) = engine_state self /\
  BaseTDLearning._optimizer (fst (update transition_batch self)) =
  BaseTDLearning._optimizer self.
Proof.
  intros Hgm (g & Hin & Hg).
  assert (Hnan : BaseTDLearning.found_nan grads = true).
  { unfold BaseTDLearning.found_nan. apply existsb_exists. eauto. }
  pose proof (grads_and_metrics_keeps_state transition_batch self) as [Hst Hopt].
  rewrite Hgm in Hst, Hopt; simpl in Hst, Hopt.
  unfold BaseTDLearning.update, BaseTDLearning.bind.
  rewrite Hgm, Hnan. simpl. auto.
Qed.

(** C5.  Assigning [new_optimizer] to the [optimizer] property: when the
    tree structure of [new_optimizer.init(self._f.params)] differs from that
    of the current optimizer state, the assignment raises [AttributeError]
    and [self] (optimizer and optimizer state included) is unchanged; when
    the structures are identical, it succeeds, the optimizer is the new one
    and everything else, the optimizer state included, is as before. *)
Theorem optimizer_setter_checks_structure
    (new_optimizer : optax.GradientTransformation)
    (self : BaseTDLearning.engine X) :
  (tree_structure (optax.init new_optimizer (params (BaseTDLearning._f self)))
     <> tree_structure (BaseTDLearning._optimizer_state self) ->
   exists msg,
     BaseTDLearning.optimizer_setter new_optimizer self =
       (self, Raise (AttributeError msg))) /\
  (tree_structure (optax.init new_optimizer (params (BaseTDLearning._f self)))
     = tree_structure (BaseTDLearning._optimizer_state self) ->
   BaseTDLearning.optimizer_setter new_optimizer self =
     (BaseTDLearning.set_optimizer self new_optimizer, Return tt) /\
   BaseTDLearning._optimizer (BaseTDLearning.set_optimizer self new_optimizer)
     = new_optimizer /\
   BaseTDLearning._optimizer_state (BaseTDLearning.set_optimizer self new_optimizer)
     = BaseTDLearning._optimizer_state self /\
   BaseTDLearning._f (BaseTDLearning.set_optimizer self new_optimizer)
     = BaseTDLearning._f self).
Proof.
  unfold BaseTDLearning.optimizer_setter, BaseTDLearning.bind,
    BaseTDLearning.get, BaseTDLearning.raise, BaseTDLearning.modify.
  split; intros Hs.
  - eexists. rewrite bool_decide_eq_true_2 by exact Hs. reflexivity.
  - rewrite bool_decide_eq_false_2 by (intros Hne; exact (Hne Hs)).
    repeat split.
Qed.

End BaseFacts.

Section BaseTdError.
Context `{B : Backend} {X TP TS : Type}.
Variable target_params : BaseTDLearning.engine X -> result exn TP.
Variable target_function_state : BaseTDLearning.engine X -> result exn TS.
Variable _td_error_func :
  BaseTDLearning.engine X -> pytree ndarray -> TP -> pytree ndarray -> TS ->
  key -> batch -> result exn ndarray.

Lemma td_error_unfold (transition_batch : batch) (self : BaseTDLearning.engine X) :
  BaseTDLearning.td_error target_params target_function_state _td_error_func
    transition_batch self =
  match target_params self with
  | Raise x => (self, Raise x)
  | Return tp =>
      match target_function_state self with
      | Raise x => (self, Raise x)
      | Return ts =>
          (after_rng self,
           _td_error_func (after_rng self)
             (params (BaseTDLearning._f self)) tp
             (function_state (BaseTDLearning._f self)) ts
             (rng_of self) transition_batch)
      end
  end.
Proof.
  unfold BaseTDLearning.td_error, BaseTDLearning.bind,
    BaseTDLearning.get, BaseTDLearning.lift, BaseTDLearning.f_rng,
    after_rng, rng_of.
  destruct (target_params self); [|reflexivity].
  destruct (target_function_state self); [|reflexivity].
  destruct (rng_property _); reflexivity.
Qed.

Lemma td_error_keeps_state (transition_batch : batch)
    (self : BaseTDLearning.engine X) :
  engine_state (fst (BaseTDLearning.td_error target_params target_function_state
                       _td_error_func transition_batch self)) = engine_state self.
Proof.
  rewrite td_error_unfold.
  destruct (target_params self); [|reflexivity].
  destruct (target_function_state self); [|reflexivity].
  apply after_rng_engine_state.
Qed.

End BaseTdError.

Lemma same_code_after_rng `{Backend} {X} (e1 e2 : BaseTDLearning.engine X) :
  same_code e1 e2 -> same_code (after_rng e1) (after_rng e2).
Proof.
  destruct e1 as [[] [] ? ? ? ?], e2 as [[] [] ? ? ? ?]; exact (fun H => H).
Qed.

(** ** The V learner *)

Section VFacts.
Context `{B : Backend}.
Variable class_name : string.
Variable target_func :
  BaseTDLearningV.TargetParams -> BaseTDLearningV.TargetState -> key -> batch ->
  ndarray.

Local Abbreviation engine := (BaseTDLearning.engine obs).
Local Abbreviation loss_func := (BaseTDLearningV.loss_func target_func).
Local Abbreviation grads_and_metrics_func :=
  (BaseTDLearningV.grads_and_metrics_func class_name target_func).
Local Abbreviation td_error_func := (BaseTDLearningV.td_error_func target_func).

(** The closures read [self] only through the code it carries. *)
Lemma loss_func_same_code (e1 e2 : engine) :
  same_code e1 e2 -> loss_func e1 = loss_func e2.
Proof.
  intros (Hf & _ & Hl & Hr).
  unfold BaseTDLearningV.loss_func, BaseTDLearningV.v, add_policy_regularization.
  rewrite Hf, Hl.
  destruct (BaseTDLearning.policy_regularizer e1) as [r1|],
           (BaseTDLearning.policy_regularizer e2) as [r2|];
    simpl in Hr; try discriminate; [|reflexivity].
  injection Hr as Hpi Hreg. rewrite Hpi, Hreg. reflexivity.
Qed.

Lemma grads_and_metrics_func_same_code (e1 e2 : engine) :
  same_code e1 e2 -> grads_and_metrics_func e1 = grads_and_metrics_func e2.
Proof.
  intros Hsame.
  unfold BaseTDLearningV.grads_and_metrics_func.
  rewrite (loss_func_same_code e1 e2 Hsame).
  destruct Hsame as (_ & Ht & _ & _). rewrite Ht. reflexivity.
Qed.

(** C7.  Two calls of [grads_and_metrics] on learners that run the same code
    and agree on the online parameters, the target parameters, the function
    state, the target function state, the key drawn from [rng] and the
    transition batch return the same gradients, function state and metrics
    (or raise the same exception); and a call leaves the online parameters,
    the online function state, the optimizer state and the optimizer as they
    were, as does a call of [td_error]. *)
Theorem grads_and_metrics_pure (transition_batch : batch) (e1 e2 : engine) :
  same_code e1 e2 ->
  params (BaseTDLearning._f e1) = params (BaseTDLearning._f e2) ->
  BaseTDLearningV.target_params e1 = BaseTDLearningV.target_params e2 ->
  function_state (BaseTDLearning._f e1) = function_state (BaseTDLearning._f e2) ->
  BaseTDLearningV.target_function_state e1 =
    BaseTDLearningV.target_function_state e2 ->
  rng_of e1 = rng_of e2 ->
  snd (BaseTDLearningV.grads_and_metrics class_name target_func transition_batch e1)
  = snd (BaseTDLearningV.grads_and_metrics class_name target_func transition_batch e2)
  /\ engine_state (fst (BaseTDLearningV.grads_and_metrics class_name target_func
                          transition_batch e1)) = engine_state e1
  /\ BaseTDLearning._optimizer
       (fst (BaseTDLearningV.grads_and_metrics class_name target_func
               transition_batch e1)) = BaseTDLearning._optimizer e1
  /\ engine_state (fst (BaseTDLearningV.td_error target_func transition_batch e1))
     = engine_state e1.
Proof.
  intros Hsame Hp Htp Hs Hts Hrng.
  split; [|split; [|split]].
  - unfold BaseTDLearningV.grads_and_metrics.
    rewrite !grads_and_metrics_unfold, Hp, Htp, Hs, Hts, Hrng.
    destruct (BaseTDLearningV.target_params e2); [|reflexivity].
    destruct (BaseTDLearningV.target_function_state e2); [|reflexivity].
    simpl. rewrite (grads_and_metrics_func_same_code _ _ (same_code_after_rng _ _ Hsame)).
    reflexivity.
  - apply grads_and_metrics_keeps_state.
  - apply grads_and_metrics_keeps_state.
  - apply td_error_keeps_state.
Qed.

(** C6.  With a policy regularizer configured (and its hyperparameters in
    the target parameters), [loss_func] evaluates the regularizer on the
    output of its policy at [target_params['reg_pi']] and
    [target_state['reg_pi']].  If that value has the shape of [G], the loss
    is [loss_function(G + -reg, V)] with [V] the training-mode prediction;
    otherwise [loss_func] raises [AssertionError].  [AssertionError] is
    raised exactly when the shapes differ, and an exception of [loss_func]
    is the outcome of [grads_and_metrics_func], which then returns no
    gradient. *)
Theorem loss_func_subtracts_regularizer (self : engine)
    (params : pytree ndarray) (tp : BaseTDLearningV.TargetParams)
    (state : pytree ndarray) (ts : BaseTDLearningV.TargetState)
    (rng : key) (transition_batch : batch)
    (regularizer : PolicyRegularizer) (hp : hparams) :
  BaseTDLearning.policy_regularizer self = Some regularizer ->
  BaseTDLearningV.tp_reg_hparams tp = Some hp ->
  let S := batch_S transition_batch in
  let rngs1 := snd (next (PRNGSequence rng)) in
  let rngs2 := snd (next rngs1) in
  let G := target_func tp ts (fst (next (PRNGSequence rng))) transition_batch in
  let V := fst (function (BaseTDLearningV.v self) params state
                  (fst (next rngs1)) S true) in
  let reg :=
    reg_function regularizer
      (fst (function (pi regularizer) (BaseTDLearningV.tp_reg_pi tp)
              (BaseTDLearningV.ts_reg_pi ts) (fst (next rngs2)) S false))
      hp in
  (arr_shape reg = arr_shape G ->
     exists aux,
       loss_func self params tp state ts rng transition_batch =
       Return (BaseTDLearning.loss_function self (arr_add G (arr_neg reg)) V, aux))
  /\ (arr_shape reg <> arr_shape G ->
        loss_func self params tp state ts rng transition_batch =
        Raise (AssertionError (arr_shape G) (arr_shape reg)))
  /\ ((exists a b, loss_func self params tp state ts rng transition_batch =
                   Raise (AssertionError a b))
      <-> arr_shape reg <> arr_shape G)
  /\ (forall rng0 x,
        loss_func self params tp state ts (fst (next (PRNGSequence rng0)))
          transition_batch = Raise x ->
        grads_and_metrics_func self params tp state ts rng0 transition_batch
        = Raise x).
Proof.
  intros Hreg Hhp S rngs1 rngs2 G V reg.
  assert (Hloss :
    loss_func self params tp state ts rng transition_batch =
    if bool_decide (arr_shape reg = arr_shape G)
    then Return (BaseTDLearning.loss_function self (arr_add G (arr_neg reg)) V,
                 (BaseTDLearning.loss_function self (arr_add G (arr_neg reg)) V,
                  arr_add G (arr_neg reg), V, S,
                  snd (function (BaseTDLearningV.v self) params state
                         (fst (next rngs1)) S true)))
    else Raise (AssertionError (arr_shape G) (arr_shape reg))).
  { subst S rngs1 rngs2 G V reg.
    unfold BaseTDLearningV.loss_func, add_policy_regularization.
    rewrite Hreg, Hhp.
    destruct (next (PRNGSequence rng)) as [rng1 r1]; simpl.
    destruct (next r1) as [rng2 r2]; simpl.
    destruct (function (BaseTDLearningV.v self) params state rng2
                (batch_S transition_batch) true) as [V0 st0]; simpl.
    destruct (next r2) as [rng3 r3]; simpl.
    destruct (function (pi regularizer) _ _ rng3 _ false) as [dp st1]; simpl.
    destruct (bool_decide _); reflexivity. }
  split; [|split; [|split]].
  - intros Heq. rewrite Hloss, bool_decide_eq_true_2 by exact Heq. eauto.
  - intros Hne. rewrite Hloss, bool_decide_eq_false_2 by exact Hne. reflexivity.
  - rewrite Hloss. split.
    + intros (a & b & Hraise) Heq.
      rewrite bool_decide_eq_true_2 in Hraise by exact Heq. discriminate.
    + intros Hne. rewrite bool_decide_eq_false_2 by exact Hne. eauto.
  - intros rng0 x Hraise.
    unfold BaseTDLearningV.grads_and_metrics_func, jax_grad_has_aux.
    destruct (next (PRNGSequence rng0)) as [rng1 r1]; simpl in *.
    rewrite Hraise. reflexivity.
Qed.

End VFacts.

(** ** Construction *)

Section Construction.
Context `{B : Backend}.
Variable adam_1e_3 : optax.GradientTransformation.

(** C8.  [BaseTDLearningV.__init__] with a [v] that is not a [V] raises
    [TypeError] and leaves the object as it was: no attribute has been set,
    so no optimizer and no optimizer state exist yet on a new object.  With
    a [V] for [v], a [v_targ] that is neither a [V] nor [None] raises
    [TypeError] in the same way.  Only when both tests pass is the base
    class's [__init__], which creates the optimizer state, run. *)
Theorem V_init_type_checks (self : BaseTDLearning.object obs) (v v_targ : pyobj)
    (optimizer : option optax.GradientTransformation)
    (loss_function : option (ndarray -> ndarray -> ndarray))
    (policy_regularizer : pyobj) :
  let run := BaseTDLearningV.__init__ adam_1e_3 self v v_targ optimizer
               loss_function policy_regularizer in
  (isinstance_V v = false ->
     run = (self, Raise (TypeError "v must be a coax.V")))
  /\ (isinstance_V v = true -> isinstance_V_or_None v_targ = false ->
        run = (self, Raise (TypeError "v_targ must be a coax.Q or None")))
  /\ (isinstance_V v = false \/ isinstance_V_or_None v_targ = false ->
        self = BaseTDLearning.blank ->
        BaseTDLearning.o_optimizer_state (fst run) = None /\
        BaseTDLearning.o_optimizer (fst run) = None /\
        BaseTDLearning.constructed (fst run) = None)
  /\ (isinstance_V v = true -> isinstance_V_or_None v_targ = true ->
        exists f f_targ,
          run = BaseTDLearning.__init__ adam_1e_3 self f f_targ optimizer
                  loss_function policy_regularizer).
Proof.
  intros run; subst run.
  split; [|split; [|split]].
  - destruct v; simpl; intros; congruence.
  - destruct v; simpl; try congruence; intros _.
    destruct v_targ; simpl; intros; congruence.
  - intros Hbad ->.
    destruct v; simpl; auto; destruct v_targ; simpl; auto;
      destruct Hbad; discriminate.
  - destruct v; simpl; try congruence; intros _.
    destruct v_targ; simpl; try congruence; intros _; eauto.
Qed.

(** C9, as the code has it.  [BaseTDLearningQ.__init__] raises [TypeError],
    leaving the object as it was, unless [q] is a [Q] and [q_targ] is
    [None], a [Q], a list or a tuple.  The elements of a list or tuple are
    not looked at: with a [Q] for [q], any list or tuple for [q_targ] and a
    valid [policy_regularizer], construction succeeds and stores the
    sequence as the target. *)
Theorem Q_init_type_checks (self : BaseTDLearning.object (obs * act))
    (q q_targ : pyobj)
    (optimizer : option optax.GradientTransformation)
    (loss_function : option (ndarray -> ndarray -> ndarray))
    (policy_regularizer : pyobj) :
  let run := BaseTDLearningQ.__init__ adam_1e_3 self q q_targ optimizer
               loss_function policy_regularizer in
  (isinstance_Q q = false \/ isinstance_Q_None_list_tuple q_targ = false ->
     exists msg, run = (self, Raise (TypeError msg)))
  /\ (isinstance_Q q = true ->
      forall l, q_targ = PyList l \/ q_targ = PyTuple l ->
      BaseTDLearning.as_regularizer_or_None policy_regularizer <> None ->
      snd run = Return tt /\
      BaseTDLearning.o_f_targ (fst run) = Some (BaseTDLearning.Sequence l)).
Proof.
  intros run; subst run. split.
  - intros [Hq | Ht].
    + destruct q; simpl in *; try discriminate; eauto.
    + destruct q; simpl; eauto.
      destruct q_targ; simpl in *; try discriminate; eauto.
  - destruct q; simpl; try congruence; intros _ l Hl Hreg.
    unfold BaseTDLearning.__init__.
    destruct (BaseTDLearning.as_regularizer_or_None policy_regularizer);
      [|congruence].
    destruct Hl as [-> | ->]; simpl; auto.
Qed.

End Construction.

(** ** The two gradient-application closures *)

Section Closures.
#[local] Existing Instance F32.backend.

(** For an optimizer whose [update] ignores [params], the closure of the Q
    learner does what the closure of the base class does. *)
Lemma apply_grads_func_agree {B : Backend} (opt : optax.GradientTransformation)
    (opt_state params grads : pytree ndarray) :
  ignores_params opt ->
  BaseTDLearningQ.apply_grads_func opt opt_state params grads =
  BaseTDLearning.apply_grads_func opt opt_state params grads.
Proof.
  intros Hopt.
  unfold BaseTDLearningQ.apply_grads_func, BaseTDLearning.apply_grads_func.
  rewrite Hopt. reflexivity.
Qed.

(** C3 at a failing input.  With gradient descent with weight decay
    (learning rate 1/8, decay 1/2), parameters [w = 4] and the gradient
    [-5], the closure of the base class moves [w] to [4 - (-5 + 2)/8 =
    4.375], the closure of the Q learner, which calls [update] without the
    parameters, to [4 + 5/8 = 4.625]. *)
Theorem apply_grads_func_differ :
  let opt := F32.sgd_weight_decay (F32.div (F32.ofZ 1) (F32.ofZ 8))
                                  (F32.div (F32.ofZ 1) (F32.ofZ 2)) in
  let params := PLeaf [F32.ofZ 4] in
  let grads := PLeaf [F32.ofZ (-5)] in
  BaseTDLearning.apply_grads_func opt (PTuple []) params grads =
    Return (PTuple [], PLeaf [F32.div (F32.ofZ 35) (F32.ofZ 8)]) /\
  BaseTDLearningQ.apply_grads_func opt (PTuple []) params grads =
    Return (PTuple [], PLeaf [F32.div (F32.ofZ 37) (F32.ofZ 8)]) /\
  BaseTDLearningQ.apply_grads_func opt (PTuple []) params grads <>
  BaseTDLearning.apply_grads_func opt (PTuple []) params grads.
Proof.
  split; [vm_compute; reflexivity|].
  split; [vm_compute; reflexivity|].
  vm_compute. discriminate.
Qed.

End Closures.

(** ** The metrics dict *)

Lemma metric_name_ne (name s1 s2 : string) : s1 <> s2 -> name +:+ s1 <> name +:+ s2.
Proof. intros Hne Heq. apply Hne. exact (String.app_inj name _ _ Heq). Qed.

(** The keys of the metrics dict are the five names and the keys of the
    diagnostics; the diagnostics win; the five entries are the literal
    ones where the diagnostics leave them alone. *)
Lemma metrics_dict_entries `{Backend} (name : string)
    (loss err err_targ : ndarray) (grads : pytree ndarray) :
  let diag := get_grads_diagnostics grads (name +:+ "/grads_") in
  let metrics := metrics_dict name loss err err_targ grads in
  dom metrics = dom diag ∪ list_to_set (metric_names name) /\
  (forall k x, diag !! k = Some x -> metrics !! k = Some x) /\
  ((forall k, k ∈ metric_names name -> diag !! k = None) ->
   metrics !! (name +:+ "/loss") = Some loss /\
   metrics !! (name +:+ "/bias") = Some (jnp_mean err) /\
   metrics !! (name +:+ "/rmse") = Some (jnp_sqrt (jnp_mean (jnp_square err))) /\
   metrics !! (name +:+ "/bias_targ") = Some (jnp_mean err_targ) /\
   metrics !! (name +:+ "/rmse_targ") =
     Some (jnp_sqrt (jnp_mean (jnp_square err_targ)))).
Proof.
  intros diag metrics; subst diag metrics. unfold metrics_dict.
  split; [|split].
  - rewrite dom_union_L, !dom_insert_L, dom_empty_L.
    unfold metric_names. simpl.
    apply set_eq. intros k. set_unfold. tauto.
  - intros k x Hk. apply lookup_union_Some_l. exact Hk.
  - intros Hfree.
    assert (Hin : forall s, In s ["/loss"; "/bias"; "/rmse"; "/bias_targ"; "/rmse_targ"] ->
                  get_grads_diagnostics grads (name +:+ "/grads_") !! (name +:+ s) = None).
    { intros s Hs. apply Hfree. unfold metric_names.
      apply list_elem_of_In. simpl in *.
      intuition (subst; auto). }
    repeat split;
      (rewrite lookup_union_r by (apply Hin; simpl; auto 6));
      repeat (rewrite lookup_insert_ne by (apply metric_name_ne; discriminate));
      apply lookup_insert_eq.
Qed.

(** ** The diagnostic target estimate *)

Section TargetEstimate.
Context `{B : Backend}.
Variables v_name q_name : string.
Variable v_target_func :
  BaseTDLearningV.TargetParams -> BaseTDLearningV.TargetState -> key -> batch ->
  ndarray.
Variable q_target_func :
  BaseTDLearningQ.TargetParams -> BaseTDLearningQ.TargetState -> key -> batch ->
  ndarray.
Variable action_preprocessor : act -> act.

(** The entries of the metrics dict other than the two target diagnostics
    do not depend on the target residual. *)
Lemma metrics_dict_lookup_other (name : string) (loss err err1 err2 : ndarray)
    (grads : pytree ndarray) (k : string) :
  k <> name +:+ "/bias_targ" -> k <> name +:+ "/rmse_targ" ->
  metrics_dict name loss err err1 grads !! k =
  metrics_dict name loss err err2 grads !! k.
Proof.
  intros Hb Hr. unfold metrics_dict.
  rewrite !lookup_union.
  rewrite !(lookup_insert_ne _ (name +:+ "/rmse_targ")) by congruence.
  rewrite !(lookup_insert_ne _ (name +:+ "/bias_targ")) by congruence.
  reflexivity.
Qed.

(** C10.  In the V learner the diagnostic estimate [V_targ] is the target
    network's forward pass at [target_params['v_targ']] and at the [state]
    argument, which is the online function state, and the entries
    [bias_targ] and [rmse_targ] of the metrics are the mean and the root
    mean square of [V_targ - V]; in the Q learner [Q_targ] is evaluated at
    [target_params['q_targ']] and [target_state['q_targ']], the target
    network's own state.  (The entries are read where the gradient
    diagnostics do not use these keys.)  In both learners the gradients,
    the new function state and every metric other than [bias_targ] and
    [rmse_targ] are the same whatever the target network is. *)
Theorem target_estimate_uses_online_state_in_V :
  (forall (self : BaseTDLearning.engine obs) params tp state ts rng b
          loss0 loss G V S state_new v_targ_function,
     BaseTDLearningV.loss_func v_target_func self params tp state ts
       (fst (next (PRNGSequence rng))) b
       = Return (loss0, (loss, G, V, S, state_new)) ->
     BaseTDLearning.f_targ_attr function self = Return v_targ_function ->
     let V_targ :=
       fst (v_targ_function (BaseTDLearningV.tp_v_targ tp) state
              (fst (next (snd (next (PRNGSequence rng))))) S false) in
     exists grads metrics,
       BaseTDLearningV.grads_and_metrics_func v_name v_target_func self params tp
         state ts rng b = Return (grads, state_new, metrics) /\
       ((forall k, k ∈ metric_names v_name ->
           get_grads_diagnostics grads (v_name +:+ "/grads_") !! k = None) ->
        metrics !! (v_name +:+ "/bias_targ") = Some (jnp_mean (arr_sub V_targ V)) /\
        metrics !! (v_name +:+ "/rmse_targ") =
          Some (jnp_sqrt (jnp_mean (jnp_square (arr_sub V_targ V))))))
  /\
  (forall (self : BaseTDLearning.engine (obs * act)) params tp state ts rng b
          loss0 loss G Q S A state_new q_targ,
     BaseTDLearningQ.loss_func q_target_func action_preprocessor self params tp
       state ts (fst (next (PRNGSequence rng))) b
       = Return (loss0, (loss, G, Q, S, A, state_new)) ->
     BaseTDLearning.f_targ_attr (fun a => a) self = Return q_targ ->
     let Q_targ :=
       fst (function q_targ (BaseTDLearningQ.tp_q_targ tp)
              (BaseTDLearningQ.ts_q_targ ts)
              (fst (next (snd (next (PRNGSequence rng))))) (S, A) false) in
     exists grads metrics,
       BaseTDLearningQ.grads_and_metrics_func q_name q_target_func
         action_preprocessor self params tp state ts rng b
         = Return (grads, state_new, metrics) /\
       ((forall k, k ∈ metric_names q_name ->
           get_grads_diagnostics grads (q_name +:+ "/grads_") !! k = None) ->
        metrics !! (q_name +:+ "/bias_targ") = Some (jnp_mean (arr_sub Q_targ Q)) /\
        metrics !! (q_name +:+ "/rmse_targ") =
          Some (jnp_sqrt (jnp_mean (jnp_square (arr_sub Q_targ Q))))))
  /\
  (forall (self : BaseTDLearning.engine obs) (a1 a2 : approx obs ndarray)
          params tp state ts rng b,
     match BaseTDLearningV.grads_and_metrics_func v_name v_target_func
             (with_target self a1) params tp state ts rng b,
           BaseTDLearningV.grads_and_metrics_func v_name v_target_func
             (with_target self a2) params tp state ts rng b with
     | Return (g1, s1, m1), Return (g2, s2, m2) =>
         g1 = g2 /\ s1 = s2 /\
         forall k, k <> v_name +:+ "/bias_targ" -> k <> v_name +:+ "/rmse_targ" ->
                   m1 !! k = m2 !! k
     | Raise x1, Raise x2 => x1 = x2
     | _, _ => False
     end)
  /\
  (forall (self : BaseTDLearning.engine (obs * act))
          (a1 a2 : approx (obs * act) ndarray) params tp state ts rng b,
     match BaseTDLearningQ.grads_and_metrics_func q_name q_target_func
             action_preprocessor (with_target self a1) params tp state ts rng b,
           BaseTDLearningQ.grads_and_metrics_func q_name q_target_func
             action_preprocessor (with_target self a2) params tp state ts rng b with
     | Return (g1, s1, m1), Return (g2, s2, m2) =>
         g1 = g2 /\ s1 = s2 /\
         forall k, k <> q_name +:+ "/bias_targ" -> k <> q_name +:+ "/rmse_targ" ->
                   m1 !! k = m2 !! k
     | Raise x1, Raise x2 => x1 = x2
     | _, _ => False
     end).
Proof.
  split; [|split; [|split]].
  - intros self params tp state ts rng b loss0 loss G V S state_new vt Hloss Ht
           V_targ; subst V_targ.
    unfold BaseTDLearningV.grads_and_metrics_func, jax_grad_has_aux.
    destruct (next (PRNGSequence rng)) as [rng1 r1]; cbn [fst snd] in *.
    rewrite Hloss; cbn [rbind]. rewrite Ht; cbn [rbind].
    destruct (next r1) as [rng2 r2]; cbn [fst snd].
    destruct (vt (BaseTDLearningV.tp_v_targ tp) state rng2 S false) as [Vt st].
    eexists _, _. split; [reflexivity|]. intros Hfree. cbn [fst].
    destruct (metrics_dict_entries v_name loss (arr_sub V G) (arr_sub Vt V)
                (jax_grad
                   (fun p' =>
                      match BaseTDLearningV.loss_func v_target_func self p' tp
                              state ts rng1 b with
                      | Return (l, _) => l
                      | Raise _ => loss0
                      end) params))
      as (_ & _ & Hentries).
    destruct (Hentries Hfree) as (_ & _ & _ & Hb & Hr). split; assumption.
  - intros self params tp state ts rng b loss0 loss G Q S A state_new qt Hloss Ht
           Q_targ; subst Q_targ.
    unfold BaseTDLearningQ.grads_and_metrics_func, jax_grad_has_aux.
    destruct (next (PRNGSequence rng)) as [rng1 r1]; cbn [fst snd] in *.
    rewrite Hloss; cbn [rbind].
    assert (Ht' : BaseTDLearning.f_targ_attr BaseTDLearningQ.function_type1 self
                  = Return (BaseTDLearningQ.function_type1 qt)).
    { unfold BaseTDLearning.f_targ_attr in *.
      destruct (BaseTDLearning._f_targ self); congruence. }
    rewrite Ht'; cbn [rbind].
    destruct (next r1) as [rng2 r2]; cbn [fst snd].
    unfold BaseTDLearningQ.function_type1 at 1.
    destruct (function qt (BaseTDLearningQ.tp_q_targ tp)
                (BaseTDLearningQ.ts_q_targ ts) rng2 (S, A) false) as [Qt st].
    eexists _, _. split; [reflexivity|]. intros Hfree. cbn [fst].
    destruct (metrics_dict_entries q_name loss (arr_sub Q G) (arr_sub Qt Q)
                (jax_grad
                   (fun p' =>
                      match BaseTDLearningQ.loss_func q_target_func
                              action_preprocessor self p' tp state ts rng1 b with
                      | Return (l, _) => l
                      | Raise _ => loss0
                      end) params))
      as (_ & _ & Hentries).
    destruct (Hentries Hfree) as (_ & _ & _ & Hb & Hr). split; assumption.
  - intros self a1 a2 params tp state ts rng b.
    unfold BaseTDLearningV.grads_and_metrics_func.
    destruct (next (PRNGSequence rng)) as [rng1 r1].
    change (BaseTDLearningV.loss_func v_target_func (with_target self a1))
      with (BaseTDLearningV.loss_func v_target_func (with_target self a2)).
    destruct (jax_grad_has_aux _ params) as [[grads [[[[loss G] V] S] st]]|x];
      simpl; [|reflexivity].
    destruct (next r1) as [rng2 r2].
    destruct (function a1 _ _ _ _ _), (function a2 _ _ _ _ _).
    split; [reflexivity|]. split; [reflexivity|].
    intros k Hb Hr. apply metrics_dict_lookup_other; assumption.
  - intros self a1 a2 params tp state ts rng b.
    unfold BaseTDLearningQ.grads_and_metrics_func.
    destruct (next (PRNGSequence rng)) as [rng1 r1].
    change (BaseTDLearningQ.loss_func q_target_func action_preprocessor
              (with_target self a1))
      with (BaseTDLearningQ.loss_func q_target_func action_preprocessor
              (with_target self a2)).
    destruct (jax_grad_has_aux _ params) as [[grads [[[[[loss G] Q] S] A] st]]|x];
      simpl; [|reflexivity].
    destruct (next r1) as [rng2 r2].
    destruct (BaseTDLearningQ.function_type1 a1 _ _ _ _ _ _),
             (BaseTDLearningQ.function_type1 a2 _ _ _ _ _ _).
    split; [reflexivity|]. split; [reflexivity|].
    intros k Hb Hr. apply metrics_dict_lookup_other; assumption.
Qed.

End TargetEstimate.

(** ** The TD error

    First what [td_error_func] returns without a regularizer, then the
    squared-error loss over the real numbers. *)

Lemma sum_cons (x : R) (l : list R) :
  RealModel.sum (x :: l) = (x + RealModel.sum l)%R.
Proof. reflexivity. Qed.

(** Moving one prediction by [h] moves the sum of the squared residuals by
    [2 h (V_i - G_i) + h^2]. *)
Lemma sum_sq_bump (V G : list R) (i : nat) (h : R) :
  i < length V -> length G = length V ->
  RealModel.sum (map (fun x => (x * x)%R) (zip_with Rminus (RealModel.bump V i h) G)) =
  (RealModel.sum (map (fun x => (x * x)%R) (zip_with Rminus V G))
   + 2 * h * (nth i V 0 - nth i G 0) + h * h)%R.
Proof.
  unfold RealModel.bump, RealModel.sum.
  revert G i. induction V as [|v V IH]; intros [|g G] i Hi Hlen; simpl in *; try lia.
  destruct i as [|i]; simpl.
  - lra.
  - assert (Hi' : i < length V) by lia.
    assert (Hlen' : length G = length V) by lia.
    pose proof (IH G i Hi' Hlen') as E. unfold alter in E.
    rewrite E. lra.
Qed.

Lemma nth_zip_with (f : R -> R -> R) (l k : list R) (i : nat) :
  i < length l -> length k = length l ->
  nth i (zip_with f l k) 0%R = f (nth i l 0%R) (nth i k 0%R).
Proof.
  revert k i. induction l as [|x l IH]; intros [|y k] i Hi Hlen; simpl in *; try lia.
  destruct i; [reflexivity|]. apply IH; lia.
Qed.

(** Without a policy regularizer, [td_error_func] returns the negated
    [jax.grad(loss_function, argnums=1)] at the target [G] and at the
    prediction [V] of the online function with [is_training = False]. *)
Lemma td_error_func_no_regularizer `{B : Backend}
    (target_func : BaseTDLearningV.TargetParams -> BaseTDLearningV.TargetState ->
                   key -> batch -> ndarray)
    (self : BaseTDLearning.engine obs) params tp state ts rng b :
  BaseTDLearning.policy_regularizer self = None ->
  BaseTDLearningV.td_error_func target_func self params tp state ts rng b =
  Return
    (arr_neg
       (jax_grad_argnums1 (BaseTDLearning.loss_function self)
          (target_func tp ts (fst (next (PRNGSequence rng))) b)
          (fst (function (BaseTDLearningV.v self) params state
                  (fst (next (snd (next (PRNGSequence rng)))))
                  (batch_S b) false)))).
Proof.
  intros Hreg.
  unfold BaseTDLearningV.td_error_func, add_policy_regularization.
  rewrite Hreg.
  destruct (next (PRNGSequence rng)) as [rng1 r1]; simpl.
  destruct (next r1) as [rng2 r2]; simpl.
  destruct (function _ _ _ _ _ _); reflexivity.
Qed.

Section RealFacts.
Variable grad : (pytree RealModel.vec -> RealModel.vec) -> pytree RealModel.vec -> pytree RealModel.vec.
Variable grad1 : (RealModel.vec -> RealModel.vec -> RealModel.vec) -> RealModel.vec -> RealModel.vec -> RealModel.vec.
Local Abbreviation RB := (RealModel.backend grad grad1).

Lemma mse_scalar (G V : list R) :
  length G = length V ->
  RealModel.scalar (mse (H := RB) G V) =
  (RealModel.sum (map (fun x => (x * x)%R) (zip_with Rminus V G))
   / INR (length V))%R.
Proof.
  intros Hlen. unfold mse; simpl. unfold RealModel.mean; simpl.
  rewrite length_map, length_zip_with_l_eq by congruence. reflexivity.
Qed.

(** The partial derivative of [mse] in the [i]-th prediction is
    [2 (V_i - G_i) / n]. *)
Lemma mse_partial_derivative (G V : list R) (i : nat) :
  length G = length V -> i < length V ->
  derivable_pt_lim
    (fun h => RealModel.scalar (mse (H := RB) G (RealModel.bump V i h))) 0%R
    (2 * (nth i V 0 - nth i G 0) / INR (length V))%R.
Proof.
  intros Hlen Hi eps Heps.
  exists (mkposreal eps Heps). intros h Hh Hlt. simpl in Hlt.
  rewrite Rplus_0_l.
  assert (Hn : (1 <= INR (length V))%R).
  { change 1%R with (INR 1). apply le_INR. lia. }
  assert (Hb : forall x, length G = length (RealModel.bump V i x)).
  { intros x. rewrite Hlen. symmetry. apply length_alter. }
  rewrite !mse_scalar by apply Hb.
  rewrite <- !Hb, Hlen.
  rewrite !sum_sq_bump by assumption.
  replace ((_ / INR (length V) - _ / INR (length V)) / h
           - 2 * (nth i V 0 - nth i G 0) / INR (length V))%R
    with (h / INR (length V))%R by (field; lra).
  unfold Rdiv. rewrite Rabs_mult.
  rewrite (Rabs_right (/ INR (length V))).
  2:{ apply Rle_ge. left. apply Rinv_0_lt_compat. lra. }
  apply Rle_lt_trans with (Rabs h * 1)%R; [|lra].
  apply Rmult_le_compat_l; [apply Rabs_pos|].
  rewrite <- Rinv_1. apply Rinv_le_contravar; lra.
Qed.

Lemma mse_grad_is_grad : RealModel.is_grad_argnums1 (mse (H := RB)) RealModel.mse_grad.
Proof.
  intros G V Hlen. unfold RealModel.mse_grad. split.
  - rewrite length_zip_with_l_eq; congruence.
  - intros i Hi. rewrite nth_zip_with by congruence.
    apply mse_partial_derivative; assumption.
Qed.

(** So any gradient operator that keeps the promise of [jax.grad] returns
    [mse_grad] on [mse]. *)
Lemma grad_of_mse (dL : RealModel.vec -> RealModel.vec -> RealModel.vec) (G V : list R) :
  RealModel.is_grad_argnums1 (mse (H := RB)) dL ->
  length G = length V ->
  dL G V = RealModel.mse_grad G V.
Proof.
  intros HdL Hlen.
  destruct (HdL G V Hlen) as [Hl Hd].
  destruct (mse_grad_is_grad G V Hlen) as [Hl' Hd'].
  apply (nth_ext _ _ 0%R 0%R); [congruence|].
  intros i Hi. rewrite Hl in Hi.
  eapply uniqueness_limite; [apply Hd | apply Hd']; assumption.
Qed.


(** What [td_error_func] computes for the squared-error loss. *)
Lemma td_error_func_mse
    (target_func : @BaseTDLearningV.TargetParams RB ->
                   @BaseTDLearningV.TargetState RB -> @key RB -> @batch RB ->
                   @ndarray RB)
    (self : @BaseTDLearning.engine RB (@obs RB))
    params tp state ts rng (b : @batch RB) :
  RealModel.is_grad_argnums1 (mse (H := RB)) (grad1 (mse (H := RB))) ->
  BaseTDLearning.policy_regularizer self = None ->
  BaseTDLearning.loss_function self = mse (H := RB) ->
  let G := target_func tp ts (fst (next (H := RB) (PRNGSequence rng))) b in
  let V := fst (function (BaseTDLearningV.v self) params state
                  (fst (next (H := RB) (snd (next (H := RB) (PRNGSequence rng)))))
                  (batch_S b) false) in
  length G = length V ->
  BaseTDLearningV.td_error_func (B := RB) target_func self params tp state ts rng b =
  Return (zip_with (fun g v => (2 * (g - v) / INR (length V))%R) G V).
Proof.
  intros Hgrad Hreg Hloss G V Hlen.
  rewrite (td_error_func_no_regularizer target_func self) by exact Hreg.
  fold G V. rewrite Hloss.
  change (@jax_grad_argnums1 RB) with grad1.
  rewrite (grad_of_mse _ _ _ Hgrad Hlen).
  unfold RealModel.mse_grad. f_equal.
  change (@arr_neg RB) with (map Ropp).
  generalize (INR (length V)). intros n.
  clearbody G V.
  revert V Hlen. induction G as [|g G IH]; intros [|v V] Hlen; simpl in *;
    try discriminate; [reflexivity|].
  f_equal; [|apply IH; congruence].
  unfold Rdiv. ring.
Qed.

(** C2 at a failing input.  On the four transitions with targets
    [1,2,3,4] and predictions [0,0,0,0] (the linear value function with
    [w = 0]) and with the squared-error loss, [td_error] returns
    [0.5, 1, 1.5, 2], the residual [target - prediction = 1,2,3,4] scaled by
    [2 / batch_size], for every [jax.grad] that returns the derivative. *)
Theorem td_error_mse_is_not_residual :
  RealModel.is_grad_argnums1 (mse (H := RB)) (grad1 (mse (H := RB))) ->
  snd (BaseTDLearningV.td_error (B := RB) RealModel.batch_target RealModel.batch4
         (RealModel.learner grad grad1 0))
  = Return [1 / 2; 1; 3 / 2; 2]%R
  /\ zip_with Rminus (RealModel.tb_G RealModel.batch4)
       (fst (RealModel.linear_forward (PLeaf [0%R]) PNone 0
               (RealModel.tb_S RealModel.batch4) false))
     = [1; 2; 3; 4]%R
  /\ [1 / 2; 1; 3 / 2; 2]%R <> [1; 2; 3; 4]%R.
Proof.
  intros Hgrad. split; [|split].
  - unfold BaseTDLearningV.td_error. rewrite td_error_unfold.
    set (e := RealModel.learner grad grad1 0).
    assert (Htp : exists tp, BaseTDLearningV.target_params e = Return tp)
      by (eexists; reflexivity).
    assert (Hts : exists ts, BaseTDLearningV.target_function_state e = Return ts)
      by (eexists; reflexivity).
    destruct Htp as [tp ->], Hts as [ts ->]. cbn [snd].
    rewrite td_error_func_mse; try reflexivity; [|exact Hgrad].
    simpl. repeat (f_equal; try lra).
  - simpl. repeat (f_equal; try lra).
  - intros H. injection H as H _. lra.
Qed.

End RealFacts.

(** A [jax.grad] over the reals that keeps its promise on [mse]. *)
Lemma td_error_mse_is_not_residual_witness :
  snd (BaseTDLearningV.td_error
         (B := RealModel.backend (fun _ p => p) (fun _ => RealModel.mse_grad))
         RealModel.batch_target RealModel.batch4
         (RealModel.learner (fun _ p => p) (fun _ => RealModel.mse_grad) 0))
  = Return [1 / 2; 1; 3 / 2; 2]%R
  /\ zip_with Rminus (RealModel.tb_G RealModel.batch4)
       (fst (RealModel.linear_forward (PLeaf [0%R]) PNone 0
               (RealModel.tb_S RealModel.batch4) false))
     = [1; 2; 3; 4]%R
  /\ [1 / 2; 1; 3 / 2; 2]%R <> [1; 2; 3; 4]%R.
Proof.
  apply (td_error_mse_is_not_residual (fun _ p => p) (fun _ => RealModel.mse_grad)).
  apply mse_grad_is_grad.
Defined.

(** ** Runs on the binary32 backend *)

Section Binary32Runs.
#[local] Existing Instance F32.backend.

Local Abbreviation e0 := (F32.learner 0 (mse (H := F32.backend)) None).
Local Abbreviation V_grads_and_metrics :=
  (BaseTDLearningV.grads_and_metrics (B := F32.backend) "TD" F32.batch_target).
Local Abbreviation V_update :=
  (BaseTDLearningV.update (B := F32.backend) "TD" F32.batch_target).

(** The specification's scenario: loss 7.5, gradient -5 in [w], and the
    step of plain gradient descent with rate 1/8 to [w = 0.625]. *)
Example scenario_loss_and_gradient :
  fst (fst (grads_and_metrics_on F32.batch4)) = PLeaf [F32.ofZ (-5)] /\
  snd (grads_and_metrics_on F32.batch4) !! "TD/loss" =
    Some [F32.div (F32.ofZ 15) (F32.ofZ 2)] /\
  params (BaseTDLearning._f (fst (V_update F32.batch4 e0))) =
    PLeaf [F32.div (F32.ofZ 5) (F32.ofZ 8)].
Proof. repeat split; vm_compute; reflexivity. Qed.

(** The same scenario in binary32 arithmetic: the TD errors are half the
    residuals. *)
Example scenario_td_error_binary32 :
  snd (BaseTDLearningV.td_error F32.batch_target F32.batch4 e0) =
    Return (map (fun z => F32.div (F32.ofZ z) (F32.ofZ 2)) [1; 2; 3; 4]%Z) /\
  zip_with F32.sub (F32.tb_G F32.batch4)
    (fst (F32.linear_forward (PLeaf [F32.ofZ 0]) PNone 0 (F32.tb_S F32.batch4) false))
  = map F32.ofZ [1; 2; 3; 4]%Z.
Proof. split; vm_compute; reflexivity. Qed.

Lemma grads_and_metrics_on_eq (b : F32.TransitionBatch) :
  raised (snd (V_grads_and_metrics b e0)) = false ->
  V_grads_and_metrics b e0 =
  (fst (V_grads_and_metrics b e0),
   Return (fst (fst (grads_and_metrics_on b)),
           snd (fst (grads_and_metrics_on b)),
           snd (grads_and_metrics_on b))).
Proof.
  unfold grads_and_metrics_on.
  destruct (V_grads_and_metrics b e0) as [self1 [[[g fs] m]|x]]; simpl;
    [reflexivity | discriminate].
Qed.

(** No leaf of the scenario's gradient holds a NaN. *)
Lemma batch4_grads_without_nan (g : F32.vec) :
  In g (tree_leaves (fst (fst (grads_and_metrics_on F32.batch4)))) ->
  jnp_any (jnp_isnan g) = false.
Proof.
  assert (Hg : fst (fst (grads_and_metrics_on F32.batch4)) = PLeaf [F32.ofZ (-5)])
    by (vm_compute; reflexivity).
  rewrite Hg. intros [<-|[]]. vm_compute. reflexivity.
Qed.



(** C4 as stated fails.  On one transition with state and target [2^64]
    the gradient in [w] overflows to minus infinity; no leaf is a NaN, so
    [update] does not raise: it returns the metrics and the online parameter
    becomes plus infinity. *)
Lemma update_proceeds_on_infinite_grads :
  fst (fst (grads_and_metrics_on batch_overflow)) = PLeaf [F32.neg F32.inf] /\
  found_nonfinite (fst (fst (grads_and_metrics_on batch_overflow))) = true /\
  raised (snd (V_update batch_overflow e0)) = false /\
  params (BaseTDLearning._f (fst (V_update batch_overflow e0))) = PLeaf [F32.inf] /\
  params (BaseTDLearning._f e0) = PLeaf [F32.ofZ 0] /\
  ~ (exists grads, snd (V_update batch_overflow e0) = Raise (RuntimeError grads)).
Proof.
  assert (Hret : raised (snd (V_update batch_overflow e0)) = false)
    by (vm_compute; reflexivity).
  repeat split; try (vm_compute; reflexivity).
  intros (grads & Hraise). rewrite Hraise in Hret. discriminate Hret.
Qed.

Lemma update_nan_error_carries_grads_witness :
  snd (V_update batch_nan e0) = Raise (RuntimeError (PLeaf [F32.nan])) /\
  engine_state (fst (V_update batch_nan e0)) = engine_state e0 /\
  BaseTDLearning._optimizer (fst (V_update batch_nan e0)) =
  BaseTDLearning._optimizer e0.
Proof.
  assert (Hg : fst (fst (grads_and_metrics_on batch_nan)) = PLeaf [F32.nan])
    by (vm_compute; reflexivity).
  rewrite <- Hg.
  apply (update_nan_error_carries_grads (B := F32.backend)
           (BaseTDLearningV.target_params (B := F32.backend))
           (BaseTDLearningV.target_function_state (B := F32.backend))
           (BaseTDLearningV.grads_and_metrics_func (B := F32.backend)
              "TD" F32.batch_target)
           (BaseTDLearning.apply_grads_func (B := F32.backend))
           batch_nan e0 (fst (V_grads_and_metrics batch_nan e0))
           (fst (fst (grads_and_metrics_on batch_nan)))
           (snd (fst (grads_and_metrics_on batch_nan)))
           (snd (grads_and_metrics_on batch_nan))).
  - apply grads_and_metrics_on_eq. vm_compute. reflexivity.
  - rewrite Hg. exists [F32.nan].
    split; [left; reflexivity | vm_compute; reflexivity].
Defined.

End Binary32Runs.

Section Binary32Witnesses.
#[local] Existing Instance F32.backend.

Local Abbreviation e0 := (F32.learner 0 (mse (H := F32.backend)) None).
Local Abbreviation eighth := (F32.div (F32.ofZ 1) (F32.ofZ 8)).
Local Abbreviation half := (F32.div (F32.ofZ 1) (F32.ofZ 2)).
Local Abbreviation tp1 :=
  {| BaseTDLearningV.tp_v := PLeaf [F32.ofZ 0];
     BaseTDLearningV.tp_v_targ := PLeaf [F32.ofZ 0];
     BaseTDLearningV.tp_reg_pi := PNone;
     BaseTDLearningV.tp_reg_hparams := Some (F32.ofZ 1) |}.
Local Abbreviation ts1 :=
  {| BaseTDLearningV.ts_v := PNone;
     BaseTDLearningV.ts_v_targ := PNone;
     BaseTDLearningV.ts_reg_pi := PNone |}.

(** Plain gradient descent keeps an empty optimizer state: momentum, whose
    state holds a tree, is refused; weight decay, whose state is empty too,
    is accepted. *)
Lemma optimizer_setter_checks_structure_witness :
  (exists msg,
     BaseTDLearning.optimizer_setter (F32.momentum eighth half) e0 =
     (e0, Raise (AttributeError msg))) /\
  BaseTDLearning.optimizer_setter (F32.sgd_weight_decay eighth half) e0 =
  (BaseTDLearning.set_optimizer e0 (F32.sgd_weight_decay eighth half), Return tt).
Proof.
  destruct (optimizer_setter_checks_structure (B := F32.backend) (F32.momentum eighth half) e0)
    as [Hbad _].
  destruct (optimizer_setter_checks_structure (B := F32.backend) (F32.sgd_weight_decay eighth half) e0)
    as [_ Hgood].
  split.
  - apply Hbad. vm_compute. discriminate.
  - apply Hgood. vm_compute. reflexivity.
Defined.

(** A regularizer of the batch's shape is subtracted from the targets
    ([1,2,3,4] become [0,1,2,3], the loss is 3.5); one of shape [[1]] fails
    the assertion. *)
Lemma loss_func_subtracts_regularizer_witness :
  (exists aux,
     BaseTDLearningV.loss_func F32.batch_target
       (F32.learner 0 mse (Some (F32.scaling_regularizer 1)))
       (PLeaf [F32.ofZ 0]) tp1 PNone ts1 7 F32.batch4 =
     Return ([F32.div (F32.ofZ 7) (F32.ofZ 2)], aux)) /\
  BaseTDLearningV.loss_func F32.batch_target
    (F32.learner 0 mse (Some (F32.mean_regularizer 1)))
    (PLeaf [F32.ofZ 0]) tp1 PNone ts1 7 F32.batch4 =
  Raise (AssertionError [4] [1]).
Proof.
  pose proof (loss_func_subtracts_regularizer (B := F32.backend) "TD" F32.batch_target
                (F32.learner 0 mse (Some (F32.scaling_regularizer 1)))
                (PLeaf [F32.ofZ 0]) tp1 PNone ts1 7 F32.batch4
                (F32.scaling_regularizer 1) (F32.ofZ 1) eq_refl eq_refl) as Hsame.
  pose proof (loss_func_subtracts_regularizer (B := F32.backend) "TD" F32.batch_target
                (F32.learner 0 mse (Some (F32.mean_regularizer 1)))
                (PLeaf [F32.ofZ 0]) tp1 PNone ts1 7 F32.batch4
                (F32.mean_regularizer 1) (F32.ofZ 1) eq_refl eq_refl) as Hdiff.
  cbv zeta in Hsame, Hdiff.
  destruct Hsame as (Hsame & _), Hdiff as (_ & Hdiff & _).
  split.
  - destruct Hsame as [aux Haux]; [vm_compute; reflexivity|].
    exists aux. rewrite Haux.
    apply (f_equal (fun l => Return (l, aux))). vm_compute. reflexivity.
  - rewrite Hdiff by (vm_compute; discriminate). vm_compute. reflexivity.
Defined.

(** The learner early and late in training (another optimizer, another
    optimizer state), same parameters and key: same gradients and metrics. *)
Lemma grads_and_metrics_pure_witness :
  snd (BaseTDLearningV.grads_and_metrics "TD" F32.batch_target F32.batch4 e0)
  = snd (BaseTDLearningV.grads_and_metrics "TD" F32.batch_target F32.batch4
           (learner_with_momentum 0))
  /\ engine_state (fst (BaseTDLearningV.grads_and_metrics "TD" F32.batch_target
                          F32.batch4 e0)) = engine_state e0
  /\ BaseTDLearning._optimizer
       (fst (BaseTDLearningV.grads_and_metrics "TD" F32.batch_target
               F32.batch4 e0)) = BaseTDLearning._optimizer e0
  /\ engine_state (fst (BaseTDLearningV.td_error F32.batch_target F32.batch4 e0))
     = engine_state e0.
Proof.
  apply (grads_and_metrics_pure (B := F32.backend) "TD" F32.batch_target F32.batch4 e0
           (learner_with_momentum 0)); try reflexivity.
  repeat split.
Defined.

(** A Q handed to the V-learner is refused and nothing has been set. *)
Lemma V_init_type_checks_witness :
  BaseTDLearningV.__init__ default_optimizer BaseTDLearning.blank
    (PyQ (F32.linear_q 0)) PyNone None None PyNone =
  (BaseTDLearning.blank, Raise (TypeError "v must be a coax.V")) /\
  BaseTDLearningV.__init__ default_optimizer BaseTDLearning.blank
    (PyV (F32.linear_v 0)) (PyInt 3) None None PyNone =
  (BaseTDLearning.blank, Raise (TypeError "v_targ must be a coax.Q or None")).
Proof.
  split.
  - apply (V_init_type_checks (B := F32.backend) default_optimizer BaseTDLearning.blank
             (PyQ (F32.linear_q 0)) PyNone None None PyNone).
    reflexivity.
  - apply (V_init_type_checks (B := F32.backend) default_optimizer BaseTDLearning.blank
             (PyV (F32.linear_v 0)) (PyInt 3) None None PyNone); reflexivity.
Defined.

(** C9 as stated fails.  The list [[0]] holds an element that is not a Q,
    yet constructing a Q-learner with it as [q_targ] raises nothing and
    leaves a learner whose target is that list. *)
Lemma Q_init_accepts_list_with_non_Q :
  forallb isinstance_Q [PyInt 0] = false /\
  snd (BaseTDLearningQ.__init__ default_optimizer BaseTDLearning.blank
         (PyQ (F32.linear_q 0)) (PyList [PyInt 0]) None None PyNone) = Return tt /\
  option_map BaseTDLearning._f_targ
    (BaseTDLearning.constructed
       (fst (BaseTDLearningQ.__init__ default_optimizer BaseTDLearning.blank
               (PyQ (F32.linear_q 0)) (PyList [PyInt 0]) None None PyNone)))
  = Some (BaseTDLearning.Sequence [PyInt 0]) /\
  ~ (exists msg,
       snd (BaseTDLearningQ.__init__ default_optimizer BaseTDLearning.blank
              (PyQ (F32.linear_q 0)) (PyList [PyInt 0]) None None PyNone)
       = Raise (TypeError msg)).
Proof.
  repeat split; try reflexivity.
  intros (msg & Hraise). discriminate Hraise.
Qed.

Lemma Q_init_type_checks_witness :
  (exists msg,
     BaseTDLearningQ.__init__ default_optimizer BaseTDLearning.blank
       (PyQ (F32.linear_q 0)) (PyInt 3) None None PyNone =
     (BaseTDLearning.blank, Raise (TypeError msg))) /\
  snd (BaseTDLearningQ.__init__ default_optimizer BaseTDLearning.blank
         (PyQ (F32.linear_q 0)) (PyTuple [PyInt 0; PyNone]) None None PyNone)
  = Return tt.
Proof.
  destruct (Q_init_type_checks (B := F32.backend) default_optimizer BaseTDLearning.blank
              (PyQ (F32.linear_q 0)) (PyInt 3) None None PyNone) as [Hbad _].
  destruct (Q_init_type_checks (B := F32.backend) default_optimizer BaseTDLearning.blank
              (PyQ (F32.linear_q 0)) (PyTuple [PyInt 0; PyNone]) None None PyNone)
    as [_ Hseq].
  split.
  - apply Hbad. right. reflexivity.
  - apply (Hseq eq_refl [PyInt 0; PyNone]); [right; reflexivity | discriminate].
Defined.

(** The gradient diagnostics of this backend use the one key
    [<name>/grads_max], none of the five keys of the closures. *)
Lemma F32_diagnostics_free (grads : pytree F32.vec) (k : string) :
  k ∈ metric_names "TD" ->
  get_grads_diagnostics (Backend := F32.backend) grads ("TD" +:+ "/grads_") !! k
  = None.
Proof.
  intros Hk. apply lookup_singleton_ne.
  apply list_elem_of_In in Hk. unfold metric_names in Hk. simpl in Hk.
  intros <-.
  repeat (destruct Hk as [Hk|Hk]; [vm_compute in Hk; discriminate Hk|]).
  exact Hk.
Qed.

(** The stateful functions, online offset 1, target network with weight 1
    and offset 5, states all 1: the online prediction is 1.  The V learner
    runs the target network at the online offset, [V_targ = 1 + 1], and
    reports [bias_targ = 1]; the Q learner runs it at the target's own
    offset, [Q_targ = 1 + 5], and reports [bias_targ = 5]. *)
Lemma target_estimate_uses_online_state_in_V_witness :
  (exists grads state_new metrics,
     BaseTDLearningV.grads_and_metrics_func "TD" F32.batch_target offset_v_learner
       (PLeaf [F32.ofZ 0])
       (@BaseTDLearningV.Build_TargetParams F32.backend
          (PLeaf [F32.ofZ 0]) (PLeaf [F32.ofZ 1]) PNone None)
       (PLeaf [F32.ofZ 1])
       (@BaseTDLearningV.Build_TargetState F32.backend
          (PLeaf [F32.ofZ 1]) (PLeaf [F32.ofZ 5]) PNone)
       7 F32.batch4 = Return (grads, state_new, metrics) /\
     metrics !! "TD/bias_targ" = Some [F32.ofZ 1]) /\
  (exists grads state_new metrics,
     BaseTDLearningQ.grads_and_metrics_func "TD"
       (F32.batch_target (TP := BaseTDLearningQ.TargetParams)
          (TS := BaseTDLearningQ.TargetState))
       (fun a => a) (offset_q_learner (F32.sgd eighth))
       (PLeaf [F32.ofZ 0])
       (@BaseTDLearningQ.Build_TargetParams F32.backend
          (PLeaf [F32.ofZ 0]) (PLeaf [F32.ofZ 1]) PNone None)
       (PLeaf [F32.ofZ 1])
       (@BaseTDLearningQ.Build_TargetState F32.backend
          (PLeaf [F32.ofZ 1]) (PLeaf [F32.ofZ 5]) PNone)
       7 F32.batch4 = Return (grads, state_new, metrics) /\
     metrics !! "TD/bias_targ" = Some [F32.ofZ 5]).
Proof.
  destruct (target_estimate_uses_online_state_in_V (B := F32.backend) "TD" "TD"
              F32.batch_target
              (F32.batch_target (TP := BaseTDLearningQ.TargetParams)
                 (TS := BaseTDLearningQ.TargetState))
              (fun a => a)) as (HV & HQ & _ & _).
  split.
  - pose proof (HV offset_v_learner (PLeaf [F32.ofZ 0])
                  (@BaseTDLearningV.Build_TargetParams F32.backend
                     (PLeaf [F32.ofZ 0]) (PLeaf [F32.ofZ 1]) PNone None)
                  (PLeaf [F32.ofZ 1])
                  (@BaseTDLearningV.Build_TargetState F32.backend
                     (PLeaf [F32.ofZ 1]) (PLeaf [F32.ofZ 5]) PNone)
                  7 F32.batch4
                  [F32.div (F32.ofZ 7) (F32.ofZ 2)]
                  [F32.div (F32.ofZ 7) (F32.ofZ 2)]
                  (map F32.ofZ [1; 2; 3; 4]%Z) (map F32.ofZ [1; 1; 1; 1]%Z)
                  (map F32.ofZ [1; 1; 1; 1]%Z) (PLeaf [F32.ofZ 2])
                  (function (F32.offset_v 1 5))) as H.
    cbv zeta in H.
    destruct H as (grads & metrics & Hrun & Hlook);
      [vm_compute; reflexivity | reflexivity |].
    destruct (Hlook (F32_diagnostics_free grads)) as [Hb _].
    exists grads, (PLeaf [F32.ofZ 2]), metrics. split; [exact Hrun|].
    etransitivity; [exact Hb|]. vm_compute. reflexivity.
  - pose proof (HQ (offset_q_learner (F32.sgd eighth)) (PLeaf [F32.ofZ 0])
                  (@BaseTDLearningQ.Build_TargetParams F32.backend
                     (PLeaf [F32.ofZ 0]) (PLeaf [F32.ofZ 1]) PNone None)
                  (PLeaf [F32.ofZ 1])
                  (@BaseTDLearningQ.Build_TargetState F32.backend
                     (PLeaf [F32.ofZ 1]) (PLeaf [F32.ofZ 5]) PNone)
                  7 F32.batch4
                  [F32.div (F32.ofZ 7) (F32.ofZ 2)]
                  [F32.div (F32.ofZ 7) (F32.ofZ 2)]
                  (map F32.ofZ [1; 2; 3; 4]%Z) (map F32.ofZ [1; 1; 1; 1]%Z)
                  (map F32.ofZ [1; 1; 1; 1]%Z) (map F32.ofZ [0; 0; 0; 0]%Z)
                  (PLeaf [F32.ofZ 2])
                  (F32.offset_q 1 5)) as H.
    cbv zeta in H.
    destruct H as (grads & metrics & Hrun & Hlook);
      [vm_compute; reflexivity | reflexivity |].
    destruct (Hlook (F32_diagnostics_free grads)) as [Hb _].
    exists grads, (PLeaf [F32.ofZ 2]), metrics. split; [exact Hrun|].
    etransitivity; [exact Hb|]. vm_compute. reflexivity.
Defined.

End Binary32Witnesses.

(** * Further properties of the engine *)

(** ** [update], [update_from_grads] and the optimizer properties *)

Section UpdateFacts.
Context `{B : Backend} {X TP TS : Type}.
Variable target_params : BaseTDLearning.engine X -> result exn TP.
Variable target_function_state : BaseTDLearning.engine X -> result exn TS.
Variable _grads_and_metrics_func :
  BaseTDLearning.engine X -> pytree ndarray -> TP -> pytree ndarray -> TS ->
  key -> batch ->
  result exn (pytree ndarray * pytree ndarray * gmap string ndarray).
Variable _apply_grads_func :
  optax.GradientTransformation -> pytree ndarray -> pytree ndarray ->
  pytree ndarray -> result exn (pytree ndarray * pytree ndarray).

Local Abbreviation grads_and_metrics :=
  (BaseTDLearning.grads_and_metrics target_params target_function_state
     _grads_and_metrics_func).
Local Abbreviation update :=
  (BaseTDLearning.update target_params target_function_state
     _grads_and_metrics_func _apply_grads_func).
Local Abbreviation update_from_grads :=
  (BaseTDLearning.update_from_grads (X := X) _apply_grads_func).

(** X1.  An exception that leaves [update] has one of three origins, and
    the parameters, the optimizer state and the optimizer are those of
    before the call in each case.  It is the exception with which
    [grads_and_metrics] ended; or the [RuntimeError] of the NaN test, carrying
    the returned gradients, some leaf of which holds a NaN; in these two
    cases the function state is unchanged too.  Or the gradients hold no
    NaN and the gradient-application closure raised it; then the function
    state returned by [grads_and_metrics] has already been stored. *)
Theorem update_exceptions_classified (transition_batch : batch)
    (self : BaseTDLearning.engine X) (x : exn) :
  snd (update transition_batch self) = Raise x ->
  params (BaseTDLearning._f (fst (update transition_batch self))) =
    params (BaseTDLearning._f self) /\
  BaseTDLearning._optimizer_state (fst (update transition_batch self)) =
    BaseTDLearning._optimizer_state self /\
  BaseTDLearning._optimizer (fst (update transition_batch self)) =
    BaseTDLearning._optimizer self /\
  (snd (grads_and_metrics transition_batch self) = Raise x /\
   fst (update transition_batch self) = fst (grads_and_metrics transition_batch self)
   \/
   exists grads state_new metrics,
     snd (grads_and_metrics transition_batch self)
       = Return (grads, state_new, metrics) /\
     ((exists g, In g (tree_leaves grads) /\ jnp_any (jnp_isnan g) = true) /\
      x = RuntimeError grads /\
      fst (update transition_batch self)
        = fst (grads_and_metrics transition_batch self)
      \/
      (forall g, In g (tree_leaves grads) -> jnp_any (jnp_isnan g) = false) /\
      _apply_grads_func (BaseTDLearning._optimizer self)
        (BaseTDLearning._optimizer_state self)
        (params (BaseTDLearning._f self)) grads = Raise x /\
      function_state (BaseTDLearning._f (fst (update transition_batch self)))
        = state_new)).
Proof.
  intros Hraise.
  pose proof (grads_and_metrics_keeps_state target_params target_function_state
                _grads_and_metrics_func transition_batch self) as [Hst Hopt].
  rewrite (update_unfold _ _ _ _apply_grads_func) in *.
  destruct (grads_and_metrics transition_batch self) as [self1 [[[g fs] m]|e]];
    simpl in Hst, Hopt; unfold engine_state in Hst; injection Hst as Hp Hs Ho.
  - destruct (BaseTDLearning.found_nan g) eqn:Hnan; cbn [fst snd] in *.
    + injection Hraise as <-. apply found_nan_true in Hnan.
      repeat split; try assumption. right. exists g, fs, m.
      split; [reflexivity|]. left. auto.
    + pose proof (proj1 (found_nan_false g) Hnan) as Hclean.
      pose proof (update_from_grads_state _apply_grads_func g fs self1)
        as [Hout Hopt'].
      rewrite Hp, Ho, Hopt in Hout.
      destruct (_apply_grads_func (BaseTDLearning._optimizer self)
                  (BaseTDLearning._optimizer_state self)
                  (params (BaseTDLearning._f self)) g) as [[s p]|y] eqn:Hc;
        destruct Hout as [Hsnd Hstate]; rewrite Hsnd in Hraise;
        [discriminate Hraise|].
      injection Hraise as <-.
      unfold engine_state in Hstate. injection Hstate as Hp' Hs' Ho'.
      repeat split; try congruence. right. exists g, fs, m.
      split; [reflexivity|]. right. repeat split; assumption.
  - cbn [fst snd] in *. injection Hraise as <-.
    repeat split; try assumption. left. auto.
Qed.

(** X2.  When [grads_and_metrics] returns gradients no leaf of which holds
    a NaN, [update] ends as [update_from_grads] ends when it is handed these
    gradients and the returned function state on the learner of before the
    call: with the same exception, or else returning the metrics, and with
    the same parameters, function state and optimizer state. *)
Theorem update_is_grads_then_update_from_grads (transition_batch : batch)
    (self self1 : BaseTDLearning.engine X)
    (grads state_new : pytree ndarray) (metrics : gmap string ndarray) :
  grads_and_metrics transition_batch self =
    (self1, Return (grads, state_new, metrics)) ->
  (forall g, In g (tree_leaves grads) -> jnp_any (jnp_isnan g) = false) ->
  snd (update transition_batch self) =
    rmap (fun _ => metrics) (snd (update_from_grads grads state_new self)) /\
  engine_state (fst (update transition_batch self)) =
  engine_state (fst (update_from_grads grads state_new self)).
Proof.
  intros Hgm Hnan. apply found_nan_false in Hnan.
  pose proof (grads_and_metrics_keeps_state target_params target_function_state
                _grads_and_metrics_func transition_batch self) as [Hst Hopt].
  rewrite Hgm in Hst, Hopt; simpl in Hst, Hopt.
  destruct (update_from_grads_reads _apply_grads_func grads state_new self self1
              Hst Hopt) as [Hsnd Hstate].
  rewrite (update_unfold _ _ _ _apply_grads_func), Hgm, Hnan. cbn [fst snd].
  rewrite Hsnd. split; [reflexivity | exact Hstate].
Qed.

(** X3.  Whatever its outcome, [update] leaves the target, the loss
    function, the policy regularizer, the forward pass and the optimizer of
    the learner as they were, and it reads [self._f.rng] once if both target
    properties can be read and not at all otherwise. *)
Theorem update_keeps_configuration (transition_batch : batch)
    (self : BaseTDLearning.engine X) :
  let self' := fst (update transition_batch self) in
  BaseTDLearning._f_targ self' = BaseTDLearning._f_targ self /\
  BaseTDLearning.loss_function self' = BaseTDLearning.loss_function self /\
  BaseTDLearning.policy_regularizer self' = BaseTDLearning.policy_regularizer self /\
  function (BaseTDLearning._f self') = function (BaseTDLearning._f self) /\
  BaseTDLearning._optimizer self' = BaseTDLearning._optimizer self /\
  random_key (BaseTDLearning._f self') =
    (if raised (target_params self) || raised (target_function_state self)
     then random_key (BaseTDLearning._f self)
     else fst (rng_property (random_key (BaseTDLearning._f self)))).
Proof.
  intros self'; subst self'.
  rewrite (update_unfold _ _ _ _apply_grads_func), grads_and_metrics_unfold.
  destruct (target_params self) as [tp|x]; simpl; [|repeat split].
  destruct (target_function_state self) as [ts|x]; simpl; [|repeat split].
  destruct (_grads_and_metrics_func _ _ _ _ _ _ _) as [[[g fs] m]|x];
    [|repeat split].
  destruct (BaseTDLearning.found_nan g); [repeat split|].
  rewrite update_from_grads_unfold. cbv zeta.
  destruct (_apply_grads_func _ _ _ _) as [[s p]|x]; repeat split.
Qed.

(** X4.  After a successful assignment to the [optimizer] property the
    optimizer state fits the optimizer (it has the tree structure of
    a freshly initialised state), the property reads back the assigned
    optimizer, and parameters, function state and optimizer state are
    untouched. *)
Theorem optimizer_setter_establishes_fit
    (new_optimizer : optax.GradientTransformation)
    (self self' : BaseTDLearning.engine X) :
  BaseTDLearning.optimizer_setter new_optimizer self = (self', Return tt) ->
  optimizer_state_fits self' /\
  BaseTDLearning.optimizer self' = (self', Return new_optimizer) /\
  engine_state self' = engine_state self /\
  BaseTDLearning._f_targ self' = BaseTDLearning._f_targ self.
Proof.
  unfold BaseTDLearning.optimizer_setter, BaseTDLearning.bind,
    BaseTDLearning.get, BaseTDLearning.raise, BaseTDLearning.modify,
    BaseTDLearning.optimizer, optimizer_state_fits.
  destruct (bool_decide _) eqn:Hd; intros Heq; [discriminate Heq|].
  injection Heq as <-. simpl.
  apply bool_decide_eq_false_1 in Hd.
  repeat split.
  destruct (decide (tree_structure (optax.init new_optimizer
                                      (params (BaseTDLearning._f self)))
                    = tree_structure (BaseTDLearning._optimizer_state self)))
    as [Heq|Hne]; [exact Heq|contradiction].
Qed.

(** X5.  The setter of [optimizer_state] tests nothing: any tree is stored
    and read back.  If its structure is not that of a fresh state of the
    current optimizer, assigning the current optimizer to the [optimizer]
    property afterwards raises [AttributeError]; if it is, that assignment
    succeeds and changes nothing. *)
Theorem optimizer_state_setter_is_unchecked (new_state : pytree ndarray)
    (self : BaseTDLearning.engine X) :
  let self' := BaseTDLearning.set_optimizer_state self new_state in
  BaseTDLearning.optimizer_state_setter new_state self = (self', Return tt) /\
  BaseTDLearning.optimizer_state self' = (self', Return new_state) /\
  (tree_structure (optax.init (BaseTDLearning._optimizer self)
                     (params (BaseTDLearning._f self)))
     <> tree_structure new_state ->
   exists msg,
     BaseTDLearning.optimizer_setter (BaseTDLearning._optimizer self) self' =
     (self', Raise (AttributeError msg))) /\
  (tree_structure (optax.init (BaseTDLearning._optimizer self)
                     (params (BaseTDLearning._f self)))
     = tree_structure new_state ->
   BaseTDLearning.optimizer_setter (BaseTDLearning._optimizer self) self' =
   (self', Return tt)).
Proof.
  intros self'; subst self'.
  split; [reflexivity|]. split; [reflexivity|].
  unfold BaseTDLearning.optimizer_setter, BaseTDLearning.bind,
    BaseTDLearning.get, BaseTDLearning.raise, BaseTDLearning.modify.
  simpl. split; intros Hs.
  - eexists. rewrite bool_decide_eq_true_2 by exact Hs. reflexivity.
  - rewrite bool_decide_eq_false_2 by (intros Hne; exact (Hne Hs)).
    reflexivity.
Qed.

End UpdateFacts.

(** ** The shared target, construction and the closures of the V learner *)

Section VFurther.
Context `{B : Backend}.
Variable class_name : string.
Variable target_func :
  BaseTDLearningV.TargetParams -> BaseTDLearningV.TargetState -> key -> batch ->
  ndarray.
Variable adam_1e_3 : optax.GradientTransformation.

(** X6.  After [update_from_grads], the online entries of [target_params]
    and [target_function_state] are the online parameters and the function
    state handed in.  With no separate target network the target entries
    are these same values, the target being the online network itself; a
    separate target network is not touched, so its entries are what they
    were.  The online parameters are the new ones if the
    gradient-application closure returned, and the old ones if it raised,
    in which case [update_from_grads] raises its exception. *)
Theorem target_follows_update_only_when_shared
    (self : BaseTDLearning.engine obs) (grads new_state : pytree ndarray) :
  let run := BaseTDLearningV.update_from_grads grads new_state self in
  let self' := fst run in
  let entries tp := (BaseTDLearningV.tp_v tp, BaseTDLearningV.tp_v_targ tp) in
  let states ts := (BaseTDLearningV.ts_v ts, BaseTDLearningV.ts_v_targ ts) in
  let targets online_params :=
    match BaseTDLearning._f_targ self with
    | BaseTDLearning.SameObject =>
        rmap entries (BaseTDLearningV.target_params self')
          = Return (online_params, online_params) /\
        rmap states (BaseTDLearningV.target_function_state self')
          = Return (new_state, new_state)
    | BaseTDLearning.Other a =>
        rmap entries (BaseTDLearningV.target_params self')
          = Return (online_params, params a) /\
        rmap states (BaseTDLearningV.target_function_state self')
          = Return (new_state, function_state a) /\
        rmap BaseTDLearningV.tp_v_targ (BaseTDLearningV.target_params self')
          = rmap BaseTDLearningV.tp_v_targ (BaseTDLearningV.target_params self)
    | BaseTDLearning.Sequence _ =>
        raised (BaseTDLearningV.target_params self') = true
    end in
  match BaseTDLearning.apply_grads_func (BaseTDLearning._optimizer self)
          (BaseTDLearning._optimizer_state self)
          (params (BaseTDLearning._f self)) grads with
  | Return (_, new_params) => snd run = Return tt /\ targets new_params
  | Raise x => snd run = Raise x /\ targets (params (BaseTDLearning._f self))
  end.
Proof.
  intros run self' entries states targets;
    subst run self' entries states targets.
  unfold BaseTDLearningV.update_from_grads.
  rewrite update_from_grads_unfold. cbv zeta.
  unfold BaseTDLearningV.target_params, BaseTDLearningV.target_function_state,
    BaseTDLearning.f_targ_attr.
  destruct (BaseTDLearning.apply_grads_func _ _ _ _) as [[s p]|x];
    cbn [fst snd BaseTDLearning._f_targ BaseTDLearning.set_f
         BaseTDLearning.set_optimizer_state];
    (split; [reflexivity|]);
    destruct (BaseTDLearning._f_targ self); simpl; repeat split.
Qed.

(** X7.  A [BaseTDLearningV.__init__] that returns leaves a complete
    learner: [v] is the online function; the target is [v_targ], or the
    online function itself when [v_targ] is [None]; loss function and
    optimizer are the arguments or, for [None], the Huber loss and
    [adam(1e-3)]; the optimizer state is the optimizer's [init] on the
    online parameters, so it fits the optimizer. *)
Theorem V_init_success (v v_targ : pyobj)
    (optimizer : option optax.GradientTransformation)
    (loss_function : option (ndarray -> ndarray -> ndarray))
    (policy_regularizer : pyobj) (o : BaseTDLearning.object obs) :
  BaseTDLearningV.__init__ adam_1e_3 BaseTDLearning.blank v v_targ optimizer
    loss_function policy_regularizer = (o, Return tt) ->
  exists e,
    BaseTDLearning.constructed o = Some e /\
    v = PyV (BaseTDLearning._f e) /\
    match v_targ with
    | PyV a => BaseTDLearning._f_targ e = BaseTDLearning.Other a
    | _ => v_targ = PyNone /\
           BaseTDLearning._f_targ e = BaseTDLearning.SameObject
    end /\
    BaseTDLearning.loss_function e =
      match loss_function with None => huber | Some l => l end /\
    BaseTDLearning.as_regularizer_or_None policy_regularizer =
      Some (BaseTDLearning.policy_regularizer e) /\
    BaseTDLearning._optimizer e =
      match optimizer with None => adam_1e_3 | Some opt => opt end /\
    BaseTDLearning._optimizer_state e =
      optax.init (BaseTDLearning._optimizer e) (params (BaseTDLearning._f e)) /\
    optimizer_state_fits e.
Proof.
  unfold optimizer_state_fits.
  destruct v; simpl; try (intros H; discriminate H).
  destruct v_targ; simpl; try (intros H; discriminate H);
    unfold BaseTDLearning.__init__;
    destruct (BaseTDLearning.as_regularizer_or_None policy_regularizer);
    intros H; try discriminate H; injection H as <-;
    eexists; (split; [reflexivity|]); simpl; repeat split.
Qed.

(** X8.  The base class's [__init__] tests [policy_regularizer] after it has
    stored [f], the target and the loss function: with an argument that is
    neither a [PolicyRegularizer] nor [None] it raises [TypeError] and
    leaves an object on which these three attributes are set and
    [policy_regularizer], the optimizer and the optimizer state are as they
    were, unset on a new object. *)
Theorem init_bad_regularizer_leaves_partial_object {X : Type}
    (self : BaseTDLearning.object X) (f : approx X ndarray)
    (f_targ : option (approx X ndarray + list pyobj))
    (optimizer : option optax.GradientTransformation)
    (loss_function : option (ndarray -> ndarray -> ndarray))
    (policy_regularizer : pyobj) :
  BaseTDLearning.as_regularizer_or_None policy_regularizer = None ->
  let run := BaseTDLearning.__init__ adam_1e_3 self f f_targ optimizer
               loss_function policy_regularizer in
  (exists msg, snd run = Raise (TypeError msg)) /\
  BaseTDLearning.o_f (fst run) = Some f /\
  BaseTDLearning.o_f_targ (fst run) =
    Some match f_targ with
         | None => BaseTDLearning.SameObject
         | Some (inl a) => BaseTDLearning.Other a
         | Some (inr l) => BaseTDLearning.Sequence l
         end /\
  BaseTDLearning.o_loss_function (fst run) =
    Some match loss_function with None => huber | Some l => l end /\
  BaseTDLearning.o_policy_regularizer (fst run) =
    BaseTDLearning.o_policy_regularizer self /\
  BaseTDLearning.o_optimizer (fst run) = BaseTDLearning.o_optimizer self /\
  BaseTDLearning.o_optimizer_state (fst run) =
    BaseTDLearning.o_optimizer_state self /\
  (self = BaseTDLearning.blank -> BaseTDLearning.constructed (fst run) = None).
Proof.
  intros Hreg run; subst run.
  unfold BaseTDLearning.__init__. rewrite Hreg. simpl.
  repeat split; eauto.
  intros ->. reflexivity.
Qed.

(** X9.  If the forward pass of the online function returns the same
    prediction in training and in evaluation mode, [td_error_func] and
    [loss_func] agree: they raise the same exception, or [loss_func]
    reports the loss [loss_function(G, V)] with its [G] and [V] and
    [td_error_func] returns the negated derivative of the loss function in
    its second argument at that [G] and [V]. *)
Theorem td_error_func_is_gradient_of_reported_loss
    (self : BaseTDLearning.engine obs)
    (params : pytree ndarray) (tp : BaseTDLearningV.TargetParams)
    (state : pytree ndarray) (ts : BaseTDLearningV.TargetState)
    (rng : key) (transition_batch : batch) :
  (forall p s k x,
     fst (function (BaseTDLearningV.v self) p s k x false) =
     fst (function (BaseTDLearningV.v self) p s k x true)) ->
  match BaseTDLearningV.loss_func target_func self params tp state ts rng
          transition_batch,
        BaseTDLearningV.td_error_func target_func self params tp state ts rng
          transition_batch with
  | Return (loss, (loss', G, V, S', _)), Return td_error =>
      loss = BaseTDLearning.loss_function self G V /\ loss' = loss /\
      S' = batch_S transition_batch /\
      td_error =
        arr_neg (jax_grad_argnums1 (BaseTDLearning.loss_function self) G V)
  | Raise x, Raise y => x = y
  | _, _ => False
  end.
Proof.
  intros Hmode.
  unfold BaseTDLearningV.loss_func, BaseTDLearningV.td_error_func.
  destruct (next (PRNGSequence rng)) as [rng1 r1].
  destruct (next r1) as [rng2 r2].
  pose proof (Hmode params state rng2 (batch_S transition_batch)) as HV.
  destruct (function (BaseTDLearningV.v self) params state rng2
              (batch_S transition_batch) true) as [V st],
           (function (BaseTDLearningV.v self) params state rng2
              (batch_S transition_batch) false) as [V' st'].
  simpl in HV. subst V'.
  destruct (add_policy_regularization _ _ _ _ _ _ _) as [G|x]; simpl; auto.
Qed.

(** X10.  Outcome of [grads_and_metrics_func]: an exception of [loss_func]
    at the given parameters is its outcome; otherwise a target without a
    forward pass makes it raise; otherwise it returns the function state of
    the training-mode forward pass and a metrics dict whose keys are the
    five [name/...] keys and the keys of the gradient diagnostics.  The
    diagnostics take precedence; where they do not use one of the five
    keys, the entries are the loss, the mean and root mean square of
    [V - G], and the mean and root mean square of [V_targ - V]. *)
Theorem V_grads_and_metrics_func_outcome
    (self : BaseTDLearning.engine obs)
    (params : pytree ndarray) (tp : BaseTDLearningV.TargetParams)
    (state : pytree ndarray) (ts : BaseTDLearningV.TargetState)
    (rng : key) (transition_batch : batch) :
  let rng1 := fst (next (PRNGSequence rng)) in
  let rng2 := fst (next (snd (next (PRNGSequence rng)))) in
  let run := BaseTDLearningV.grads_and_metrics_func class_name target_func self
               params tp state ts rng transition_batch in
  match BaseTDLearningV.loss_func target_func self params tp state ts rng1
          transition_batch with
  | Raise x => run = Raise x
  | Return (_, (loss, G, V, S', state_new)) =>
      match BaseTDLearning.f_targ_attr function self with
      | Raise x => run = Raise x
      | Return v_targ_function =>
          exists grads metrics,
            run = Return (grads, state_new, metrics) /\
            let diag := get_grads_diagnostics grads (class_name +:+ "/grads_") in
            let err := arr_sub V G in
            let err_targ :=
              arr_sub (fst (v_targ_function (BaseTDLearningV.tp_v_targ tp) state
                              rng2 S' false)) V in
            dom metrics = dom diag ∪ list_to_set (metric_names class_name) /\
            (forall k x, diag !! k = Some x -> metrics !! k = Some x) /\
            ((forall k, k ∈ metric_names class_name -> diag !! k = None) ->
             metrics !! (class_name +:+ "/loss") = Some loss /\
             metrics !! (class_name +:+ "/bias") = Some (jnp_mean err) /\
             metrics !! (class_name +:+ "/rmse") =
               Some (jnp_sqrt (jnp_mean (jnp_square err))) /\
             metrics !! (class_name +:+ "/bias_targ") = Some (jnp_mean err_targ) /\
             metrics !! (class_name +:+ "/rmse_targ") =
               Some (jnp_sqrt (jnp_mean (jnp_square err_targ))))
      end
  end.
Proof.
  intros rng1 rng2 run; subst rng1 rng2 run.
  unfold BaseTDLearningV.grads_and_metrics_func, jax_grad_has_aux.
  destruct (next (PRNGSequence rng)) as [rng1 r1]; cbn [fst snd].
  destruct (BaseTDLearningV.loss_func target_func self params tp state ts rng1
              transition_batch) as [[loss0 [[[[loss G] V] S'] state_new]]|x];
    [|reflexivity].
  cbn [rbind].
  destruct (BaseTDLearning.f_targ_attr function self) as [vt|x]; [|reflexivity].
  cbn [rbind].
  destruct (next r1) as [rng2 r2]; cbn [fst snd].
  destruct (vt (BaseTDLearningV.tp_v_targ tp) state rng2 S' false) as [V_targ st].
  eexists _, _. split; [reflexivity|].
  cbn [fst]. apply metrics_dict_entries.
Qed.

End VFurther.

(** ** The Q learner *)

Section QFurther.
Context `{B : Backend}.
Variable class_name : string.
Variable target_func :
  BaseTDLearningQ.TargetParams -> BaseTDLearningQ.TargetState -> key -> batch ->
  ndarray.
Variable action_preprocessor : act -> act.

Local Abbreviation engine := (BaseTDLearning.engine (obs * act)).
Local Abbreviation loss_func :=
  (BaseTDLearningQ.loss_func target_func action_preprocessor).
Local Abbreviation grads_and_metrics_func :=
  (BaseTDLearningQ.grads_and_metrics_func class_name target_func
     action_preprocessor).
Local Abbreviation td_error_func :=
  (BaseTDLearningQ.td_error_func target_func action_preprocessor).
Local Abbreviation grads_and_metrics :=
  (BaseTDLearningQ.grads_and_metrics class_name target_func action_preprocessor).
Local Abbreviation td_error :=
  (BaseTDLearningQ.td_error target_func action_preprocessor).
Local Abbreviation update :=
  (BaseTDLearningQ.update class_name target_func action_preprocessor).

Lemma Q_regularization_same_code (e1 e2 : engine) :
  same_code e1 e2 ->
  add_policy_regularization (BaseTDLearning.policy_regularizer e1) =
  add_policy_regularization (BaseTDLearning.policy_regularizer e2).
Proof.
  intros (_ & _ & _ & Hr). unfold add_policy_regularization.
  destruct (BaseTDLearning.policy_regularizer e1) as [r1|],
           (BaseTDLearning.policy_regularizer e2) as [r2|];
    simpl in Hr; try discriminate Hr; [|reflexivity].
  injection Hr as Hpi Hreg. rewrite Hpi, Hreg. reflexivity.
Qed.

Lemma Q_loss_func_same_code (e1 e2 : engine) :
  same_code e1 e2 -> loss_func e1 = loss_func e2.
Proof.
  intros Hsame. pose proof (Q_regularization_same_code e1 e2 Hsame) as Hreg.
  destruct Hsame as (Hf & _ & Hl & _).
  unfold BaseTDLearningQ.loss_func, BaseTDLearningQ.function_type1,
    BaseTDLearningQ.q.
  rewrite Hf, Hl, Hreg. reflexivity.
Qed.

Lemma Q_td_error_func_same_code (e1 e2 : engine) :
  same_code e1 e2 -> td_error_func e1 = td_error_func e2.
Proof.
  intros Hsame. pose proof (Q_regularization_same_code e1 e2 Hsame) as Hreg.
  destruct Hsame as (Hf & _ & Hl & _).
  unfold BaseTDLearningQ.td_error_func, BaseTDLearningQ.function_type1,
    BaseTDLearningQ.q.
  rewrite Hf, Hl, Hreg. reflexivity.
Qed.

Lemma f_targ_function_type1 (e : engine) :
  BaseTDLearning.f_targ_attr BaseTDLearningQ.function_type1 e =
  rmap (fun f params state rng S A is_training =>
          f params state rng (S, A) is_training)
       (BaseTDLearning.f_targ_attr function e).
Proof.
  unfold BaseTDLearning.f_targ_attr.
  destruct (BaseTDLearning._f_targ e); reflexivity.
Qed.

Lemma Q_grads_and_metrics_func_same_code (e1 e2 : engine) :
  same_code e1 e2 -> grads_and_metrics_func e1 = grads_and_metrics_func e2.
Proof.
  intros Hsame.
  unfold BaseTDLearningQ.grads_and_metrics_func.
  rewrite (Q_loss_func_same_code e1 e2 Hsame), !f_targ_function_type1.
  destruct Hsame as (_ & Ht & _ & _). rewrite Ht. reflexivity.
Qed.

(** X11.  The Q learner's [grads_and_metrics] and [td_error] are functions
    of what they read: on two learners that run the same code and agree on
    online parameters, target parameters, function state, target function
    state and the key drawn, each returns the same result (or raises the
    same exception), whatever the optimizers and optimizer states; and each
    leaves parameters, function state, optimizer state and optimizer as
    they were. *)
Theorem Q_grads_and_metrics_pure (transition_batch : batch) (e1 e2 : engine) :
  same_code e1 e2 ->
  params (BaseTDLearning._f e1) = params (BaseTDLearning._f e2) ->
  BaseTDLearningQ.target_params e1 = BaseTDLearningQ.target_params e2 ->
  function_state (BaseTDLearning._f e1) = function_state (BaseTDLearning._f e2) ->
  BaseTDLearningQ.target_function_state e1 =
    BaseTDLearningQ.target_function_state e2 ->
  rng_of e1 = rng_of e2 ->
  snd (grads_and_metrics transition_batch e1)
    = snd (grads_and_metrics transition_batch e2)
  /\ snd (td_error transition_batch e1) = snd (td_error transition_batch e2)
  /\ engine_state (fst (grads_and_metrics transition_batch e1)) = engine_state e1
  /\ BaseTDLearning._optimizer (fst (grads_and_metrics transition_batch e1))
     = BaseTDLearning._optimizer e1
  /\ engine_state (fst (td_error transition_batch e1)) = engine_state e1.
Proof.
  intros Hsame Hp Htp Hs Hts Hrng.
  pose proof (same_code_after_rng _ _ Hsame) as Hsame'.
  split; [|split; [|split; [|split]]].
  - unfold BaseTDLearningQ.grads_and_metrics.
    rewrite !grads_and_metrics_unfold, Hp, Htp, Hs, Hts, Hrng.
    destruct (BaseTDLearningQ.target_params e2); [|reflexivity].
    destruct (BaseTDLearningQ.target_function_state e2); [|reflexivity].
    simpl. rewrite (Q_grads_and_metrics_func_same_code _ _ Hsame').
    reflexivity.
  - unfold BaseTDLearningQ.td_error.
    rewrite !td_error_unfold, Hp, Htp, Hs, Hts, Hrng.
    destruct (BaseTDLearningQ.target_params e2); [|reflexivity].
    destruct (BaseTDLearningQ.target_function_state e2); [|reflexivity].
    simpl. rewrite (Q_td_error_func_same_code _ _ Hsame').
    reflexivity.
  - apply grads_and_metrics_keeps_state.
  - apply grads_and_metrics_keeps_state.
  - apply td_error_keeps_state.
Qed.

(** X12.  [update_from_grads] of the Q learner stores the function state
    and then asks the optimizer for its updates without passing the
    parameters.  If the optimizer raises (as one that needs the parameters
    does), [update_from_grads] raises that exception and leaves the learner
    with the new function state and the old parameters and optimizer
    state, whatever the base class's closure, which passes the parameters,
    would have done.  If the optimizer and [apply_updates] return, their
    results are the new optimizer state and parameters.  For an optimizer
    whose [update] does not look at the parameters the outcome is that of
    the base class's closure. *)
Theorem Q_update_from_grads_omits_params (self : engine)
    (grads new_state : pytree ndarray) :
  let run := BaseTDLearningQ.update_from_grads grads new_state self in
  let unchanged :=
    (params (BaseTDLearning._f self), new_state,
     BaseTDLearning._optimizer_state self) in
  match optax.update (BaseTDLearning._optimizer self) grads
          (BaseTDLearning._optimizer_state self) None with
  | Raise x => snd run = Raise x /\ engine_state (fst run) = unchanged
  | Return (updates, new_opt_state) =>
      match apply_updates (params (BaseTDLearning._f self)) updates with
      | Raise x => snd run = Raise x /\ engine_state (fst run) = unchanged
      | Return new_params =>
          snd run = Return tt /\
          engine_state (fst run) = (new_params, new_state, new_opt_state)
      end
  end /\
  (ignores_params (BaseTDLearning._optimizer self) ->
   run = BaseTDLearning.update_from_grads BaseTDLearning.apply_grads_func
           grads new_state self).
Proof.
  intros run unchanged; subst run unchanged.
  unfold BaseTDLearningQ.update_from_grads.
  rewrite !update_from_grads_unfold. cbv zeta.
  split.
  - unfold BaseTDLearningQ.apply_grads_func, engine_state.
    destruct (optax.update _ _ _ None) as [[u s]|x]; cbn [rbind];
      [|split; reflexivity].
    destruct (apply_updates _ u) as [p|x]; cbn [rbind]; split; reflexivity.
  - intros Hopt.
    rewrite (apply_grads_func_agree _ _ _ _ Hopt). reflexivity.
Qed.

(** X13.  A Q learner whose target is a list or tuple (which [__init__]
    lets through) cannot compute anything: reading [target_params] or
    [target_function_state] raises [AttributeError], and so do
    [grads_and_metrics], [td_error] and [update], before the random key is
    drawn and with [self] untouched.  The target properties of the learner
    with a target policy raise in the same way. *)
Theorem Q_sequence_target_is_unusable (self : engine) (l : list pyobj)
    (transition_batch : batch) :
  BaseTDLearning._f_targ self = BaseTDLearning.Sequence l ->
  (exists msg, BaseTDLearningQ.target_params self = Raise (AttributeError msg)) /\
  (exists msg,
     BaseTDLearningQ.target_function_state self = Raise (AttributeError msg)) /\
  (exists msg,
     grads_and_metrics transition_batch self = (self, Raise (AttributeError msg))) /\
  (exists msg, td_error transition_batch self = (self, Raise (AttributeError msg))) /\
  (exists msg, update transition_batch self = (self, Raise (AttributeError msg))) /\
  (forall pi_targ, exists msg,
     BaseTDLearningQWithTargetPolicy.target_params
       (BaseTDLearningQWithTargetPolicy.Build_engine pi_targ self)
     = Raise (AttributeError msg)) /\
  (forall pi_targ, exists msg,
     BaseTDLearningQWithTargetPolicy.target_function_state
       (BaseTDLearningQWithTargetPolicy.Build_engine pi_targ self)
     = Raise (AttributeError msg)).
Proof.
  intros Hseq.
  assert (Htp : BaseTDLearningQ.target_params self =
                Raise (AttributeError "object has no such attribute")).
  { unfold BaseTDLearningQ.target_params, BaseTDLearning.f_targ_attr.
    rewrite Hseq. reflexivity. }
  assert (Hts : BaseTDLearningQ.target_function_state self =
                Raise (AttributeError "object has no such attribute")).
  { unfold BaseTDLearningQ.target_function_state, BaseTDLearning.f_targ_attr.
    rewrite Hseq. reflexivity. }
  assert (Hgm : grads_and_metrics transition_batch self =
                (self, Raise (AttributeError "object has no such attribute"))).
  { unfold BaseTDLearningQ.grads_and_metrics.
    rewrite grads_and_metrics_unfold, Htp. reflexivity. }
  split; [eauto|]. split; [eauto|]. split; [eauto|].
  split; [|split; [|split]].
  - eexists. unfold BaseTDLearningQ.td_error.
    rewrite td_error_unfold, Htp. reflexivity.
  - eexists. unfold BaseTDLearningQ.update. rewrite update_unfold.
    unfold BaseTDLearningQ.grads_and_metrics in Hgm. rewrite Hgm. reflexivity.
  - intros pi_targ. eexists.
    unfold BaseTDLearningQWithTargetPolicy.target_params,
      BaseTDLearning.f_targ_attr. simpl. rewrite Hseq. reflexivity.
  - intros pi_targ. eexists.
    unfold BaseTDLearningQWithTargetPolicy.target_function_state,
      BaseTDLearning.f_targ_attr. simpl. rewrite Hseq. reflexivity.
Qed.

(** X14.  [td_error] of a Q learner with a policy regularizer: the target
    properties supply the regularizer's own parameters, state and
    hyperparameters, the action goes through the action preprocessor, the
    prediction is made in evaluation mode, and the regularizer sees the
    third key of the sequence.  The result is the negated derivative of the
    loss function at [G + -reg] if [reg] has the shape of [G], and
    [AssertionError] with the two shapes if not. *)
Theorem Q_td_error_regularized (self : engine) (transition_batch : batch)
    (regularizer : PolicyRegularizer)
    (tp : BaseTDLearningQ.TargetParams) (ts : BaseTDLearningQ.TargetState) :
  BaseTDLearning.policy_regularizer self = Some regularizer ->
  BaseTDLearningQ.target_params self = Return tp ->
  BaseTDLearningQ.target_function_state self = Return ts ->
  let rngs0 := PRNGSequence (rng_of self) in
  let rngs1 := snd (next rngs0) in
  let rngs2 := snd (next rngs1) in
  let S := batch_S transition_batch in
  let A := action_preprocessor (batch_A transition_batch) in
  let G := target_func tp ts (fst (next rngs0)) transition_batch in
  let Q := fst (function (BaseTDLearningQ.q self)
                  (params (BaseTDLearningQ.q self))
                  (function_state (BaseTDLearningQ.q self))
                  (fst (next rngs1)) (S, A) false) in
  let reg :=
    reg_function regularizer
      (fst (function (pi regularizer) (params (pi regularizer))
              (function_state (pi regularizer)) (fst (next rngs2)) S false))
      (hyperparams regularizer) in
  snd (td_error transition_batch self) =
  if bool_decide (arr_shape reg = arr_shape G)
  then Return (arr_neg (jax_grad_argnums1 (BaseTDLearning.loss_function self)
                          (arr_add G (arr_neg reg)) Q))
  else Raise (AssertionError (arr_shape G) (arr_shape reg)).
Proof.
  intros Hreg Htp Hts rngs0 rngs1 rngs2 S A G Q reg.
  subst rngs0 rngs1 rngs2 S A G Q reg.
  unfold BaseTDLearningQ.td_error.
  rewrite td_error_unfold, Htp, Hts. cbn [snd].
  assert (Hp : BaseTDLearningQ.tp_reg_pi tp = params (pi regularizer) /\
               BaseTDLearningQ.tp_reg_hparams tp = Some (hyperparams regularizer)).
  { unfold BaseTDLearningQ.target_params in Htp.
    destruct (BaseTDLearning.f_targ_attr params self); [|discriminate Htp].
    simpl in Htp. injection Htp as <-. rewrite Hreg. split; reflexivity. }
  assert (Hs : BaseTDLearningQ.ts_reg_pi ts = function_state (pi regularizer)).
  { unfold BaseTDLearningQ.target_function_state in Hts.
    destruct (BaseTDLearning.f_targ_attr function_state self); [|discriminate Hts].
    simpl in Hts. injection Hts as <-. rewrite Hreg. reflexivity. }
  destruct Hp as [Hp Hh].
  unfold BaseTDLearningQ.td_error_func, BaseTDLearningQ.function_type1,
    BaseTDLearningQ.q, add_policy_regularization.
  assert (Hpr : BaseTDLearning.policy_regularizer (after_rng self) = Some regularizer)
    by exact Hreg.
  rewrite Hpr, Hp, Hh, Hs.
  change (function (BaseTDLearning._f (after_rng self)))
    with (function (BaseTDLearning._f self)).
  change (BaseTDLearning.loss_function (after_rng self))
    with (BaseTDLearning.loss_function self).
  destruct (next (PRNGSequence (rng_of self))) as [rng1 r1]; cbn [fst snd].
  destruct (next r1) as [rng2 r2]; cbn [fst snd].
  destruct (function (BaseTDLearning._f self) _ _ rng2 _ false) as [Q0 st0];
    cbn [fst snd].
  destruct (next r2) as [rng3 r3]; cbn [fst snd].
  destruct (function (pi regularizer) _ _ rng3 _ false) as [dp st1]; cbn [fst snd].
  destruct (bool_decide _); reflexivity.
Qed.

End QFurther.

(** ** The learner with a target policy *)

Section TargetPolicy.
Context `{B : Backend}.
Variable adam_1e_3 : optax.GradientTransformation.

(** X15.  [BaseTDLearningQWithTargetPolicy.__init__] tests [pi_targ] before
    anything else: a [pi_targ] that is neither a policy nor [None] raises
    [TypeError] and leaves the object as it was.  Otherwise [pi_targ] is
    stored before the constructor of the Q learner runs, whose outcome is
    the outcome of the call; so when that constructor rejects [q], a new
    object is left with [pi_targ] set and nothing else. *)
Theorem target_policy_init_checks_pi_targ_first
    (self : BaseTDLearningQWithTargetPolicy.object) (q pi_targ q_targ : pyobj)
    (optimizer : option optax.GradientTransformation)
    (loss_function : option (ndarray -> ndarray -> ndarray))
    (policy_regularizer : pyobj) :
  let run := BaseTDLearningQWithTargetPolicy.__init__ adam_1e_3 self q pi_targ
               q_targ optimizer loss_function policy_regularizer in
  let run_Q := BaseTDLearningQ.__init__ adam_1e_3
                 (BaseTDLearningQWithTargetPolicy.o_base self) q q_targ
                 optimizer loss_function policy_regularizer in
  match BaseTDLearningQWithTargetPolicy.as_policy_or_None pi_targ with
  | None => exists msg, run = (self, Raise (TypeError msg))
  | Some p =>
      BaseTDLearningQWithTargetPolicy.o_pi_targ (fst run) = Some p /\
      BaseTDLearningQWithTargetPolicy.o_base (fst run) = fst run_Q /\
      snd run = snd run_Q /\
      (isinstance_Q q = false ->
       self = BaseTDLearningQWithTargetPolicy.blank ->
       (exists msg, snd run = Raise (TypeError msg)) /\
       BaseTDLearningQWithTargetPolicy.o_base (fst run) = BaseTDLearning.blank /\
       BaseTDLearningQWithTargetPolicy.constructed (fst run) = None)
  end.
Proof.
  intros run run_Q; subst run run_Q.
  unfold BaseTDLearningQWithTargetPolicy.__init__.
  destruct (BaseTDLearningQWithTargetPolicy.as_policy_or_None pi_targ) as [p|];
    [|eauto].
  cbn [BaseTDLearningQWithTargetPolicy.o_base
       BaseTDLearningQWithTargetPolicy.o_pi_targ].
  destruct (BaseTDLearningQ.__init__ _ _ _ _ _ _ _) as [base' r] eqn:Hrun.
  cbn [fst snd BaseTDLearningQWithTargetPolicy.o_base
       BaseTDLearningQWithTargetPolicy.o_pi_targ].
  repeat split.
  - destruct q; simpl in *; try discriminate;
      injection Hrun as _ <-; eauto.
  - subst self. destruct q; simpl in *; try discriminate;
      injection Hrun as <- _; reflexivity.
  - subst self. unfold BaseTDLearningQWithTargetPolicy.constructed.
    destruct q; simpl in *; try discriminate;
      injection Hrun as <- _; reflexivity.
Qed.

(** X16.  The target properties of the learner with a target policy extend
    those of the Q learner: under the keys [q], [q_targ], [reg_pi] and
    [reg_hparams] they hold what [BaseTDLearningQ]'s properties hold, and
    they raise when those raise; the additional key [pi_targ] holds the
    parameters (the function state) of the target policy, or [None] when
    there is no target policy. *)
Theorem target_policy_properties_extend_Q
    (self : BaseTDLearningQWithTargetPolicy.engine) :
  let base := BaseTDLearningQWithTargetPolicy.base self in
  let of_pi_targ {A} (attr : approx obs dist_params -> pytree A) : pytree A :=
    match BaseTDLearningQWithTargetPolicy.pi_targ self with
    | Some p => attr p
    | None => PNone
    end in
  rmap shared_entries (BaseTDLearningQWithTargetPolicy.target_params self)
    = BaseTDLearningQ.target_params base /\
  rmap shared_states (BaseTDLearningQWithTargetPolicy.target_function_state self)
    = BaseTDLearningQ.target_function_state base /\
  rmap BaseTDLearningQWithTargetPolicy.tp_pi_targ
       (BaseTDLearningQWithTargetPolicy.target_params self)
    = rmap (fun _ => of_pi_targ params) (BaseTDLearningQ.target_params base) /\
  rmap BaseTDLearningQWithTargetPolicy.ts_pi_targ
       (BaseTDLearningQWithTargetPolicy.target_function_state self)
    = rmap (fun _ => of_pi_targ function_state)
           (BaseTDLearningQ.target_function_state base).
Proof.
  intros base of_pi_targ; subst base of_pi_targ.
  unfold BaseTDLearningQWithTargetPolicy.target_params,
    BaseTDLearningQWithTargetPolicy.target_function_state,
    BaseTDLearningQ.target_params, BaseTDLearningQ.target_function_state.
  destruct (BaseTDLearning.f_targ_attr params _),
           (BaseTDLearning.f_targ_attr function_state _); repeat split.
Qed.

End TargetPolicy.

(** ** A sequence as the target of a Q learner, from construction to use *)

Section QConstruction.
Context `{B : Backend}.
Variable adam_1e_3 : optax.GradientTransformation.
Variable class_name : string.
Variable target_func :
  BaseTDLearningQ.TargetParams -> BaseTDLearningQ.TargetState -> key -> batch ->
  ndarray.
Variable action_preprocessor : act -> act.

(** X17.  Constructing a Q learner with a list or tuple for [q_targ]
    succeeds and leaves a complete learner, with the sequence as its target
    and an optimizer state that fits; the first [update] of that learner
    raises [AttributeError] and changes nothing. *)
Theorem Q_init_with_sequence_then_update_fails
    (q : approx (obs * act) ndarray) (q_targ : pyobj) (l : list pyobj)
    (optimizer : option optax.GradientTransformation)
    (loss_function : option (ndarray -> ndarray -> ndarray))
    (policy_regularizer : pyobj) (o : BaseTDLearning.object (obs * act))
    (transition_batch : batch) :
  q_targ = PyList l \/ q_targ = PyTuple l ->
  BaseTDLearningQ.__init__ adam_1e_3 BaseTDLearning.blank (PyQ q) q_targ
    optimizer loss_function policy_regularizer = (o, Return tt) ->
  exists e,
    BaseTDLearning.constructed o = Some e /\
    BaseTDLearning._f e = q /\
    BaseTDLearning._f_targ e = BaseTDLearning.Sequence l /\
    optimizer_state_fits e /\
    exists msg,
      BaseTDLearningQ.update class_name target_func action_preprocessor
        transition_batch e = (e, Raise (AttributeError msg)).
Proof.
  intros Hl Hrun.
  assert (Hbase :
    BaseTDLearning.__init__ adam_1e_3 BaseTDLearning.blank q (Some (inr l))
      optimizer loss_function policy_regularizer = (o, Return tt)).
  { destruct Hl as [-> | ->]; exact Hrun. }
  clear Hrun Hl. unfold BaseTDLearning.__init__ in Hbase.
  destruct (BaseTDLearning.as_regularizer_or_None policy_regularizer);
    [|discriminate Hbase].
  injection Hbase as <-.
  eexists. split; [reflexivity|].
  repeat split. eexists. reflexivity.
Qed.

End QConstruction.

(** ** The TD error of the Q learner under the squared-error loss *)

Lemma Q_td_error_func_no_regularizer `{B : Backend}
    (target_func : BaseTDLearningQ.TargetParams -> BaseTDLearningQ.TargetState ->
                   key -> batch -> ndarray)
    (action_preprocessor : act -> act)
    (self : BaseTDLearning.engine (obs * act)) params tp state ts rng b :
  BaseTDLearning.policy_regularizer self = None ->
  BaseTDLearningQ.td_error_func target_func action_preprocessor self params tp
    state ts rng b =
  Return
    (arr_neg
       (jax_grad_argnums1 (BaseTDLearning.loss_function self)
          (target_func tp ts (fst (next (PRNGSequence rng))) b)
          (fst (function (BaseTDLearningQ.q self) params state
                  (fst (next (snd (next (PRNGSequence rng)))))
                  (batch_S b, action_preprocessor (batch_A b)) false)))).
Proof.
  intros Hreg.
  unfold BaseTDLearningQ.td_error_func, BaseTDLearningQ.function_type1,
    add_policy_regularization.
  rewrite Hreg.
  destruct (next (PRNGSequence rng)) as [rng1 r1]; simpl.
  destruct (next r1) as [rng2 r2]; simpl.
  destruct (function _ _ _ _ _ _); reflexivity.
Qed.

Lemma neg_mse_grad (G V : list R) :
  length G = length V ->
  map Ropp (RealModel.mse_grad G V) =
  zip_with (fun g v => (2 * (g - v) / INR (length V))%R) G V.
Proof.
  unfold RealModel.mse_grad. generalize (INR (length V)). intros n.
  revert V. induction G as [|g G IH]; intros [|v V] Hlen; simpl in *;
    try discriminate; [reflexivity|].
  f_equal; [|apply IH; congruence].
  unfold Rdiv. ring.
Qed.

Section RealFactsQ.
Variable grad : (pytree RealModel.vec -> RealModel.vec) -> pytree RealModel.vec -> pytree RealModel.vec.
Variable grad1 : (RealModel.vec -> RealModel.vec -> RealModel.vec) -> RealModel.vec -> RealModel.vec -> RealModel.vec.
Local Abbreviation RB := (RealModel.backend grad grad1).

(** X18.  Over the real numbers, for a Q learner with the squared-error
    loss and no regularizer, and every [jax.grad] that returns the
    derivative: [td_error_func] returns, entry by entry, the residual
    [G - Q] times [2 / batch_size], where [Q] is the evaluation-mode
    prediction at the preprocessed actions. *)
Theorem Q_td_error_func_mse
    (target_func : @BaseTDLearningQ.TargetParams RB ->
                   @BaseTDLearningQ.TargetState RB -> @key RB -> @batch RB ->
                   @ndarray RB)
    (action_preprocessor : @act RB -> @act RB)
    (self : @BaseTDLearning.engine RB (@obs RB * @act RB))
    params tp state ts rng (b : @batch RB) :
  RealModel.is_grad_argnums1 (mse (H := RB)) (grad1 (mse (H := RB))) ->
  BaseTDLearning.policy_regularizer self = None ->
  BaseTDLearning.loss_function self = mse (H := RB) ->
  let G := target_func tp ts (fst (next (H := RB) (PRNGSequence rng))) b in
  let Q := fst (function (BaseTDLearningQ.q self) params state
                  (fst (next (H := RB) (snd (next (H := RB) (PRNGSequence rng)))))
                  (batch_S b, action_preprocessor (batch_A b)) false) in
  length G = length Q ->
  BaseTDLearningQ.td_error_func (B := RB) target_func action_preprocessor self
    params tp state ts rng b =
  Return (zip_with (fun g q => (2 * (g - q) / INR (length Q))%R) G Q).
Proof.
  intros Hgrad Hreg Hloss G Q Hlen.
  rewrite (Q_td_error_func_no_regularizer target_func action_preprocessor self)
    by exact Hreg.
  fold G Q. rewrite Hloss.
  change (@jax_grad_argnums1 RB) with grad1.
  rewrite (grad_of_mse grad grad1 _ _ _ Hgrad Hlen).
  change (@arr_neg RB) with (map Ropp).
  rewrite neg_mse_grad by exact Hlen. reflexivity.
Qed.

End RealFactsQ.

Local Abbreviation RB0 :=
  (RealModel.backend (fun _ p => p) (fun _ => RealModel.mse_grad)).

(** On the batch of four with actions [0,0,0,0] and [w = 0]: the TD errors
    are [0.5, 1, 1.5, 2]. *)
Lemma Q_td_error_func_mse_witness :
  BaseTDLearningQ.td_error_func (B := RB0) RealModel.batch_target (fun a => a)
    (real_q_learner (fun _ p => p) (fun _ => RealModel.mse_grad) 0)
    (PLeaf [0%R])
    (@BaseTDLearningQ.Build_TargetParams RB0 (PLeaf [0%R]) (PLeaf [0%R]) PNone None)
    PNone
    (@BaseTDLearningQ.Build_TargetState RB0 PNone PNone PNone)
    7 RealModel.batch4 =
  Return (zip_with (fun g q => (2 * (g - q) / INR 4)%R)
            [1; 2; 3; 4]%R
            (zip_with Rplus (map (Rmult 0) [1; 1; 1; 1]%R) [0; 0; 0; 0]%R)).
Proof.
  apply (Q_td_error_func_mse (fun _ p => p) (fun _ => RealModel.mse_grad)
           RealModel.batch_target (fun a => a)
           (real_q_learner (fun _ p => p) (fun _ => RealModel.mse_grad) 0)
           (PLeaf [0%R]) _ PNone _ 7 RealModel.batch4).
  - apply mse_grad_is_grad.
  - reflexivity.
  - reflexivity.
  - reflexivity.
Defined.

(** ** Runs of the further properties on the binary32 backend *)

Section Binary32MoreWitnesses.
#[local] Existing Instance F32.backend.

Local Abbreviation e0 := (F32.learner 0 (mse (H := F32.backend)) None).
Local Abbreviation eighth := (F32.div (F32.ofZ 1) (F32.ofZ 8)).
Local Abbreviation half := (F32.div (F32.ofZ 1) (F32.ofZ 2)).
Local Abbreviation V_grads_and_metrics :=
  (BaseTDLearningV.grads_and_metrics (B := F32.backend) "TD" F32.batch_target).
Local Abbreviation V_update :=
  (BaseTDLearningV.update (B := F32.backend) "TD" F32.batch_target).
Local Abbreviation V_update_from_grads :=
  (BaseTDLearningV.update_from_grads (B := F32.backend)).
Local Abbreviation Q_target :=
  (F32.batch_target (TP := BaseTDLearningQ.TargetParams)
     (TS := BaseTDLearningQ.TargetState)).
Local Abbreviation tp0 :=
  (@BaseTDLearningV.Build_TargetParams F32.backend
     (PLeaf [F32.ofZ 0]) (PLeaf [F32.ofZ 0]) PNone None).
Local Abbreviation ts0 :=
  (@BaseTDLearningV.Build_TargetState F32.backend PNone PNone PNone).

(** The Q learner with weight decay as optax has it: the exception of
    [update] is the optimizer's [ValueError]; the parameters are the old
    ones and the function state is the returned one. *)
Lemma update_exceptions_classified_witness :
  let e := offset_q_learner strict_optimizer in
  let run := BaseTDLearningQ.update "TD" Q_target (fun a => a) F32.batch4 e in
  params (BaseTDLearning._f (fst run)) = PLeaf [F32.ofZ 0] /\
  BaseTDLearning._optimizer_state (fst run) = PTuple [] /\
  function_state (BaseTDLearning._f (fst run)) = PLeaf [F32.ofZ 2].
Proof.
  cbv zeta.
  destruct (update_exceptions_classified (B := F32.backend)
              (BaseTDLearningQ.target_params (B := F32.backend))
              (BaseTDLearningQ.target_function_state (B := F32.backend))
              (BaseTDLearningQ.grads_and_metrics_func (B := F32.backend)
                 "TD" Q_target (fun a => a))
              (BaseTDLearningQ.apply_grads_func (B := F32.backend))
              F32.batch4 (offset_q_learner strict_optimizer)
              (ValueError F32.NO_PARAMS_MSG))
    as (Hp & Ho & _ & _); [vm_compute; reflexivity|].
  split; [exact Hp|]. split; [exact Ho|]. vm_compute. reflexivity.
Defined.

(** The scenario's batch: [update] moves [w] to 0.625, as does
    [update_from_grads] with the gradient [-5] on the learner of before. *)
Lemma update_is_grads_then_update_from_grads_witness :
  snd (V_update F32.batch4 e0) =
    rmap (fun _ => snd (grads_and_metrics_on F32.batch4))
      (snd (V_update_from_grads (fst (fst (grads_and_metrics_on F32.batch4)))
              (snd (fst (grads_and_metrics_on F32.batch4))) e0)) /\
  engine_state (fst (V_update F32.batch4 e0)) =
  engine_state (fst (V_update_from_grads (fst (fst (grads_and_metrics_on F32.batch4)))
                       (snd (fst (grads_and_metrics_on F32.batch4))) e0)).
Proof.
  apply (update_is_grads_then_update_from_grads (B := F32.backend)
           (BaseTDLearningV.target_params (B := F32.backend))
           (BaseTDLearningV.target_function_state (B := F32.backend))
           (BaseTDLearningV.grads_and_metrics_func (B := F32.backend)
              "TD" F32.batch_target)
           (BaseTDLearning.apply_grads_func (B := F32.backend))
           F32.batch4 e0 (fst (V_grads_and_metrics F32.batch4 e0))
           (fst (fst (grads_and_metrics_on F32.batch4)))
           (snd (fst (grads_and_metrics_on F32.batch4)))
           (snd (grads_and_metrics_on F32.batch4))).
  - apply grads_and_metrics_on_eq. vm_compute. reflexivity.
  - apply batch4_grads_without_nan.
Defined.

Lemma weight_decay_accepted :
  BaseTDLearning.optimizer_setter (F32.sgd_weight_decay eighth half) e0 =
  (BaseTDLearning.set_optimizer e0 (F32.sgd_weight_decay eighth half), Return tt).
Proof.
  unfold BaseTDLearning.optimizer_setter, BaseTDLearning.bind,
    BaseTDLearning.get, BaseTDLearning.raise, BaseTDLearning.modify.
  rewrite bool_decide_eq_false_2; [reflexivity|].
  intros Hne. apply Hne. vm_compute. reflexivity.
Qed.

(** Weight decay, whose state is empty like that of plain gradient descent,
    is accepted and then fits. *)
Lemma optimizer_setter_establishes_fit_witness :
  optimizer_state_fits
    (BaseTDLearning.set_optimizer e0 (F32.sgd_weight_decay eighth half)) /\
  BaseTDLearning.optimizer
    (BaseTDLearning.set_optimizer e0 (F32.sgd_weight_decay eighth half)) =
    (BaseTDLearning.set_optimizer e0 (F32.sgd_weight_decay eighth half),
     Return (F32.sgd_weight_decay eighth half)) /\
  engine_state (BaseTDLearning.set_optimizer e0 (F32.sgd_weight_decay eighth half))
    = engine_state e0 /\
  BaseTDLearning._f_targ
    (BaseTDLearning.set_optimizer e0 (F32.sgd_weight_decay eighth half))
    = BaseTDLearning._f_targ e0.
Proof.
  apply (optimizer_setter_establishes_fit (B := F32.backend)
           (F32.sgd_weight_decay eighth half) e0).
  exact weight_decay_accepted.
Defined.

(** A momentum state stored on the learner with plain gradient descent:
    the optimizer can then no longer be assigned to itself. *)
Lemma optimizer_state_setter_is_unchecked_witness :
  BaseTDLearning.optimizer_state_setter (PTuple [PLeaf [F32.ofZ 3]]) e0 =
    (BaseTDLearning.set_optimizer_state e0 (PTuple [PLeaf [F32.ofZ 3]]), Return tt) /\
  exists msg,
    BaseTDLearning.optimizer_setter (BaseTDLearning._optimizer e0)
      (BaseTDLearning.set_optimizer_state e0 (PTuple [PLeaf [F32.ofZ 3]])) =
    (BaseTDLearning.set_optimizer_state e0 (PTuple [PLeaf [F32.ofZ 3]]),
     Raise (AttributeError msg)).
Proof.
  destruct (optimizer_state_setter_is_unchecked (B := F32.backend)
              (PTuple [PLeaf [F32.ofZ 3]]) e0) as (Hset & _ & Hbad & _).
  split; [exact Hset|].
  apply Hbad. vm_compute. discriminate.
Defined.

(** The V learner built with defaults only. *)
Lemma V_init_success_witness :
  exists e,
    BaseTDLearning.constructed
      (fst (BaseTDLearningV.__init__ default_optimizer BaseTDLearning.blank
              (PyV (F32.linear_v 0)) PyNone None None PyNone)) = Some e /\
    PyV (F32.linear_v 0) = PyV (BaseTDLearning._f e) /\
    (PyNone = PyNone /\ BaseTDLearning._f_targ e = BaseTDLearning.SameObject) /\
    BaseTDLearning.loss_function e = huber /\
    BaseTDLearning.as_regularizer_or_None PyNone =
      Some (BaseTDLearning.policy_regularizer e) /\
    BaseTDLearning._optimizer e = default_optimizer /\
    BaseTDLearning._optimizer_state e =
      optax.init (BaseTDLearning._optimizer e) (params (BaseTDLearning._f e)) /\
    optimizer_state_fits e.
Proof.
  apply (V_init_success (B := F32.backend) default_optimizer
           (PyV (F32.linear_v 0)) PyNone None None PyNone).
  reflexivity.
Defined.

(** An integer for [policy_regularizer]: [TypeError], with the online
    function already stored and no optimizer yet. *)
Lemma init_bad_regularizer_leaves_partial_object_witness :
  let run := BaseTDLearning.__init__ default_optimizer BaseTDLearning.blank
               (F32.linear_v 0) None None None (PyInt 3) in
  (exists msg, snd run = Raise (TypeError msg)) /\
  BaseTDLearning.o_f (fst run) = Some (F32.linear_v 0) /\
  BaseTDLearning.o_optimizer (fst run) = None /\
  BaseTDLearning.constructed (fst run) = None.
Proof.
  destruct (init_bad_regularizer_leaves_partial_object (B := F32.backend)
              default_optimizer BaseTDLearning.blank (F32.linear_v 0)
              None None None (PyInt 3) eq_refl)
    as (Hraise & Hf & _ & _ & _ & Hopt & _ & Hnone).
  cbv zeta. split; [exact Hraise|]. split; [exact Hf|].
  split; [exact Hopt|]. apply Hnone. reflexivity.
Defined.

(** The linear value function predicts the same in both modes. *)
Lemma td_error_func_is_gradient_of_reported_loss_witness :
  match BaseTDLearningV.loss_func F32.batch_target e0 (PLeaf [F32.ofZ 0]) tp0
          PNone ts0 7 F32.batch4,
        BaseTDLearningV.td_error_func F32.batch_target e0 (PLeaf [F32.ofZ 0]) tp0
          PNone ts0 7 F32.batch4 with
  | Return (loss, (loss', G, V, S', _)), Return td_error =>
      loss = BaseTDLearning.loss_function e0 G V /\ loss' = loss /\
      S' = batch_S F32.batch4 /\
      td_error =
        arr_neg (jax_grad_argnums1 (BaseTDLearning.loss_function e0) G V)
  | Raise x, Raise y => x = y
  | _, _ => False
  end.
Proof.
  apply (td_error_func_is_gradient_of_reported_loss (B := F32.backend)
           F32.batch_target e0 (PLeaf [F32.ofZ 0]) tp0 PNone ts0 7 F32.batch4).
  intros p s k x. reflexivity.
Defined.

(** The diagnostics of the binary32 backend use the one key
    [TD/grads_max], so the five entries are the literal ones; the loss
    entry of the scenario is 7.5. *)
Lemma V_grads_and_metrics_func_outcome_witness :
  exists grads state_new metrics,
    BaseTDLearningV.grads_and_metrics_func "TD" F32.batch_target e0
      (PLeaf [F32.ofZ 0]) tp0 PNone ts0 7 F32.batch4
    = Return (grads, state_new, metrics) /\
    metrics !! "TD/loss" = Some [F32.div (F32.ofZ 15) (F32.ofZ 2)].
Proof.
  pose proof (V_grads_and_metrics_func_outcome (B := F32.backend) "TD"
                F32.batch_target e0 (PLeaf [F32.ofZ 0]) tp0 PNone ts0 7
                F32.batch4) as H.
  cbv zeta in H.
  destruct (BaseTDLearningV.loss_func (B := F32.backend) F32.batch_target e0
              (PLeaf [F32.ofZ 0]) tp0 PNone ts0
              (fst (next (H := F32.backend) (PRNGSequence (H := F32.backend) 7)))
              F32.batch4)
    as [[loss0 [[[[loss G] V] S'] state_new]]|x] eqn:Hloss;
    [|vm_compute in Hloss; discriminate Hloss].
  assert (Hl : loss = [F32.div (F32.ofZ 15) (F32.ofZ 2)]).
  { vm_compute in Hloss. injection Hloss as _ <- _ _ _ _. vm_compute. reflexivity. }
  change (BaseTDLearning.f_targ_attr function e0) with
    (Return (E := exn) (function (F32.linear_v 0))) in H.
  cbv beta iota in H.
  destruct H as (grads & metrics & Hrun & _ & _ & Hentries).
  exists grads, state_new, metrics. split; [exact Hrun|].
  rewrite <- Hl. apply Hentries.
  intros k Hk. apply lookup_singleton_ne.
  apply list_elem_of_In in Hk. unfold metric_names in Hk. simpl in Hk.
  intros <-.
  repeat (destruct Hk as [Hk|Hk]; [vm_compute in Hk; discriminate Hk|]).
  exact Hk.
Defined.

(** The Q learner with plain gradient descent and with momentum. *)
Lemma Q_grads_and_metrics_pure_witness :
  snd (BaseTDLearningQ.grads_and_metrics "TD" Q_target (fun a => a) F32.batch4
         (q_learner 0 None))
  = snd (BaseTDLearningQ.grads_and_metrics "TD" Q_target (fun a => a) F32.batch4
           (BaseTDLearning.set_optimizer (q_learner 0 None)
              (F32.momentum eighth half)))
  /\ snd (BaseTDLearningQ.td_error Q_target (fun a => a) F32.batch4
            (q_learner 0 None))
     = snd (BaseTDLearningQ.td_error Q_target (fun a => a) F32.batch4
              (BaseTDLearning.set_optimizer (q_learner 0 None)
                 (F32.momentum eighth half)))
  /\ engine_state (fst (BaseTDLearningQ.grads_and_metrics "TD" Q_target
                          (fun a => a) F32.batch4 (q_learner 0 None)))
     = engine_state (q_learner 0 None)
  /\ BaseTDLearning._optimizer
       (fst (BaseTDLearningQ.grads_and_metrics "TD" Q_target (fun a => a)
               F32.batch4 (q_learner 0 None)))
     = BaseTDLearning._optimizer (q_learner 0 None)
  /\ engine_state (fst (BaseTDLearningQ.td_error Q_target (fun a => a)
                          F32.batch4 (q_learner 0 None)))
     = engine_state (q_learner 0 None).
Proof.
  apply (Q_grads_and_metrics_pure (B := F32.backend) "TD" Q_target (fun a => a)
           F32.batch4 (q_learner 0 None)
           (BaseTDLearning.set_optimizer (q_learner 0 None)
              (F32.momentum eighth half))); try reflexivity.
  repeat split.
Defined.

(** Plain gradient descent does not look at the parameters: the Q learner
    does what the base class's closure does.  Weight decay as optax has it
    needs them: [update_from_grads] of the Q learner raises [ValueError]
    with the function state [9] stored and the parameters untouched. *)
Lemma Q_update_from_grads_omits_params_witness :
  BaseTDLearningQ.update_from_grads (PLeaf [F32.ofZ (-5)]) PNone (q_learner 0 None) =
  BaseTDLearning.update_from_grads BaseTDLearning.apply_grads_func
    (PLeaf [F32.ofZ (-5)]) PNone (q_learner 0 None) /\
  snd (BaseTDLearningQ.update_from_grads (PLeaf [F32.ofZ (-3)]) (PLeaf [F32.ofZ 9])
         (offset_q_learner strict_optimizer)) = Raise (ValueError F32.NO_PARAMS_MSG) /\
  engine_state
    (fst (BaseTDLearningQ.update_from_grads (PLeaf [F32.ofZ (-3)]) (PLeaf [F32.ofZ 9])
            (offset_q_learner strict_optimizer)))
  = (PLeaf [F32.ofZ 0], PLeaf [F32.ofZ 9], PTuple []).
Proof.
  split.
  - destruct (Q_update_from_grads_omits_params (B := F32.backend) (q_learner 0 None)
                (PLeaf [F32.ofZ (-5)]) PNone) as [_ Hsame].
    apply Hsame. intros grads state p. reflexivity.
  - destruct (Q_update_from_grads_omits_params (B := F32.backend)
                (offset_q_learner strict_optimizer)
                (PLeaf [F32.ofZ (-3)]) (PLeaf [F32.ofZ 9])) as [Hraise _].
    exact Hraise.
Defined.

(** The learner whose target is the list [[0]]. *)
Lemma Q_sequence_target_is_unusable_witness :
  (exists msg,
     BaseTDLearningQ.target_params q_learner_with_list = Raise (AttributeError msg)) /\
  (exists msg,
     BaseTDLearningQ.update "TD" Q_target (fun a => a) F32.batch4
       q_learner_with_list = (q_learner_with_list, Raise (AttributeError msg))).
Proof.
  destruct (Q_sequence_target_is_unusable (B := F32.backend) "TD" Q_target
              (fun a => a) q_learner_with_list [PyInt 0] F32.batch4 eq_refl)
    as (Htp & _ & _ & _ & Hupd & _).
  split; [exact Htp | exact Hupd].
Defined.

(** The Q learner with the regularizer [1 * dist_params = S]: targets
    [1,2,3,4] become [0,1,2,3], and the TD errors are half of them, the
    first a negative zero. *)
Lemma Q_td_error_regularized_witness :
  snd (BaseTDLearningQ.td_error Q_target (fun a => a) F32.batch4
         (q_learner 0 (Some (F32.scaling_regularizer 1))))
  = Return (F32.neg (F32.ofZ 0)
            :: map (fun z => F32.div (F32.ofZ z) (F32.ofZ 2)) [1; 2; 3]%Z).
Proof.
  rewrite (Q_td_error_regularized (B := F32.backend) Q_target (fun a => a)
             (q_learner 0 (Some (F32.scaling_regularizer 1))) F32.batch4
             (F32.scaling_regularizer 1)
             (@BaseTDLearningQ.Build_TargetParams F32.backend
                (PLeaf [F32.ofZ 0]) (PLeaf [F32.ofZ 0]) PNone (Some (F32.ofZ 1)))
             (@BaseTDLearningQ.Build_TargetState F32.backend PNone PNone PNone)
             eq_refl eq_refl eq_refl).
  vm_compute. reflexivity.
Defined.

(** An integer for [pi_targ] is refused; a policy is stored even though the
    integer handed in for [q] is then refused. *)
Lemma target_policy_init_checks_pi_targ_first_witness :
  (exists msg,
     BaseTDLearningQWithTargetPolicy.__init__ default_optimizer
       BaseTDLearningQWithTargetPolicy.blank (PyQ (F32.linear_q 0)) (PyInt 3)
       PyNone None None PyNone =
     (BaseTDLearningQWithTargetPolicy.blank, Raise (TypeError msg))) /\
  BaseTDLearningQWithTargetPolicy.o_pi_targ
    (fst (BaseTDLearningQWithTargetPolicy.__init__ default_optimizer
            BaseTDLearningQWithTargetPolicy.blank (PyInt 3)
            (PyPolicy F32.identity_pi) PyNone None None PyNone))
  = Some (Some F32.identity_pi) /\
  BaseTDLearningQWithTargetPolicy.constructed
    (fst (BaseTDLearningQWithTargetPolicy.__init__ default_optimizer
            BaseTDLearningQWithTargetPolicy.blank (PyInt 3)
            (PyPolicy F32.identity_pi) PyNone None None PyNone))
  = None.
Proof.
  pose proof (target_policy_init_checks_pi_targ_first (B := F32.backend)
                default_optimizer BaseTDLearningQWithTargetPolicy.blank
                (PyQ (F32.linear_q 0)) (PyInt 3) PyNone None None PyNone) as Hbad.
  pose proof (target_policy_init_checks_pi_targ_first (B := F32.backend)
                default_optimizer BaseTDLearningQWithTargetPolicy.blank
                (PyInt 3) (PyPolicy F32.identity_pi) PyNone None None PyNone)
    as Hset.
  cbv zeta in Hbad, Hset. simpl in Hbad.
  change (BaseTDLearningQWithTargetPolicy.as_policy_or_None
            (PyPolicy F32.identity_pi)) with (Some (Some F32.identity_pi)) in Hset.
  cbv beta iota in Hset.
  destruct Hset as (Hpi & _ & _ & Hq).
  destruct (Hq eq_refl eq_refl) as (_ & _ & Hnone).
  split; [exact Hbad|]. split; [exact Hpi | exact Hnone].
Defined.

(** The tuple [(0, None)] as [q_targ]. *)
Lemma Q_init_with_sequence_then_update_fails_witness :
  exists e,
    BaseTDLearning.constructed
      (fst (BaseTDLearningQ.__init__ default_optimizer BaseTDLearning.blank
              (PyQ (F32.linear_q 0)) (PyTuple [PyInt 0; PyNone]) None None PyNone))
    = Some e /\
    BaseTDLearning._f e = F32.linear_q 0 /\
    BaseTDLearning._f_targ e = BaseTDLearning.Sequence [PyInt 0; PyNone] /\
    optimizer_state_fits e /\
    exists msg,
      BaseTDLearningQ.update "TD" Q_target (fun a => a) F32.batch4 e =
      (e, Raise (AttributeError msg)).
Proof.
  apply (Q_init_with_sequence_then_update_fails (B := F32.backend)
           default_optimizer "TD" Q_target (fun a => a) (F32.linear_q 0)
           (PyTuple [PyInt 0; PyNone]) [PyInt 0; PyNone] None None PyNone).
  - right. reflexivity.
  - reflexivity.
Defined.

End Binary32MoreWitnesses.
